(** * Robot salary calculator: day segmentation and minute accounting

    Shallow embedding of [workdays.py], [main.py] and [exceptions.py].

    - Python [datetime] values (always built by [strptime] from whole
      seconds, so microseconds are 0) are absolute second counts: the
      proleptic Gregorian ordinal of the date times 86400 plus the second of
      the day.  Python restricts dates to the years 1..9999; the model does
      not bound them.
    - [timedelta] values are second counts, with [.days] and [.seconds] the
      floor quotient and remainder by 86400, as Python normalises them.
    - Minute counts and pay are Python floats in the source; they are exact
      rationals here.  That includes the total the day loop adds the day pays
      to: on whole-minute timestamps and day windows every day pay is a whole
      number and the float sum is the exact one; on timestamps with seconds
      the float sum can miss the exact one in its last place, and [int] of it
      can then be one less than [int] of the exact sum.
    - A generator is the list of the values it yields, or the exception it
      raises before its first [yield]. *)

From Stdlib Require Import ZArith QArith Qround List Sorted Bool Lia.
Import ListNotations.
Open Scope Z_scope.

(** ** Exceptions *)

(** The string [strftime("%H%M")] produces: two digits of hour, two of
    minute.  [time_of_last_break[:2]] and [[-2:]] are its two fields. *)
Record hhmm : Type := mk_hhmm { hh : Z; mm : Z }.

Inductive exn : Type :=
| InvalidBreakTimeError (break_time : hhmm)
| InvalidShiftError (shift_start shift_end : Z)
| UnboundLocalError.

Inductive result (A : Type) : Type :=
| Ok (a : A)
| Err (e : exn).
Arguments Ok {A} a.
Arguments Err {A} e.

Definition bind {A B : Type} (r : result A) (k : A -> result B) : result B :=
  match r with
  | Ok a => k a
  | Err e => Err e
  end.

Notation "x <- c ;; k" := (bind c (fun x => k))
  (at level 61, c at next level, right associativity).

(** What [InvalidBreakTimeError.__str__] puts in front of its message. *)
Definition offending_break_time (e : exn) : option hhmm :=
  match e with
  | InvalidBreakTimeError t => Some t
  | _ => None
  end.

(** ** The [datetime] library *)

Module Datetime.

Definition datetime : Type := Z.
Definition timedelta : Type := Z.
Bind Scope Z_scope with datetime timedelta.

Definition toordinal (t : datetime) : Z := t / 86400.
Definition second_of_day (t : datetime) : Z := t mod 86400.
Definition hour (t : datetime) : Z := second_of_day t / 3600.
Definition minute (t : datetime) : Z := (second_of_day t mod 3600) / 60.
Definition second (t : datetime) : Z := second_of_day t mod 60.

(** Ordinal of a civil date, 0001-01-01 being day 1. *)
Definition ymd_to_ordinal (y m d : Z) : Z :=
  let y' := if m <=? 2 then y - 1 else y in
  let era := y' / 400 in
  let yoe := y' - era * 400 in
  let mp := (m + 9) mod 12 in
  let doy := (153 * mp + 2) / 5 + d - 1 in
  let doe := yoe * 365 + yoe / 4 - yoe / 100 + doy in
  era * 146097 + doe - 305.

(** Civil date of an ordinal. *)
Definition ordinal_to_ymd (n : Z) : Z * Z * Z :=
  let z := n + 305 in
  let era := z / 146097 in
  let doe := z - era * 146097 in
  let yoe := (doe - doe / 1460 + doe / 36524 - doe / 146096) / 365 in
  let doy := doe - (365 * yoe + yoe / 4 - yoe / 100) in
  let mp := (5 * doy + 2) / 153 in
  let d := doy - (153 * mp + 2) / 5 + 1 in
  let m := if mp <? 10 then mp + 3 else mp - 9 in
  let y := yoe + era * 400 + (if m <=? 2 then 1 else 0) in
  (y, m, d).

Definition year (t : datetime) : Z := fst (fst (ordinal_to_ymd (toordinal t))).
Definition month (t : datetime) : Z := snd (fst (ordinal_to_ymd (toordinal t))).
Definition day (t : datetime) : Z := snd (ordinal_to_ymd (toordinal t)).

(** [datetime.weekday()]: Monday is 0, Sunday is 6. *)
Definition weekday (t : datetime) : Z := (toordinal t + 6) mod 7.

(** [datetime(y, m, d, H, M, S)]. *)
Definition mk_datetime (y m d H M S : Z) : datetime :=
  ymd_to_ordinal y m d * 86400 + H * 3600 + M * 60 + S.

(** [datetime(x.year, x.month, x.day, H, M, S)]: the date of [x] with another
    time of day. *)
Definition on_date_of (x : datetime) (H M S : Z) : datetime :=
  toordinal x * 86400 + H * 3600 + M * 60 + S.

Definition hours (n : Z) : timedelta := n * 3600.
Definition days (n : Z) : timedelta := n * 86400.
Definition td_days (d : timedelta) : Z := d / 86400.
Definition td_seconds (d : timedelta) : Z := d mod 86400.

(** [strptime] fills the date it is not given with 1900-01-01. *)
Definition epoch1900 : datetime := mk_datetime 1900 1 1 0 0 0.

(** [datetime.strptime(s, "%H:%M:%S")] *)
Definition strptime_HMS (H M S : Z) : datetime :=
  epoch1900 + H * 3600 + M * 60 + S.

(** [datetime.strptime(s, "%H%M")] *)
Definition strptime_HM (s : hhmm) : datetime :=
  epoch1900 + hh s * 3600 + mm s * 60.

(** [t.strftime("%H%M")] *)
Definition strftime_HM (t : datetime) : hhmm := mk_hhmm (hour t) (minute t).

(** [range(n)] *)
Definition range (n : Z) : list Z := map Z.of_nat (seq 0 (Z.to_nat n)).

End Datetime.
Import Datetime.

(** ** [workdays.py] *)

(** The attributes every day object gets from [RobotWorkDay.__init__]. *)
Record RobotWorkDay : Type := mk_RobotWorkDay {
  day_start : datetime;
  day_end : datetime;
  day_rate : Z;
  night_rate : Z;
  time_of_last_break : hhmm;
  work_duration_in_hours : Z;
  break_duration_in_hours : Z
}.

(** A time of day as the string ["HH:MM:SS"] of the rate table. *)
Record hms : Type := mk_hms { hms_hour : Z; hms_minute : Z; hms_second : Z }.

(** [if not x: default else: x] on an optional integer argument: [None] and
    [0] are both false. *)
Definition or_default (x : option Z) (d : Z) : Z :=
  match x with
  | None => d
  | Some v => if v =? 0 then d else v
  end.

(** [RobotWorkDay.__init__] *)
Definition RobotWorkDay_init (day_start day_end : hms) (day_rate night_rate : Z)
    (time_of_last_break : option hhmm)
    (work_duration_in_hours break_duration_in_hours : option Z) : RobotWorkDay :=
  {| day_start := strptime_HMS (hms_hour day_start) (hms_minute day_start)
                               (hms_second day_start);
     day_end := strptime_HMS (hms_hour day_end) (hms_minute day_end)
                             (hms_second day_end);
     day_rate := day_rate;
     night_rate := night_rate;
     time_of_last_break :=
       match time_of_last_break with
       | None => mk_hhmm 0 0
       | Some t => t
       end;
     work_duration_in_hours := or_default work_duration_in_hours 8;
     break_duration_in_hours := or_default break_duration_in_hours 1 |}.

(** The four classes: [RobotWorkDay] itself and its three subclasses, each
    with the shift bounds it adds. *)
Inductive segment : Type :=
| FULL (d : RobotWorkDay)
| SHIFT_START (shift_start : datetime) (d : RobotWorkDay)
| SHIFT_END (shift_end : datetime) (d : RobotWorkDay)
| SHIFT_CONFINED (shift_start shift_end : datetime) (d : RobotWorkDay).

Definition base (s : segment) : RobotWorkDay :=
  match s with
  | FULL d | SHIFT_START _ d | SHIFT_END _ d | SHIFT_CONFINED _ _ d => d
  end.

(** The hour loop the three generators share: one iteration per element of
    [hours], yielding the hours at which a break starts.

    <<
    for hour in range(..):
        if isBreak:
            break_hours_taken += 1
            if break_hours_taken == self.break_duration_in_hours:
                break_hours_taken = 0
                isBreak = False
            continue
        if hours_since_break == self.work_duration_in_hours:
            hours_since_break = 0
            isBreak = True
            yield ..
        hours_since_break += 1
    >> *)
Fixpoint break_loop (work break : Z) (hours : list Z) (isBreak : bool)
    (hours_since_break break_hours_taken : Z) : list Z :=
  match hours with
  | [] => []
  | hour :: rest =>
      if isBreak then
        let break_hours_taken := break_hours_taken + 1 in
        if break_hours_taken =? break
        then break_loop work break rest false hours_since_break 0
        else break_loop work break rest true hours_since_break break_hours_taken
      else if hours_since_break =? work then
        hour :: break_loop work break rest true (0 + 1) break_hours_taken
      else
        break_loop work break rest false (hours_since_break + 1) break_hours_taken
  end.

(** [f"{hour:02d}{minute}"] parsed back with ["%H%M"]: the hour takes the two
    padded digits, the minute the one or two that remain. *)
Definition break_time_dt (hour minute : Z) : datetime :=
  strptime_HM (mk_hhmm hour minute).

(** [RobotWorkDay.get_break_timings], inherited by [RobotShiftEndDay]. *)
Definition RobotWorkDay_get_break_timings (d : RobotWorkDay)
    : result (list datetime) :=
  let last_break_hour := hh (time_of_last_break d) in
  let last_break_minute := mm (time_of_last_break d) in
  let latest_break_time :=
    mk_datetime 1900 1 2 0 0 0
    - hours (break_duration_in_hours d) - hours (work_duration_in_hours d) in
  let time_of_last_break_dt := strptime_HM (time_of_last_break d) in
  if time_of_last_break_dt <? latest_break_time
  then Err (InvalidBreakTimeError (time_of_last_break d))
  else
    Ok (map (fun hour => break_time_dt hour last_break_minute)
          (break_loop (work_duration_in_hours d) (break_duration_in_hours d)
             (range 24) false
             (24 - (last_break_hour + break_duration_in_hours d)) 0)).

(** [RobotShiftStartDay.get_break_timings] *)
Definition RobotShiftStartDay_get_break_timings (shift_start : datetime)
    (d : RobotWorkDay) : result (list datetime) :=
  let shift_start_hour := hour shift_start in
  let shift_start_minute := minute shift_start in
  let latest_break_time :=
    on_date_of shift_start 0 0 0 + days 1
    - hours (break_duration_in_hours d) - hours (work_duration_in_hours d) in
  if shift_start <=? latest_break_time
  then
    Ok (map (fun hour => break_time_dt (hour + shift_start_hour) shift_start_minute)
          (break_loop (work_duration_in_hours d) (break_duration_in_hours d)
             (range (24 - shift_start_hour)) false 0 0))
  else Ok [strptime_HM (strftime_HM shift_start)].

(** [RobotWorkHalfDay.get_break_timings].  [main] builds a half day only from
    two timestamps on one date; the whole hours of the shift then end before
    midnight, and every hour handed to [break_time_dt] is below 24.  The
    embedding is for such shifts: across midnight the source would format an
    hour of 24 or more, which ["%H%M"] does not read back as that hour. *)
Definition RobotWorkHalfDay_get_break_timings (shift_start shift_end : datetime)
    (d : RobotWorkDay) : result (list datetime) :=
  let shift_start_hour := hour shift_start in
  let shift_start_minute := minute shift_start in
  let work_hours : timedelta := shift_end - shift_start in
  if work_hours >? hours (work_duration_in_hours d)
  then
    Ok (map (fun hour => break_time_dt (hour + shift_start_hour) shift_start_minute)
          (break_loop (work_duration_in_hours d) (break_duration_in_hours d)
             (range (td_seconds work_hours / 3600)) false 0 0))
  else Ok [strptime_HM (strftime_HM shift_start)].

Definition get_break_timings (s : segment) : result (list datetime) :=
  match s with
  | FULL d => RobotWorkDay_get_break_timings d
  | SHIFT_START ss d => RobotShiftStartDay_get_break_timings ss d
  | SHIFT_END _ d => RobotWorkDay_get_break_timings d
  | SHIFT_CONFINED ss se d => RobotWorkHalfDay_get_break_timings ss se d
  end.

(** [x.seconds / 60] and the other minute counts. *)
Definition minutes_of_seconds (s : Z) : Q := inject_Z s / 60.
Arguments minutes_of_seconds s%_Z.

(** The break loop the four [get_minutes_worked] methods end with.  [skip]
    is the test in front of [continue] ([RobotWorkDay] has none), [in_day]
    the test that selects the bucket. *)
Fixpoint subtract_breaks (skip in_day : datetime -> bool) (break : Z)
    (break_timings : list datetime) (day_minutes night_minutes : Q) : Q * Q :=
  match break_timings with
  | [] => (day_minutes, night_minutes)
  | break_time :: rest =>
      if skip break_time then
        subtract_breaks skip in_day break rest day_minutes night_minutes
      else if in_day break_time then
        subtract_breaks skip in_day break rest
          (day_minutes - inject_Z (break * 60)%Z) night_minutes
      else
        subtract_breaks skip in_day break rest
          day_minutes (night_minutes - inject_Z (break * 60)%Z)
  end.

(** [self.day_start <= break_time < self.day_end - break_duration_td] *)
Definition in_day_half_open (d : RobotWorkDay) (break_time : datetime) : bool :=
  (day_start d <=? break_time)
  && (break_time <? day_end d - hours (break_duration_in_hours d)).

(** [self.day_start <= break_time <= self.day_end - break_duration_td], the
    test of [RobotWorkHalfDay]. *)
Definition in_day_closed (d : RobotWorkDay) (break_time : datetime) : bool :=
  (day_start d <=? break_time)
  && (break_time <=? day_end d - hours (break_duration_in_hours d)).

(** The day window on the date of [x]. *)
Definition shift_day_start (x : datetime) (d : RobotWorkDay) : datetime :=
  on_date_of x (hour (day_start d)) (minute (day_start d)) (second (day_start d)).
Definition shift_day_end (x : datetime) (d : RobotWorkDay) : datetime :=
  on_date_of x (hour (day_end d)) (minute (day_end d)) (second (day_end d)).

(** The minutes each [get_minutes_worked] computes before its break loop. *)
Definition RobotWorkDay_minutes_before_breaks (d : RobotWorkDay) : Q * Q :=
  let day_minutes := minutes_of_seconds (td_seconds (day_end d - day_start d)) in
  let night_minutes := (inject_Z (24 * 60)%Z - day_minutes)%Q in
  (day_minutes, night_minutes).

Definition RobotShiftStartDay_minutes_before_breaks (shift_start : datetime)
    (d : RobotWorkDay) : Q * Q :=
  let day_minutes :=
    if shift_start <? shift_day_start shift_start d then
      minutes_of_seconds (td_seconds (day_end d - day_start d))
    else if shift_start <? shift_day_end shift_start d then
      minutes_of_seconds (td_seconds (shift_day_end shift_start d - shift_start))
    else 0%Q in
  let night_minutes :=
    (inject_Z ((24 - hour shift_start) * 60)%Z - inject_Z (minute shift_start)
     - inject_Z (second shift_start) / 60 - day_minutes)%Q in
  (day_minutes, night_minutes).

Definition RobotShiftEndDay_minutes_before_breaks (shift_end : datetime)
    (d : RobotWorkDay) : Q * Q :=
  let day_minutes :=
    if shift_end <? shift_day_start shift_end d then 0%Q
    else if shift_end <? shift_day_end shift_end d then
      minutes_of_seconds (td_seconds (shift_end - shift_day_start shift_end d))
    else minutes_of_seconds (td_seconds (day_end d - day_start d)) in
  let night_minutes :=
    (inject_Z (hour shift_end * 60)%Z + inject_Z (minute shift_end)
     + inject_Z (second shift_end) / 60 - day_minutes)%Q in
  (day_minutes, night_minutes).

(** The case split of [RobotWorkHalfDay.get_minutes_worked].  Its last branch
    only prints, so [day_minutes] stays unbound and the next statement, which
    reads it, raises [UnboundLocalError]. *)
Definition RobotWorkHalfDay_day_minutes (shift_start shift_end : datetime)
    (d : RobotWorkDay) : result Q :=
  let sds := shift_day_start shift_start d in
  let sde := shift_day_end shift_start d in
  if (shift_start >=? sde) || (shift_end <=? sds) then Ok 0%Q
  else if (shift_start <? sds) && (shift_end >? sde) then
    Ok (minutes_of_seconds (td_seconds (day_end d - day_start d)))
  else if (shift_start >? sds) && (shift_end <? sde) then
    Ok (minutes_of_seconds (td_seconds (shift_end - shift_start)))
  else if (shift_start >? sds) && (shift_end >? sde) then
    Ok (minutes_of_seconds (td_seconds (sde - shift_start)))
  else if (shift_start <? sds) && (shift_end <? sde) then
    Ok (minutes_of_seconds (td_seconds (shift_end - sds)))
  else Err UnboundLocalError.

Definition RobotWorkHalfDay_minutes_before_breaks (shift_start shift_end : datetime)
    (d : RobotWorkDay) : result (Q * Q) :=
  day_minutes <- RobotWorkHalfDay_day_minutes shift_start shift_end d;;
  let night_minutes :=
    (minutes_of_seconds (td_seconds (shift_end - shift_start)) - day_minutes)%Q in
  Ok (day_minutes, night_minutes).

Definition minutes_before_breaks (s : segment) : result (Q * Q) :=
  match s with
  | FULL d => Ok (RobotWorkDay_minutes_before_breaks d)
  | SHIFT_START ss d => Ok (RobotShiftStartDay_minutes_before_breaks ss d)
  | SHIFT_END se d => Ok (RobotShiftEndDay_minutes_before_breaks se d)
  | SHIFT_CONFINED ss se d => RobotWorkHalfDay_minutes_before_breaks ss se d
  end.

(** [datetime(1900, 1, 1, x_hour, x_minute)] *)
Definition HHMM_1900 (x : datetime) : datetime :=
  mk_datetime 1900 1 1 (hour x) (minute x) 0.

(** The test in front of [continue] in each break loop. *)
Definition skips (s : segment) (break_time : datetime) : bool :=
  match s with
  | FULL _ => false
  | SHIFT_START ss _ => break_time =? HHMM_1900 ss
  | SHIFT_END se d =>
      break_time >? HHMM_1900 se - hours (break_duration_in_hours d)
  | SHIFT_CONFINED ss _ _ => break_time =? HHMM_1900 ss
  end.

(** The test that sends a break to [day_minutes]. *)
Definition in_day (s : segment) (break_time : datetime) : bool :=
  match s with
  | FULL d | SHIFT_START _ d | SHIFT_END _ d => in_day_half_open d break_time
  | SHIFT_CONFINED _ _ d => in_day_closed d break_time
  end.

(** [get_minutes_worked(break_timings)].  The argument is a generator that
    has not run yet: the minutes are computed first, and the generator's
    exception, if it raises one, surfaces when the [for] loop starts. *)
Definition get_minutes_worked (s : segment)
    (break_timings : result (list datetime)) : result (Q * Q) :=
  before <- minutes_before_breaks s;;
  breaks <- break_timings;;
  Ok (subtract_breaks (skips s) (in_day s) (break_duration_in_hours (base s))
        breaks (fst before) (snd before)).

(** [round(x)] of Python: to the nearest integer, ties to the even one. *)
Definition round_half_even (q : Q) : Z :=
  let f := Qfloor q in
  match (q - inject_Z f ?= 1 # 2)%Q with
  | Lt => f
  | Gt => f + 1
  | Eq => if Z.even f then f else f + 1
  end.

(** [round(x, 2)] *)
Definition round2 (q : Q) : Q := (inject_Z (round_half_even (q * 100)) / 100)%Q.

(** [int(x)]: truncation towards zero. *)
Definition int_of (q : Q) : Z := Z.quot (Qnum q) (Zpos (Qden q)).

(** [calculate_pay] *)
Definition calculate_pay (d : RobotWorkDay) (day_minutes night_minutes : Q) : Q :=
  let day_pay := (day_minutes * inject_Z (day_rate d))%Q in
  let night_pay := (night_minutes * inject_Z (night_rate d))%Q in
  let pay := (day_pay + night_pay)%Q in
  round2 pay.

(** ** [main.py] *)

(** The rate table: the four entries [parse_roboRate_values] reads, rates
    already integers. *)
Record roboRate : Type := mk_roboRate {
  standardDay_start : hms;
  standardDay_end : hms;
  standardDay_value : Z;
  standardNight_value : Z;
  extraDay_start : hms;
  extraDay_end : hms;
  extraDay_value : Z;
  extraNight_value : Z
}.

Definition parse_roboRate_values (r : roboRate) (day : Z) : hms * hms * Z * Z :=
  if day >? 4
  then (extraDay_start r, extraDay_end r, extraDay_value r, extraNight_value r)
  else (standardDay_start r, standardDay_end r, standardDay_value r,
        standardNight_value r).

Definition calculate_half_day_pay (shift_start shift_end : datetime)
    (r : roboRate) : result Z :=
  let day := weekday shift_start in
  let '(day_start, day_end, day_rate, night_rate) := parse_roboRate_values r day in
  let work_day :=
    SHIFT_CONFINED shift_start shift_end
      (RobotWorkDay_init day_start day_end day_rate night_rate None None None) in
  minutes_worked <- get_minutes_worked work_day (get_break_timings work_day);;
  let value := calculate_pay (base work_day) (fst minutes_worked) (snd minutes_worked) in
  Ok (int_of value).

(** The three day counts of [calculate_total_pay] and their maximum.  The
    third divides a [timedelta.seconds], which is below 86400, so its [int]
    part is the integer quotient. *)
Definition day_count_by_day_of_month (shift_start shift_end : datetime) : Z :=
  day shift_end - day shift_start.
Definition day_count_by_timedelta_days (shift_start shift_end : datetime) : Z :=
  td_days (shift_end - shift_start).
Definition day_count_by_seconds (shift_start shift_end : datetime) : Z :=
  let shift_duration_seconds := td_seconds (shift_end - shift_start) in
  shift_duration_seconds / 86400
  + (if shift_duration_seconds mod 86400 >? 0 then 1 else 0).

Definition shift_duration_days (shift_start shift_end : datetime) : Z :=
  let n := day_count_by_day_of_month shift_start shift_end in
  let duration_days := day_count_by_timedelta_days shift_start shift_end in
  let n := if duration_days >? n then duration_days else n in
  let duration_days := day_count_by_seconds shift_start shift_end in
  let n := if duration_days >? n then duration_days else n in
  n.

(** The variables the day loop of [calculate_total_pay] updates, and the
    day objects it has built so far. *)
Record loop_state : Type := mk_loop_state {
  current_day : datetime;
  carried_break : hhmm;
  value : Q;
  processed : list segment
}.

(** The day object iteration [i] builds. *)
Definition work_day_of (r : roboRate) (shift_start shift_end : datetime)
    (n i : Z) (st : loop_state) : segment :=
  let day := weekday (current_day st) in
  let '(day_start, day_end, day_rate, night_rate) := parse_roboRate_values r day in
  if i =? 0 then
    SHIFT_START shift_start
      (RobotWorkDay_init day_start day_end day_rate night_rate None None None)
  else if i =? n then
    SHIFT_END shift_end
      (RobotWorkDay_init day_start day_end day_rate night_rate
         (Some (carried_break st)) None None)
  else
    FULL (RobotWorkDay_init day_start day_end day_rate night_rate
            (Some (carried_break st)) None None).

(** [for break_time in ..: time_of_last_break = break_time.strftime("%H%M")] *)
Definition last_break (break_timings : list datetime) (time_of_last_break : hhmm)
    : hhmm :=
  fold_left (fun _ break_time => strftime_HM break_time) break_timings
    time_of_last_break.

(** One iteration of the day loop.  [value] is the exact sum of the day
    pays; the source keeps it as a float ([value += ..]), which is the same
    number as long as the day pays are whole numbers. *)
Definition loop_body (r : roboRate) (shift_start shift_end : datetime) (n : Z)
    (st : loop_state) (i : Z) : result loop_state :=
  let work_day := work_day_of r shift_start shift_end n i st in
  minutes_worked <- get_minutes_worked work_day (get_break_timings work_day);;
  break_timings <- get_break_timings work_day;;
  Ok {| current_day := current_day st + days 1;
        carried_break := last_break break_timings (carried_break st);
        value := (value st + calculate_pay (base work_day) (fst minutes_worked)
                               (snd minutes_worked))%Q;
        processed := processed st ++ [work_day] |}.

(** [for i in ..: body], stopping at the first exception. *)
Fixpoint for_each (body : loop_state -> Z -> result loop_state) (indices : list Z)
    (st : loop_state) : result loop_state :=
  match indices with
  | [] => Ok st
  | i :: rest => st' <- body st i;; for_each body rest st'
  end.

Definition initial_state (shift_start : datetime) : loop_state :=
  {| current_day := shift_start;
     carried_break := strftime_HM shift_start;
     value := 0%Q;
     processed := [] |}.

(** The day loop of [calculate_total_pay], with the state it ends in. *)
Definition run_days (shift_start shift_end : datetime) (r : roboRate)
    : result loop_state :=
  let n := shift_duration_days shift_start shift_end in
  for_each (loop_body r shift_start shift_end n) (range (n + 1))
    (initial_state shift_start).

Definition calculate_total_pay (shift_start shift_end : datetime) (r : roboRate)
    : result Z :=
  st <- run_days shift_start shift_end r;;
  Ok (int_of (value st)).

(** [main], from the two parsed timestamps on: the number of
    [{"value": ..}].  The two [strftime("%Y%m%d")] strings are equal exactly
    when the two dates, hence their ordinals, are. *)
Definition main (shift_start shift_end : datetime) (r : roboRate) : result Z :=
  if toordinal shift_start =? toordinal shift_end
  then calculate_half_day_pay shift_start shift_end r
  else calculate_total_pay shift_start shift_end r.

(** ** Scenario values *)

Definition window_07 : hms := mk_hms 7 0 0.
Definition window_23 : hms := mk_hms 23 0 0.

(** Weekdays 07:00-23:00 at 20 by day and 25 by night, weekends the same
    window at 30 and 35. *)
Definition rates_20_25 : roboRate :=
  mk_roboRate window_07 window_23 20 25 window_07 window_23 30 35.

(** The default day object on the weekday window of the scenarios. *)
Definition day_07_23 (time_of_last_break : option hhmm) : RobotWorkDay :=
  RobotWorkDay_init window_07 window_23 20 25 time_of_last_break None None.

(** ** Notions of the statements *)

(** What the case split of [RobotWorkHalfDay] leaves uncovered. *)
Definition falls_through (shift_start shift_end : datetime) (d : RobotWorkDay)
    : Prop :=
  let sds := shift_day_start shift_start d in
  let sde := shift_day_end shift_start d in
  shift_start < sde /\ sds < shift_end /\ (shift_start = sds \/ shift_end = sde).

(** The minutes a segment spans, as the specification counts them: the
    whole day, shift start to the next midnight, midnight to shift end, or
    the shift itself. *)
Definition elapsed_minutes (s : segment) : Q :=
  match s with
  | FULL _ => 1440
  | SHIFT_START ss _ => minutes_of_seconds (on_date_of ss 0 0 0 + days 1 - ss)
  | SHIFT_END se _ => minutes_of_seconds (se - on_date_of se 0 0 0)
  | SHIFT_CONFINED ss se _ => minutes_of_seconds (se - ss)
  end.

(** A half day lies on one date and does not end before it starts. *)
Definition within_one_day (s : segment) : Prop :=
  match s with
  | SHIFT_CONFINED ss se _ => toordinal ss = toordinal se /\ ss <= se
  | _ => True
  end.

(** The segment is a [RobotWorkHalfDay]. *)
Definition is_half_day (s : segment) : bool :=
  match s with
  | SHIFT_CONFINED _ _ _ => true
  | _ => false
  end.

(** Midnight of 1900-01-02 walked back by the break and the work duration:
    the bound [RobotWorkDay.get_break_timings] checks against. *)
Definition latest_break_time_1900 (d : RobotWorkDay) : datetime :=
  mk_datetime 1900 1 2 0 0 0
  - hours (break_duration_in_hours d) - hours (work_duration_in_hours d).

(** The next midnight after [shift_start] walked back the same way: the bound
    of [RobotShiftStartDay.get_break_timings]. *)
Definition latest_break_time_of (shift_start : datetime) (d : RobotWorkDay)
    : datetime :=
  on_date_of shift_start 0 0 0 + days 1
  - hours (break_duration_in_hours d) - hours (work_duration_in_hours d).

(** The computation ended in [InvalidShiftError]. *)
Definition raises_shift_error {A : Type} (r : result A) : Prop :=
  exists x y, r = Err (InvalidShiftError x y).

(** A time of last break the default policy admits: 15:00 or later. *)
Definition valid_carry (t : hhmm) : Prop :=
  15 <= hh t < 24 /\ 0 <= mm t < 60.

(** The last hour a run of the hour loop yields, shifted by [offset], is an
    hour from 15 to 23. *)
Definition last_hour_ok (offset : Z) (emitted : list Z) : bool :=
  match rev emitted with
  | [] => false
  | e :: _ => (15 <=? e + offset) && (e + offset <? 24)
  end.

(** The day loop builds its day objects with the default policy. *)
Definition default_policy (d : RobotWorkDay) : Prop :=
  work_duration_in_hours d = 8 /\ break_duration_in_hours d = 1.

(** A break the break loop charges to [day_minutes]. *)
Definition charged (skip in_day : datetime -> bool) (b : datetime) : bool :=
  negb (skip b) && in_day b.

(** Break times in increasing order, an hour or more apart. *)
Definition spaced (breaks : list datetime) : Prop :=
  StronglySorted (fun a b => a + 3600 <= b) breaks.

(** The day window is the one [strptime] builds from two times of day, the
    first before the second. *)
Definition window_ok (d : RobotWorkDay) : Prop :=
  epoch1900 <= day_start d /\ day_start d < day_end d
  /\ day_end d < epoch1900 + 86400.

(** A well-formed segment with the default policy: a day window that opens
    before it closes, for a full or shift-end day a time of last break the
    guard admits, for a half day a shift inside one date. *)
Definition well_formed (s : segment) : Prop :=
  default_policy (base s) /\ window_ok (base s)
  /\ match s with
     | FULL d | SHIFT_END _ d => valid_carry (time_of_last_break d)
     | SHIFT_START _ _ => True
     | SHIFT_CONFINED ss se _ => toordinal ss = toordinal se /\ ss <= se
     end.

(** The times of last break the day objects of a run were built with. *)
Definition carried_breaks (st : loop_state) : list hhmm :=
  map (fun s => time_of_last_break (base s)) (processed st).

(** Iterations of the hour loop left before its next [yield]: what remains
    of a running break, then what is missing of the work duration. *)
Definition until_break (work break : Z) (isBreak : bool)
    (hours_since_break break_hours_taken : Z) : Z :=
  if isBreak
  then (break - break_hours_taken) + (work - hours_since_break)
  else work - hours_since_break.

(** The breaks of a segment that its break loop does not skip. *)
Definition surviving (s : segment) (breaks : list datetime) : list datetime :=
  filter (fun b => negb (skips s b)) breaks.

(** The day object [calculate_half_day_pay] builds for a shift that starts
    at [shift_start]. *)
Definition half_day_object (r : roboRate) (shift_start : datetime)
    : RobotWorkDay :=
  let '(day_start, day_end, day_rate, night_rate) :=
    parse_roboRate_values r (weekday shift_start) in
  RobotWorkDay_init day_start day_end day_rate night_rate None None None.

(** Every break time the generator of [s] yields starts at minute [m],
    second 0. *)
Definition breaks_on_minute (m : Z) (s : segment) : Prop :=
  forall breaks, get_break_timings s = Ok breaks ->
    forall b, In b breaks -> minute b = m /\ second b = 0.

(** The day of the month of the day numbered [doe] in its 400-year era, as
    [ordinal_to_ymd] computes it. *)
Definition day_of_era (doe : Z) : Z :=
  let yoe := (doe - doe / 1460 + doe / 36524 - doe / 146096) / 365 in
  let doy := doe - (365 * yoe + yoe / 4 - yoe / 100) in
  let mp := (5 * doy + 2) / 153 in
  doy - (153 * mp + 2) / 5 + 1.

(** From one day to the next the day of the month grows by one or starts
    again: checked for the days [0 .. n-1] of an era. *)
Definition day_steps_checked (n : positive) : bool * Z :=
  Pos.iter
    (fun '(ok, i) =>
       (ok && (day_of_era ((i + 1) mod 146097) <=? day_of_era i + 1), i + 1))
    (true, 0) n.

(** The day object the day loop builds at index [i] when the time of last
    break it carries is [t]: the one of the date [i] days after the shift
    start. *)
Definition day_object (r : roboRate) (shift_start shift_end : datetime)
    (n i : Z) (t : hhmm) : segment :=
  work_day_of r shift_start shift_end n i
    {| current_day := shift_start + days i; carried_break := t;
       value := 0%Q; processed := [] |}.

(** ** [test.py] *)

(** [get_GCD], with the depth of its recursion bounded by [fuel]:
    <<
    def get_GCD(a,b):
        if a == 0:
            return b
        return get_GCD(b % a, a)
    >>
    [None] is a recursion that has not ended within [fuel] calls. *)
Fixpoint get_GCD_fuel (fuel : nat) (a b : Z) : option Z :=
  match fuel with
  | O => None
  | S fuel => if a =? 0 then Some b else get_GCD_fuel fuel (b mod a) a
  end.

Definition get_GCD (a b : Z) : option Z := get_GCD_fuel (S (Z.abs_nat a)) a b.

(** [get_LCM]: [(a / get_GCD(a,b)) * b].  The division is Python's true
    division; the divisor divides [a], so the float it gives is the whole
    quotient.  [None] is [ZeroDivisionError] (or [get_GCD] not returning). *)
Definition get_LCM (a b : Z) : option Z :=
  match get_GCD a b with
  | None => None
  | Some g => if g =? 0 then None else Some (a / g * b)
  end.

(** [get_work_cycle]: the hours after which the break timings repeat, and the
    days after which the pay does. *)
Definition work_break_period (work break : Z) : option Z :=
  get_LCM (work + break) 24.

Definition get_work_cycle (work break : Z) : option Z :=
  match work_break_period work break with
  | None => None
  | Some period =>
      match get_LCM period 7 with
      | None => None
      | Some hours_of_cycle => Some (hours_of_cycle / 24)
      end
  end.

(** The day object [d] with another time of last break. *)
Definition with_last_break (d : RobotWorkDay) (t : hhmm) : RobotWorkDay :=
  {| day_start := day_start d; day_end := day_end d;
     day_rate := day_rate d; night_rate := night_rate d;
     time_of_last_break := t;
     work_duration_in_hours := work_duration_in_hours d;
     break_duration_in_hours := break_duration_in_hours d |}.

(** The time of last break the day loop carries out of a full day it entered
    with [t]. *)
Definition carry_over (d : RobotWorkDay) (t : hhmm) : hhmm :=
  match get_break_timings (FULL (with_last_break d t)) with
  | Ok breaks => last_break breaks t
  | Err _ => t
  end.

(** The hour a time of last break at hour [h] is carried to by a full day
    under the default policy. *)
Definition carried_hour (h : Z) : Z := if h <=? 20 then h + 3 else h - 6.

(** The last hour a run of the hour loop yields is [e]. *)
Definition last_hour_is (e : Z) (emitted : list Z) : bool :=
  match rev emitted with
  | [] => false
  | x :: _ => x =? e
  end.

(** The break times the hour loop of a half day yields under the default
    policy: one for each hour the loop [yield]s at, over the whole hours of
    the shift. *)
Definition half_day_loop_breaks (shift_start shift_end : datetime)
    : list datetime :=
  map (fun x => break_time_dt (x + hour shift_start) (minute shift_start))
    (break_loop 8 1 (range (td_seconds (shift_end - shift_start) / 3600))
       false 0 0).

(** The same for a shift-start day, whose loop runs to midnight. *)
Definition start_day_loop_breaks (shift_start : datetime) : list datetime :=
  map (fun x => break_time_dt (x + hour shift_start) (minute shift_start))
    (break_loop 8 1 (range (24 - hour shift_start)) false 0 0).

(** The seconds a shift on one date shares with the day window, and those a
    shift-start day shares with it. *)
Definition overlap_seconds (shift_start shift_end : datetime) (d : RobotWorkDay)
    : Z :=
  Z.max 0 (Z.min (day_end d) (epoch1900 + second_of_day shift_end)
           - Z.max (day_start d) (epoch1900 + second_of_day shift_start)).
Definition start_overlap_seconds (shift_start : datetime) (d : RobotWorkDay)
    : Z :=
  Z.max 0 (day_end d
           - Z.max (day_start d) (epoch1900 + second_of_day shift_start)).

(** How many breaks of a list the test [in_day] sends to the day, and how
    many to the night. *)
Definition day_breaks (in_day : datetime -> bool) (breaks : list datetime) : Z :=
  Z.of_nat (length (filter in_day breaks)).
Definition night_breaks (in_day : datetime -> bool) (breaks : list datetime)
    : Z :=
  Z.of_nat (length (filter (fun b => negb (in_day b)) breaks)).

(** A day window that opens before it closes, both on a whole minute. *)
Definition whole_minute_window (d : RobotWorkDay) : Prop :=
  window_ok d /\ second (day_start d) = 0 /\ second (day_end d) = 0.

(** Both rows of the rate table have such a window. *)
Definition whole_minute_rates (r : roboRate) : Prop :=
  forall t, whole_minute_window (half_day_object r t).

(** * Properties *)

(** ** Results and exceptions *)

Lemma bind_Ok {A B : Type} (c : result A) (k : A -> result B) (b : B) :
  bind c k = Ok b -> exists a, c = Ok a /\ k a = Ok b.
Proof.
  destruct c as [a | e]; simpl; intros H; [eauto | discriminate].
Qed.

Lemma Ok_inj {A : Type} (a b : A) : Ok a = Ok b -> a = b.
Proof. intros H. injection H as H. exact H. Qed.

Lemma Err_inj {A : Type} (e e' : exn) : @Err A e = Err e' -> e = e'.
Proof. intros H. injection H as H. exact H. Qed.

Lemma bind_Err {A B : Type} (c : result A) (k : A -> result B) (e : exn) :
  bind c k = Err e -> c = Err e \/ exists a, c = Ok a /\ k a = Err e.
Proof.
  destruct c as [a | e']; simpl; intros H;
    [right; eauto | left; inversion H; reflexivity].
Qed.

(** ** The calendar *)

Example calendar_known_dates :
  toordinal (mk_datetime 1 1 1 0 0 0) = 1
  /\ toordinal (mk_datetime 1970 1 1 0 0 0) = 719163
  /\ toordinal (mk_datetime 9999 12 31 23 59 59) = 3652059
  /\ ordinal_to_ymd (ymd_to_ordinal 2024 2 29) = (2024, 2, 29)
  /\ ordinal_to_ymd (ymd_to_ordinal 2024 2 29 + 1) = (2024, 3, 1)
  /\ ordinal_to_ymd (ymd_to_ordinal 2100 2 28 + 1) = (2100, 3, 1)
  /\ weekday (mk_datetime 2038 1 1 20 15 0) = 4
  /\ day (mk_datetime 2038 1 31 10 0 0) = 31
  /\ strftime_HM (mk_datetime 2038 1 1 20 15 0) = mk_hhmm 20 15.
Proof. repeat split; reflexivity. Qed.

Lemma epoch1900_seconds : epoch1900 = 59926694400.
Proof. reflexivity. Qed.

Lemma HHMM_1900_strptime (x : datetime) :
  HHMM_1900 x = strptime_HM (strftime_HM x).
Proof.
  unfold HHMM_1900, strptime_HM, strftime_HM, epoch1900, mk_datetime, datetime;
    simpl hh; simpl mm; lia.
Qed.

(** ** The case split of the half day *)

Lemma half_day_falls_through (ss se : datetime) (d : RobotWorkDay) :
  RobotWorkHalfDay_day_minutes ss se d = Err UnboundLocalError
  <-> falls_through ss se d.
Proof.
  unfold RobotWorkHalfDay_day_minutes, falls_through.
  set (sds := shift_day_start ss d). set (sde := shift_day_end ss d).
  destruct (Z.geb_spec ss sde), (Z.leb_spec se sds), (Z.ltb_spec ss sds),
    (Z.gtb_spec se sde), (Z.gtb_spec ss sds), (Z.ltb_spec se sde);
    simpl; split; intros Hcase; try discriminate; try lia; try reflexivity.
Qed.

Lemma half_day_day_minutes_exn (ss se : datetime) (d : RobotWorkDay) (e : exn) :
  RobotWorkHalfDay_day_minutes ss se d = Err e -> e = UnboundLocalError.
Proof.
  unfold RobotWorkHalfDay_day_minutes.
  repeat match goal with
         | |- context [if ?c then _ else _] => destruct c
         end; intros H; inversion H; reflexivity.
Qed.

(** ** No path raises [InvalidShiftError] *)

Lemma bind_no_shift_error {A B : Type} (c : result A) (k : A -> result B) :
  ~ raises_shift_error c -> (forall a, ~ raises_shift_error (k a)) ->
  ~ raises_shift_error (bind c k).
Proof.
  intros Hc Hk [x [y H]]. apply bind_Err in H as [H | [a [_ H]]].
  - apply Hc; exists x, y; exact H.
  - apply (Hk a); exists x, y; exact H.
Qed.

Lemma Ok_no_shift_error {A : Type} (a : A) : ~ raises_shift_error (Ok a).
Proof. intros [x [y H]]; discriminate. Qed.

Lemma get_break_timings_no_shift_error (s : segment) :
  ~ raises_shift_error (get_break_timings s).
Proof.
  intros [x [y H]]. destruct s; simpl in H;
    unfold RobotWorkDay_get_break_timings, RobotShiftStartDay_get_break_timings,
      RobotWorkHalfDay_get_break_timings in H;
    repeat match type of H with
           | (if ?c then _ else _) = _ => destruct c
           end; discriminate.
Qed.

Lemma minutes_before_breaks_no_shift_error (s : segment) :
  ~ raises_shift_error (minutes_before_breaks s).
Proof.
  intros [x [y H]]. destruct s; simpl in H; try discriminate.
  unfold RobotWorkHalfDay_minutes_before_breaks in H.
  apply bind_Err in H as [H | [a [_ H]]]; [| discriminate].
  apply half_day_day_minutes_exn in H; discriminate.
Qed.

Lemma get_minutes_worked_no_shift_error (s : segment) :
  ~ raises_shift_error (get_minutes_worked s (get_break_timings s)).
Proof.
  unfold get_minutes_worked. apply bind_no_shift_error.
  - apply minutes_before_breaks_no_shift_error.
  - intros before. apply bind_no_shift_error.
    + apply get_break_timings_no_shift_error.
    + intros breaks. apply Ok_no_shift_error.
Qed.

Lemma for_each_no_shift_error (body : loop_state -> Z -> result loop_state)
    (indices : list Z) :
  (forall st i, ~ raises_shift_error (body st i)) ->
  forall st, ~ raises_shift_error (for_each body indices st).
Proof.
  intros Hbody. induction indices as [| i rest IH]; intros st; simpl.
  - apply Ok_no_shift_error.
  - apply bind_no_shift_error; [apply Hbody | exact IH].
Qed.

Lemma main_no_shift_error (ss se : datetime) (r : roboRate) :
  ~ raises_shift_error (main ss se r).
Proof.
  unfold main. destruct (toordinal ss =? toordinal se).
  - unfold calculate_half_day_pay.
    destruct (parse_roboRate_values r (weekday ss)) as [[[ds de] dr] nr].
    apply bind_no_shift_error.
    + apply get_minutes_worked_no_shift_error.
    + intros m. apply Ok_no_shift_error.
  - unfold calculate_total_pay. apply bind_no_shift_error.
    + unfold run_days. apply for_each_no_shift_error. intros st i.
      unfold loop_body. apply bind_no_shift_error.
      * apply get_minutes_worked_no_shift_error.
      * intros m. apply bind_no_shift_error.
        -- apply get_break_timings_no_shift_error.
        -- intros b. apply Ok_no_shift_error.
    + intros st. apply Ok_no_shift_error.
Qed.

(** ** Claims *)

(** C1 (the half day departs from it).  The claim gives all four roles the
    half-open test [day_start <= break < day_end - break_duration].
    [RobotWorkDay], [RobotShiftStartDay] and [RobotShiftEndDay] use it, but
    [RobotWorkHalfDay] compares with [<=]: on the shift 2038-01-01 14:00:00 to
    23:30:00 with the window 07:00-23:00 the one break, at 22:00, is the
    window's end minus the break duration, it survives the filter, it is
    outside the half-open interval, and yet its 60 minutes leave
    [day_minutes] (540 to 480) while [night_minutes] stays at 30. *)
Theorem half_day_charges_break_at_closed_bound :
  let d := day_07_23 None in
  let s := SHIFT_CONFINED (mk_datetime 2038 1 1 14 0 0)
             (mk_datetime 2038 1 1 23 30 0) d in
  let b := break_time_dt 22 0 in
  get_break_timings s = Ok [b]
  /\ b = day_end d - hours (break_duration_in_hours d)
  /\ skips s b = false
  /\ in_day_half_open d b = false
  /\ in_day (FULL d) b = false
  /\ in_day s b = true
  /\ (exists dm nm, minutes_before_breaks s = Ok (dm, nm)
                    /\ (dm == 540)%Q /\ (nm == 30)%Q)
  /\ (exists dm nm, get_minutes_worked s (get_break_timings s) = Ok (dm, nm)
                    /\ (dm == 480)%Q /\ (nm == 30)%Q).
Proof.
  cbv zeta. repeat split; try reflexivity.
  - eexists; eexists; split; [vm_compute; reflexivity | split; reflexivity].
  - eexists; eexists; split; [vm_compute; reflexivity | split; reflexivity].
Qed.

(** C3, as the claim has it, fails: with the default policy the time of last
    break ["0000"] is before 15:00, so the generator of a full day raises and
    yields nothing. *)
Lemma full_day_0000_raises :
  get_break_timings (FULL (day_07_23 (Some (mk_hhmm 0 0))))
  = Err (InvalidBreakTimeError (mk_hhmm 0 0))
  /\ forall breaks,
       get_break_timings (FULL (day_07_23 (Some (mk_hhmm 0 0)))) <> Ok breaks.
Proof.
  split; [reflexivity | intros breaks H; discriminate].
Qed.

(** C3 (amended).  With work 8 h and break 1 h, a full day whose time of last
    break is ["0000"] raises [InvalidBreakTimeError] and yields no break;
    with ["1500"], the earliest admitted value, [hours_since_break] starts at
    [24 - (15 + 1) = 8] and the breaks are 00:00, 09:00 and 18:00, nine hours
    apart from hour 0.  Either way the minutes before the break loop add up
    to 1440. *)
Theorem full_day_nine_hour_cycle :
  get_break_timings (FULL (day_07_23 (Some (mk_hhmm 0 0))))
  = Err (InvalidBreakTimeError (mk_hhmm 0 0))
  /\ 24 - (hh (mk_hhmm 15 0) + break_duration_in_hours (day_07_23 None))
     = work_duration_in_hours (day_07_23 None)
  /\ get_break_timings (FULL (day_07_23 (Some (mk_hhmm 15 0))))
     = Ok [break_time_dt 0 0; break_time_dt 9 0; break_time_dt 18 0]
  /\ (forall t,
        (fst (RobotWorkDay_minutes_before_breaks (day_07_23 t))
         + snd (RobotWorkDay_minutes_before_breaks (day_07_23 t)) == 1440)%Q).
Proof.
  repeat split; intros; reflexivity.
Qed.

(** C7 (the code falls through).  A half day that starts when the day window
    opens, 2038-01-01 07:00:00 to 12:00:00 against 07:00-23:00, meets none of
    the five conditions: the branch that only prints is taken, [day_minutes]
    is never bound and the computation ends in [UnboundLocalError].  The
    same happens whenever the shift overlaps the window and starts at its
    opening or ends at its close. *)
Theorem half_day_case_split_not_exhaustive :
  let ss := mk_datetime 2038 1 1 7 0 0 in
  let se := mk_datetime 2038 1 1 12 0 0 in
  toordinal ss = toordinal se
  /\ ss < se
  /\ RobotWorkHalfDay_day_minutes ss se (day_07_23 None) = Err UnboundLocalError
  /\ main ss se rates_20_25 = Err UnboundLocalError
  /\ (forall ss se d,
        RobotWorkHalfDay_day_minutes ss se d = Err UnboundLocalError
        <-> falls_through ss se d).
Proof.
  cbv zeta. split; [reflexivity |]. split; [reflexivity |].
  split; [reflexivity |]. split; [reflexivity |].
  intros ss se d. apply half_day_falls_through.
Qed.

(** C8 (the code never rejects).  [InvalidShiftError] is declared but raised
    nowhere: no input makes [main] end in it, and for the shift that starts
    at 2038-01-01 12:00:00 and ends at 10:00:00 the same day [main] returns
    the pay 26400. *)
Theorem shift_bounds_not_checked :
  main (mk_datetime 2038 1 1 12 0 0) (mk_datetime 2038 1 1 10 0 0) rates_20_25
  = Ok 26400
  /\ mk_datetime 2038 1 1 10 0 0 < mk_datetime 2038 1 1 12 0 0
  /\ (forall ss se r x y, main ss se r <> Err (InvalidShiftError x y)).
Proof.
  split; [reflexivity | split; [reflexivity |]].
  intros ss se r x y H. apply (main_no_shift_error ss se r). exists x, y; exact H.
Qed.

(** ** Time arithmetic *)

Lemma datetime_split (t : datetime) :
  t = toordinal t * 86400 + second_of_day t.
Proof.
  unfold toordinal, second_of_day, datetime in *.
  Z.to_euclidean_division_equations; lia.
Qed.

Lemma second_of_day_split (t : datetime) :
  second_of_day t = hour t * 3600 + minute t * 60 + second t.
Proof.
  unfold hour, minute, second. generalize (second_of_day t); intros x.
  Z.to_euclidean_division_equations; lia.
Qed.

Lemma second_of_day_range (t : datetime) : 0 <= second_of_day t < 86400.
Proof. unfold second_of_day. apply Z.mod_pos_bound. lia. Qed.

Lemma hour_range (t : datetime) : 0 <= hour t < 24.
Proof.
  unfold hour. pose proof (second_of_day_range t).
  Z.to_euclidean_division_equations; lia.
Qed.

Lemma minute_range (t : datetime) : 0 <= minute t < 60.
Proof.
  unfold minute. generalize (second_of_day t); intros x.
  Z.to_euclidean_division_equations; lia.
Qed.

Lemma second_range (t : datetime) : 0 <= second t < 60.
Proof. unfold second. apply Z.mod_pos_bound. lia. Qed.

Lemma td_seconds_small (x : timedelta) : 0 <= x < 86400 -> td_seconds x = x.
Proof. intros H. unfold td_seconds. apply Z.mod_small. exact H. Qed.

Lemma inject_Z_sub (x y : Z) : inject_Z (x - y) = (inject_Z x - inject_Z y)%Q.
Proof.
  unfold Z.sub, Qminus. rewrite inject_Z_plus, inject_Z_opp. reflexivity.
Qed.

(** ** The minutes before the break loop *)

Lemma start_day_minutes_sum (ss : datetime) (d : RobotWorkDay) :
  (fst (RobotShiftStartDay_minutes_before_breaks ss d)
   + snd (RobotShiftStartDay_minutes_before_breaks ss d)
   == elapsed_minutes (SHIFT_START ss d))%Q.
Proof.
  unfold RobotShiftStartDay_minutes_before_breaks, elapsed_minutes. cbv zeta.
  cbn [fst snd].
  match goal with |- context [Qplus ?x (Qminus _ ?x)] => generalize x end.
  intros dm.
  assert (E : on_date_of ss 0 0 0 + days 1 - ss
              = (24 - hour ss) * 60 * 60 - minute ss * 60 - second ss).
  { unfold on_date_of, days. pose proof (datetime_split ss) as Hs.
    pose proof (second_of_day_split ss). unfold datetime in *. lia. }
  rewrite E. unfold minutes_of_seconds.
  rewrite !inject_Z_sub, !inject_Z_mult. field.
Qed.

Lemma end_day_minutes_sum (se : datetime) (d : RobotWorkDay) :
  (fst (RobotShiftEndDay_minutes_before_breaks se d)
   + snd (RobotShiftEndDay_minutes_before_breaks se d)
   == elapsed_minutes (SHIFT_END se d))%Q.
Proof.
  unfold RobotShiftEndDay_minutes_before_breaks, elapsed_minutes. cbv zeta.
  cbn [fst snd].
  match goal with |- context [Qplus ?x (Qminus _ ?x)] => generalize x end.
  intros dm.
  assert (E : se - on_date_of se 0 0 0
              = hour se * 60 * 60 + minute se * 60 + second se).
  { unfold on_date_of. pose proof (datetime_split se) as Hs.
    pose proof (second_of_day_split se). unfold datetime in *. lia. }
  rewrite E. unfold minutes_of_seconds.
  rewrite !inject_Z_plus, !inject_Z_mult. field.
Qed.

(** C2.  Whatever the role, the two minute counts a segment has before its
    break loop add up to the minutes it spans: 1440 for a full day, shift
    start to the next midnight, midnight to shift end, the length of a half
    day.  The first three roles always reach the break loop; a half day does
    unless its case split falls through (C7). *)
Theorem minutes_before_breaks_sum (s : segment) :
  within_one_day s ->
  (forall dm nm, minutes_before_breaks s = Ok (dm, nm) ->
                 (dm + nm == elapsed_minutes s)%Q)
  /\ (is_half_day s = false -> exists dm nm, minutes_before_breaks s = Ok (dm, nm))
  /\ (forall ss se d, s = SHIFT_CONFINED ss se d -> ~ falls_through ss se d ->
        exists dm nm, minutes_before_breaks s = Ok (dm, nm)).
Proof.
  intros Hday. split; [| split].
  - intros dm nm H. destruct s as [d | ss d | se d | ss se d]; simpl in H.
    + inversion H; subst. unfold elapsed_minutes. change 1440%Q with (inject_Z 1440).
      change (24 * 60) with 1440. ring.
    + inversion H as [[H1 H2]].
      pose proof (start_day_minutes_sum ss d) as E.
      set (p := RobotShiftStartDay_minutes_before_breaks ss d) in *.
      destruct p as [a b]; simpl in *; inversion H; subst; exact E.
    + pose proof (end_day_minutes_sum se d) as E.
      set (p := RobotShiftEndDay_minutes_before_breaks se d) in *.
      destruct p as [a b]; simpl in *; inversion H; subst; exact E.
    + unfold RobotWorkHalfDay_minutes_before_breaks in H.
      apply bind_Ok in H as [q [_ H]]. inversion H; subst.
      simpl in Hday. destruct Hday as [Hord Hle].
      unfold elapsed_minutes. rewrite td_seconds_small.
      * ring.
      * pose proof (datetime_split ss). pose proof (datetime_split se).
        pose proof (second_of_day_range ss). pose proof (second_of_day_range se).
        unfold datetime, timedelta in *. lia.
  - intros Hrole. destruct s as [d | ss d | se d | ss se d]; simpl in *;
      try discriminate.
    + destruct (RobotWorkDay_minutes_before_breaks d) as [a b]; eauto.
    + destruct (RobotShiftStartDay_minutes_before_breaks ss d) as [a b]; eauto.
    + destruct (RobotShiftEndDay_minutes_before_breaks se d) as [a b]; eauto.
  - intros ss se d -> Hft. simpl. unfold RobotWorkHalfDay_minutes_before_breaks.
    destruct (RobotWorkHalfDay_day_minutes ss se d) as [q | e] eqn:E.
    + simpl. eauto.
    + exfalso. apply Hft. apply half_day_falls_through.
      rewrite E. f_equal. eapply half_day_day_minutes_exn; exact E.
Qed.

Lemma minutes_before_breaks_sum_witness :
  let s := SHIFT_CONFINED (mk_datetime 2038 1 1 3 10 0)
             (mk_datetime 2038 1 1 23 45 0) (day_07_23 None) in
  within_one_day s
  /\ exists dm nm, minutes_before_breaks s = Ok (dm, nm)
                   /\ (dm == 960)%Q /\ (dm + nm == elapsed_minutes s)%Q.
Proof.
  cbv zeta.
  assert (Hday : within_one_day
            (SHIFT_CONFINED (mk_datetime 2038 1 1 3 10 0)
               (mk_datetime 2038 1 1 23 45 0) (day_07_23 None))).
  { split; [reflexivity | discriminate]. }
  split; [exact Hday |].
  eexists; eexists. split; [reflexivity |]. split; [reflexivity |].
  apply (proj1 (minutes_before_breaks_sum _ Hday)). reflexivity.
Defined.

(** ** The sentinel of the shift-start day *)

Lemma subtract_breaks_skip (skip in_day : datetime -> bool) (break : Z)
    (b : datetime) (rest : list datetime) (dm nm : Q) :
  skip b = true ->
  subtract_breaks skip in_day break (b :: rest) dm nm
  = subtract_breaks skip in_day break rest dm nm.
Proof. intros H. simpl. rewrite H. reflexivity. Qed.

Lemma subtract_breaks_charge (skip in_day : datetime -> bool) (break : Z)
    (b : datetime) (rest : list datetime) (dm nm : Q) :
  skip b = false ->
  subtract_breaks skip in_day break (b :: rest) dm nm
  = if in_day b
    then subtract_breaks skip in_day break rest (dm - inject_Z (break * 60)) nm
    else subtract_breaks skip in_day break rest dm (nm - inject_Z (break * 60)).
Proof. intros H. simpl. rewrite H. reflexivity. Qed.

(** The three roles other than the half day use the half-open interval. *)
Lemma other_roles_charge_half_open (s : segment) (b : datetime)
    (rest : list datetime) (dm nm : Q) :
  is_half_day s = false -> skips s b = false ->
  subtract_breaks (skips s) (in_day s) (break_duration_in_hours (base s))
    (b :: rest) dm nm
  = if in_day_half_open (base s) b
    then subtract_breaks (skips s) (in_day s) (break_duration_in_hours (base s))
           rest (dm - inject_Z (break_duration_in_hours (base s) * 60)) nm
    else subtract_breaks (skips s) (in_day s) (break_duration_in_hours (base s))
           rest dm (nm - inject_Z (break_duration_in_hours (base s) * 60)).
Proof.
  intros Hrole Hskip. rewrite subtract_breaks_charge by exact Hskip.
  destruct s; try discriminate; reflexivity.
Qed.

Lemma in_day_half_open_iff (d : RobotWorkDay) (b : datetime) :
  in_day_half_open d b = true
  <-> day_start d <= b < day_end d - hours (break_duration_in_hours d).
Proof.
  unfold in_day_half_open. rewrite andb_true_iff, Z.leb_le, Z.ltb_lt. tauto.
Qed.

Lemma in_day_closed_iff (d : RobotWorkDay) (b : datetime) :
  in_day_closed d b = true
  <-> day_start d <= b <= day_end d - hours (break_duration_in_hours d).
Proof.
  unfold in_day_closed. rewrite andb_true_iff, !Z.leb_le. tauto.
Qed.

(** C5.  When the shift starts after the latest possible break time of its
    day (the next midnight less the break and work durations), the generator
    of the shift-start day yields one value, the hour and minute of the shift
    start; [get_minutes_worked] skips every break time equal to it, and so
    returns the minutes it had before the break loop. *)
Theorem shift_start_sentinel_only (ss : datetime) (d : RobotWorkDay) :
  latest_break_time_of ss d < ss ->
  let s := SHIFT_START ss d in
  get_break_timings s = Ok [HHMM_1900 ss]
  /\ (forall rest dm nm,
        subtract_breaks (skips s) (in_day s) (break_duration_in_hours d)
          (HHMM_1900 ss :: rest) dm nm
        = subtract_breaks (skips s) (in_day s) (break_duration_in_hours d)
            rest dm nm)
  /\ get_minutes_worked s (get_break_timings s)
     = Ok (RobotShiftStartDay_minutes_before_breaks ss d).
Proof.
  intros Hlate s.
  assert (Hgen : get_break_timings s = Ok [HHMM_1900 ss]).
  { simpl. unfold RobotShiftStartDay_get_break_timings.
    fold (latest_break_time_of ss d).
    destruct (Z.leb_spec ss (latest_break_time_of ss d)) as [Hle | _]; [lia |].
    rewrite HHMM_1900_strptime. reflexivity. }
  assert (Hskip : skips s (HHMM_1900 ss) = true).
  { simpl. apply Z.eqb_refl. }
  split; [exact Hgen | split].
  - intros rest dm nm. apply subtract_breaks_skip. exact Hskip.
  - rewrite Hgen. unfold get_minutes_worked. simpl minutes_before_breaks.
    cbn [bind]. rewrite subtract_breaks_skip by exact Hskip. cbn [subtract_breaks].
    destruct (RobotShiftStartDay_minutes_before_breaks ss d); reflexivity.
Qed.

Lemma shift_start_sentinel_only_witness :
  let ss := mk_datetime 2038 1 1 20 15 0 in
  let s := SHIFT_START ss (day_07_23 None) in
  latest_break_time_of ss (day_07_23 None) < ss
  /\ get_break_timings s = Ok [mk_datetime 1900 1 1 20 15 0]
  /\ get_minutes_worked s (get_break_timings s)
     = Ok (RobotShiftStartDay_minutes_before_breaks ss (day_07_23 None)).
Proof.
  cbv zeta.
  assert (Hlate : latest_break_time_of (mk_datetime 2038 1 1 20 15 0)
                    (day_07_23 None) < mk_datetime 2038 1 1 20 15 0)
    by reflexivity.
  split; [exact Hlate |].
  destruct (shift_start_sentinel_only _ _ Hlate) as [Hgen [_ Hmin]].
  split; [exact Hgen | exact Hmin].
Defined.

(** ** The guard of the full day *)

Lemma full_day_raises_iff (d : RobotWorkDay) :
  get_break_timings (FULL d) = Err (InvalidBreakTimeError (time_of_last_break d))
  <-> strptime_HM (time_of_last_break d) < latest_break_time_1900 d.
Proof.
  simpl. unfold RobotWorkDay_get_break_timings.
  fold (latest_break_time_1900 d).
  destruct (Z.ltb_spec (strptime_HM (time_of_last_break d))
              (latest_break_time_1900 d)); split; intros Hx;
    try reflexivity; try discriminate; try assumption; lia.
Qed.

Lemma full_day_exn (d : RobotWorkDay) (e : exn) :
  get_break_timings (FULL d) = Err e ->
  e = InvalidBreakTimeError (time_of_last_break d).
Proof.
  simpl. unfold RobotWorkDay_get_break_timings.
  destruct (_ <? _); intros H; inversion H; reflexivity.
Qed.

(** C4.  The generator of a full day raises exactly when the time of last
    break is strictly before midnight walked back by the break and the work
    duration.  The exception is [InvalidBreakTimeError] carrying that time of
    last break; it comes before any [yield], [get_minutes_worked] ends in it,
    and so does the day loop of [calculate_total_pay] at the iteration that
    built the day, whatever days remain. *)
Theorem full_day_invalid_break_time (d : RobotWorkDay) :
  ((exists e, get_break_timings (FULL d) = Err e)
   <-> strptime_HM (time_of_last_break d) < latest_break_time_1900 d)
  /\ ((exists breaks, get_break_timings (FULL d) = Ok breaks)
      <-> latest_break_time_1900 d <= strptime_HM (time_of_last_break d))
  /\ (forall e, get_break_timings (FULL d) = Err e ->
        e = InvalidBreakTimeError (time_of_last_break d)
        /\ offending_break_time e = Some (time_of_last_break d)
        /\ get_minutes_worked (FULL d) (get_break_timings (FULL d)) = Err e
        /\ (forall r ss se n st i rest,
              work_day_of r ss se n i st = FULL d ->
              for_each (loop_body r ss se n) (i :: rest) st = Err e)).
Proof.
  split; [| split].
  - split.
    + intros [e H]. apply full_day_raises_iff.
      rewrite H. f_equal. apply full_day_exn. exact H.
    + intros H. eexists. apply full_day_raises_iff. exact H.
  - split.
    + intros [breaks H].
      destruct (Z.lt_ge_cases (strptime_HM (time_of_last_break d))
                  (latest_break_time_1900 d)) as [Hlt | Hge]; [| exact Hge].
      apply full_day_raises_iff in Hlt. rewrite Hlt in H. discriminate.
    + intros H. simpl. unfold RobotWorkDay_get_break_timings.
      fold (latest_break_time_1900 d).
      destruct (Z.ltb_spec (strptime_HM (time_of_last_break d))
                  (latest_break_time_1900 d)); [lia | eauto].
  - intros e H. pose proof (full_day_exn d e H) as He.
    split; [exact He |]. split; [rewrite He; reflexivity |].
    assert (Hmin : get_minutes_worked (FULL d) (get_break_timings (FULL d)) = Err e).
    { rewrite H. reflexivity. }
    split; [exact Hmin |].
    intros r ss se n st i rest Hday. simpl. unfold loop_body.
    rewrite Hday, Hmin. reflexivity.
Qed.

Lemma full_day_invalid_break_time_witness :
  let d := day_07_23 (Some (mk_hhmm 3 0)) in
  let st := {| current_day := mk_datetime 2038 1 4 20 15 0;
               carried_break := mk_hhmm 3 0; value := 0%Q; processed := [] |} in
  strptime_HM (time_of_last_break d) < latest_break_time_1900 d
  /\ for_each (loop_body rates_20_25 (mk_datetime 2038 1 3 20 15 0)
                 (mk_datetime 2038 1 6 8 45 0) 3) [1; 2; 3] st
     = Err (InvalidBreakTimeError (mk_hhmm 3 0)).
Proof.
  cbv zeta.
  assert (Hlt : strptime_HM (time_of_last_break (day_07_23 (Some (mk_hhmm 3 0))))
                < latest_break_time_1900 (day_07_23 (Some (mk_hhmm 3 0))))
    by reflexivity.
  split; [exact Hlt |].
  destruct (full_day_invalid_break_time (day_07_23 (Some (mk_hhmm 3 0))))
    as [_ [_ Hexn]].
  apply (Hexn _ (proj2 (full_day_raises_iff _) Hlt)). reflexivity.
Defined.

(** ** The day loop never raises *)

Lemma In_range (n h : Z) : 0 <= h < n -> In h (range n).
Proof.
  intros H. unfold range. apply in_map_iff. exists (Z.to_nat h). split.
  - lia.
  - apply in_seq. lia.
Qed.

Lemma strftime_break_time (h m : Z) :
  0 <= h < 24 -> 0 <= m < 60 -> strftime_HM (break_time_dt h m) = mk_hhmm h m.
Proof.
  intros Hh Hm. unfold strftime_HM, break_time_dt, strptime_HM. cbn [hh mm].
  rewrite epoch1900_seconds.
  assert (Hs : second_of_day (59926694400 + h * 3600 + m * 60) = h * 3600 + m * 60).
  { unfold second_of_day. Z.to_euclidean_division_equations; lia. }
  unfold hour, minute. rewrite Hs. f_equal.
  - Z.to_euclidean_division_equations; lia.
  - Z.to_euclidean_division_equations; lia.
Qed.

Lemma last_break_last (l : list datetime) (x : datetime) (t : hhmm) :
  last_break (l ++ [x]) t = strftime_HM x.
Proof. unfold last_break. rewrite fold_left_app. reflexivity. Qed.

Lemma last_hour_ok_spec (offset : Z) (emitted : list Z) :
  last_hour_ok offset emitted = true ->
  exists l e, emitted = l ++ [e] /\ 15 <= e + offset < 24.
Proof.
  unfold last_hour_ok. destruct (rev emitted) as [| e l] eqn:E; [discriminate |].
  intros H. apply andb_true_iff in H as [H1 H2].
  exists (rev l), e. split; [| lia].
  rewrite <- (rev_involutive emitted), E. reflexivity.
Qed.

Lemma start_loop_last_hour (h : Z) :
  0 <= h <= 15 ->
  last_hour_ok h (break_loop 8 1 (range (24 - h)) false 0 0) = true.
Proof.
  intros H.
  assert (Hall : forallb (fun h => last_hour_ok h
                    (break_loop 8 1 (range (24 - h)) false 0 0)) (range 16) = true)
    by (vm_compute; reflexivity).
  rewrite forallb_forall in Hall. apply Hall. apply In_range. lia.
Qed.

Lemma full_loop_last_hour (h : Z) :
  15 <= h < 24 ->
  last_hour_ok 0 (break_loop 8 1 (range 24) false (24 - (h + 1)) 0) = true.
Proof.
  intros H.
  assert (Hall : forallb (fun k => last_hour_ok 0
                    (break_loop 8 1 (range 24) false (24 - (k + 15 + 1)) 0))
                   (range 9) = true)
    by (vm_compute; reflexivity).
  rewrite forallb_forall in Hall.
  replace h with (h - 15 + 15) by lia. apply Hall. apply In_range. lia.
Qed.

Lemma last_break_of_hours (offset m : Z) (emitted : list Z) (t : hhmm) :
  0 <= m < 60 -> last_hour_ok offset emitted = true ->
  valid_carry
    (last_break (map (fun hour => break_time_dt (hour + offset) m) emitted) t).
Proof.
  intros Hm H. apply last_hour_ok_spec in H as [l [e [-> He]]].
  rewrite map_app. cbn [map]. rewrite last_break_last.
  rewrite strftime_break_time by lia. unfold valid_carry; cbn [hh mm]. lia.
Qed.

(** The generator of a shift-start day with the default policy always
    yields, and the last value it yields is 15:00 or later. *)
Lemma start_day_carry (ss : datetime) (d : RobotWorkDay) (t : hhmm) :
  default_policy d ->
  exists breaks, get_break_timings (SHIFT_START ss d) = Ok breaks
                 /\ valid_carry (last_break breaks t).
Proof.
  intros [Hw Hb]. simpl. unfold RobotShiftStartDay_get_break_timings.
  rewrite Hw, Hb.
  pose proof (hour_range ss) as Hh. pose proof (minute_range ss) as Hm.
  pose proof (second_range ss) as Hsec.
  pose proof (datetime_split ss) as Hss. pose proof (second_of_day_split ss) as Hsod.
  destruct (Z.leb_spec ss (on_date_of ss 0 0 0 + days 1 - hours 1 - hours 8))
    as [Hle | Hgt]; unfold on_date_of, days, hours, datetime in *.
  - eexists. split; [reflexivity |].
    apply last_break_of_hours; [exact Hm |].
    apply start_loop_last_hour. lia.
  - eexists. split; [reflexivity |].
    change [strptime_HM (strftime_HM ss)] with ([] ++ [strptime_HM (strftime_HM ss)]).
    rewrite last_break_last.
    change (strptime_HM (strftime_HM ss)) with (break_time_dt (hour ss) (minute ss)).
    rewrite strftime_break_time by assumption.
    unfold valid_carry; cbn [hh mm]. lia.
Qed.

(** So does the generator of a full day, and of a shift-end day, when the
    time of last break it is given is 15:00 or later. *)
Lemma full_day_carry (d : RobotWorkDay) (t : hhmm) :
  default_policy d -> valid_carry (time_of_last_break d) ->
  exists breaks, RobotWorkDay_get_break_timings d = Ok breaks
                 /\ valid_carry (last_break breaks t).
Proof.
  intros [Hw Hb] [Hh Hm]. unfold RobotWorkDay_get_break_timings.
  rewrite Hw, Hb.
  destruct (Z.ltb_spec (strptime_HM (time_of_last_break d))
              (mk_datetime 1900 1 2 0 0 0 - hours 1 - hours 8)) as [Hlt | Hge].
  - exfalso. unfold strptime_HM in Hlt. rewrite epoch1900_seconds in Hlt.
    change (mk_datetime 1900 1 2 0 0 0 - hours 1 - hours 8)
      with (59926694400 + 54000) in Hlt.
    unfold datetime in *. lia.
  - eexists. split; [reflexivity |].
    rewrite (map_ext (fun hour => break_time_dt hour (mm (time_of_last_break d)))
               (fun hour => break_time_dt (hour + 0) (mm (time_of_last_break d))))
      by (intros a; rewrite Z.add_0_r; reflexivity).
    apply last_break_of_hours; [exact Hm |].
    apply full_loop_last_hour. exact Hh.
Qed.

Lemma work_day_of_cases (r : roboRate) (ss se : datetime) (n i : Z)
    (st : loop_state) :
  exists d, default_policy d
    /\ ((i = 0 /\ work_day_of r ss se n i st = SHIFT_START ss d)
        \/ (i <> 0 /\ time_of_last_break d = carried_break st
            /\ (work_day_of r ss se n i st = SHIFT_END se d
                \/ work_day_of r ss se n i st = FULL d))).
Proof.
  unfold work_day_of.
  destruct (parse_roboRate_values r (weekday (current_day st)))
    as [[[ds de] dr] nr].
  destruct (Z.eqb_spec i 0) as [H0 | H0]; [| destruct (Z.eqb_spec i n)].
  - exists (RobotWorkDay_init ds de dr nr None None None).
    split; [split; reflexivity | auto].
  - exists (RobotWorkDay_init ds de dr nr (Some (carried_break st)) None None).
    split; [split; reflexivity | auto].
  - exists (RobotWorkDay_init ds de dr nr (Some (carried_break st)) None None).
    split; [split; reflexivity | auto].
Qed.

Lemma get_minutes_worked_ok (s : segment) (breaks : list datetime) :
  is_half_day s = false -> get_break_timings s = Ok breaks ->
  exists m, get_minutes_worked s (get_break_timings s) = Ok m.
Proof.
  intros Hrole Hgen. rewrite Hgen. unfold get_minutes_worked.
  destruct s; try discriminate; simpl; eauto.
Qed.

Lemma loop_body_ok (r : roboRate) (ss se : datetime) (n i : Z) (st : loop_state) :
  i = 0 \/ valid_carry (carried_break st) ->
  exists st', loop_body r ss se n st i = Ok st'
              /\ valid_carry (carried_break st')
              /\ length (processed st') = S (length (processed st)).
Proof.
  intros Hpre. unfold loop_body.
  destruct (work_day_of_cases r ss se n i st) as [d [Hd Hcase]].
  assert (Hgen : exists breaks,
             get_break_timings (work_day_of r ss se n i st) = Ok breaks
             /\ valid_carry (last_break breaks (carried_break st))
             /\ is_half_day (work_day_of r ss se n i st) = false).
  { destruct Hcase as [[Hi ->] | [Hi [Ht [-> | ->]]]].
    - destruct (start_day_carry ss d (carried_break st) Hd) as [b [Hb Hv]].
      exists b; auto.
    - destruct Hpre as [Hi0 | Hv]; [contradiction |].
      rewrite <- Ht in Hv.
      destruct (full_day_carry d (carried_break st) Hd Hv) as [b [Hb Hv']].
      exists b; auto.
    - destruct Hpre as [Hi0 | Hv]; [contradiction |].
      rewrite <- Ht in Hv.
      destruct (full_day_carry d (carried_break st) Hd Hv) as [b [Hb Hv']].
      exists b; auto. }
  destruct Hgen as [breaks [Hgen [Hv Hrole]]].
  destruct (get_minutes_worked_ok _ breaks Hrole Hgen) as [m Hm].
  rewrite Hm, Hgen. cbn [bind]. eexists. split; [reflexivity |].
  cbn [carried_break processed]. split; [exact Hv |].
  rewrite length_app. simpl. lia.
Qed.

Lemma for_each_ok (r : roboRate) (ss se : datetime) (n : Z) (indices : list Z) :
  forall st, valid_carry (carried_break st) ->
  exists st', for_each (loop_body r ss se n) indices st = Ok st'
              /\ length (processed st')
                 = (length (processed st) + length indices)%nat.
Proof.
  induction indices as [| i rest IH]; intros st Hv.
  - exists st. split; [reflexivity | simpl; lia].
  - destruct (loop_body_ok r ss se n i st (or_intror Hv)) as [st1 [H1 [Hv1 Hl1]]].
    destruct (IH st1 Hv1) as [st2 [H2 Hl2]].
    exists st2. simpl. rewrite H1. cbn [bind]. split; [exact H2 |].
    rewrite Hl2, Hl1. simpl. lia.
Qed.

Lemma shift_duration_days_max (ss se : datetime) :
  shift_duration_days ss se
  = Z.max (Z.max (day_count_by_day_of_month ss se)
                 (day_count_by_timedelta_days ss se))
          (day_count_by_seconds ss se).
Proof.
  unfold shift_duration_days. cbv zeta.
  destruct (Z.gtb_spec (day_count_by_timedelta_days ss se)
              (day_count_by_day_of_month ss se));
    match goal with
    | |- context [?a >? ?b] => destruct (Z.gtb_spec a b)
    end; lia.
Qed.

Lemma day_count_by_seconds_nonneg (ss se : datetime) :
  0 <= day_count_by_seconds ss se.
Proof.
  unfold day_count_by_seconds, td_seconds. cbv zeta.
  destruct (_ >? _); Z.to_euclidean_division_equations; lia.
Qed.

Lemma range_succ (n : Z) :
  0 <= n -> exists rest, range (n + 1) = 0 :: rest /\ Z.of_nat (length rest) = n.
Proof.
  intros H. unfold range.
  replace (Z.to_nat (n + 1)) with (S (Z.to_nat n)) by lia.
  cbn [seq map]. eexists. split; [reflexivity |].
  rewrite length_map, length_seq. lia.
Qed.

(** C6.  The day loop of [calculate_total_pay] runs to its end on every pair
    of timestamps, and the number of day objects it has then built and
    accounted is one more than the largest of the three day counts: the
    difference of the days of the month, the [days] of the difference of the
    timestamps, and its [seconds] rounded up to whole days. *)
Theorem day_segments_processed (ss se : datetime) (r : roboRate) :
  exists st,
    run_days ss se r = Ok st
    /\ Z.of_nat (length (processed st))
       = 1 + Z.max (Z.max (day_count_by_day_of_month ss se)
                          (day_count_by_timedelta_days ss se))
                   (day_count_by_seconds ss se).
Proof.
  unfold run_days. cbv zeta. rewrite <- shift_duration_days_max.
  set (n := shift_duration_days ss se).
  assert (Hn : 0 <= n).
  { unfold n. rewrite shift_duration_days_max.
    pose proof (day_count_by_seconds_nonneg ss se). lia. }
  destruct (range_succ n Hn) as [rest [-> Hlen]].
  destruct (loop_body_ok r ss se n 0 (initial_state ss) (or_introl eq_refl))
    as [st1 [H1 [Hv1 Hl1]]].
  destruct (for_each_ok r ss se n rest st1 Hv1) as [st2 [H2 Hl2]].
  exists st2. cbn [for_each]. rewrite H1. cbn [bind]. split; [exact H2 |].
  rewrite Hl2, Hl1. cbn [initial_state processed length]. lia.
Qed.

(** ** Breaks charged to the day fit in the day *)

Lemma minutes_of_seconds_nonneg (x : Z) : 0 <= x -> (0 <= minutes_of_seconds x)%Q.
Proof.
  intros H. unfold minutes_of_seconds, Qdiv. apply Qmult_le_0_compat.
  - change 0%Q with (inject_Z 0). rewrite <- Zle_Qle. exact H.
  - unfold Qle; simpl; lia.
Qed.

Lemma minutes_of_seconds_less_hour (x : Z) :
  (minutes_of_seconds x - inject_Z (1 * 60) == minutes_of_seconds (x - 3600))%Q.
Proof.
  unfold minutes_of_seconds. rewrite inject_Z_sub.
  change (inject_Z (1 * 60)) with 60%Q. change (inject_Z 3600) with 3600%Q. field.
Qed.

Lemma subtract_breaks_day_nonneg (skip in_day : datetime -> bool)
    (breaks : list datetime) :
  forall (dm nm : Q) (S : Z),
    (dm == minutes_of_seconds S)%Q ->
    3600 * Z.of_nat (length (filter (charged skip in_day) breaks)) <= S ->
    (0 <= fst (subtract_breaks skip in_day 1 breaks dm nm))%Q.
Proof.
  induction breaks as [| b rest IH]; intros dm nm S Hdm Hfit;
    cbn [subtract_breaks filter] in *.
  - cbn [fst]. rewrite Hdm. apply minutes_of_seconds_nonneg. cbn [length] in Hfit. lia.
  - unfold charged at 1 in Hfit. destruct (skip b); cbn [negb andb] in Hfit.
    + apply (IH dm nm S); assumption.
    + destruct (in_day b).
      * apply (IH _ nm (S - 3600)).
        -- rewrite Hdm. apply minutes_of_seconds_less_hour.
        -- cbn [length] in Hfit. lia.
      * apply (IH dm _ S); assumption.
Qed.

Lemma spaced_charged_fit (keep : datetime -> bool) (hi : Z) (breaks : list datetime) :
  spaced breaks ->
  forall lo,
    (forall b, In b breaks -> keep b = true -> lo <= b <= hi - 3600) ->
    3600 * Z.of_nat (length (filter keep breaks)) <= Z.max 0 (hi - lo).
Proof.
  unfold spaced. induction 1 as [| b rest Hrest IH Hb]; intros lo Hin.
  - cbn [filter length]. lia.
  - cbn [filter]. destruct (keep b) eqn:Hk.
    + assert (Hbb : lo <= b <= hi - 3600) by (apply Hin; [left; reflexivity | exact Hk]).
      assert (Hr : 3600 * Z.of_nat (length (filter keep rest))
                   <= Z.max 0 (hi - (b + 3600))).
      { apply IH. intros c Hc Hkc. rewrite Forall_forall in Hb.
        pose proof (Hb c Hc) as Hbc. cbv beta in Hbc.
        pose proof (Hin c (or_intror Hc) Hkc).
        unfold datetime in *. lia. }
      cbn [length]. unfold datetime in *. lia.
    + apply IH. intros c Hc Hkc. apply Hin; [right; exact Hc | exact Hkc].
Qed.

Lemma break_loop_seq (work break : Z) (k : nat) :
  forall (a : nat) (isBreak : bool) (hsb bht : Z),
    let out := break_loop work break (map Z.of_nat (seq a k)) isBreak hsb bht in
    StronglySorted Z.lt out
    /\ Forall (fun x => Z.of_nat a <= x < Z.of_nat (a + k)) out.
Proof.
  induction k as [| k IH]; intros a isBreak hsb bht; cbn [seq map break_loop].
  - split; constructor.
  - assert (Hstep : forall b h t,
              Forall (fun x => Z.of_nat a <= x < Z.of_nat (a + S k))
                (break_loop work break (map Z.of_nat (seq (S a) k)) b h t)).
    { intros b h t. destruct (IH (S a) b h t) as [_ HF].
      eapply Forall_impl; [| exact HF]. intros x Hx. cbv beta in Hx. lia. }
    destruct isBreak.
    + destruct (_ =? _); (split; [apply IH | apply Hstep]).
    + destruct (_ =? _).
      * split.
        -- constructor; [apply IH |].
           destruct (IH (S a) true (0 + 1) bht) as [_ HF].
           eapply Forall_impl; [| exact HF]. intros x Hx. cbv beta in Hx. lia.
        -- constructor; [lia | apply Hstep].
      * split; [apply IH | apply Hstep].
Qed.

(** From [hours_since_break = 0] the loop yields nothing at its first hour. *)
Lemma break_loop_from_rest (n : Z) :
  let out := break_loop 8 1 (range n) false 0 0 in
  StronglySorted Z.lt out /\ Forall (fun x => 1 <= x < n) out.
Proof.
  unfold range. destruct (Z.to_nat n) as [| k] eqn:E; cbn [seq map break_loop].
  - split; constructor.
  - change (0 =? 8) with false. cbv iota.
    destruct (break_loop_seq 8 1 k 1 false (0 + 1) 0) as [HS HF].
    split; [exact HS |].
    eapply Forall_impl; [| exact HF]. intros x Hx. cbv beta in Hx. lia.
Qed.

Lemma break_loop_full_day (hsb : Z) :
  let out := break_loop 8 1 (range 24) false hsb 0 in
  StronglySorted Z.lt out /\ Forall (fun x => 0 <= x < 24) out.
Proof.
  destruct (break_loop_seq 8 1 24 0 false hsb 0) as [HS HF].
  split; [exact HS |].
  eapply Forall_impl; [| exact HF]. intros x Hx. cbv beta in Hx. lia.
Qed.

Lemma break_times_spaced (offset m : Z) (emitted : list Z) :
  StronglySorted Z.lt emitted ->
  spaced (map (fun hour => break_time_dt (hour + offset) m) emitted).
Proof.
  unfold spaced. induction 1 as [| x rest Hrest IH Hx]; cbn [map]; constructor.
  - exact IH.
  - rewrite Forall_map. eapply Forall_impl; [| exact Hx].
    intros y Hy. cbv beta in Hy. unfold break_time_dt, strptime_HM, datetime.
    cbn [hh mm]. lia.
Qed.

Lemma break_times_in (offset m : Z) (P : Z -> Prop) (emitted : list Z)
    (b : datetime) :
  Forall P emitted ->
  In b (map (fun hour => break_time_dt (hour + offset) m) emitted) ->
  exists x, P x /\ b = epoch1900 + (x + offset) * 3600 + m * 60.
Proof.
  intros HF Hin. apply in_map_iff in Hin as [x [<- Hx]].
  rewrite Forall_forall in HF. exists x. split; [auto | reflexivity].
Qed.

Lemma window_seconds (d : RobotWorkDay) :
  window_ok d ->
  exists a b,
    day_start d = epoch1900 + a /\ day_end d = epoch1900 + b
    /\ 0 <= a < b /\ b < 86400
    /\ (forall x, shift_day_start x d = toordinal x * 86400 + a)
    /\ (forall x, shift_day_end x d = toordinal x * 86400 + b)
    /\ td_seconds (day_end d - day_start d) = b - a.
Proof.
  intros [H1 [H2 H3]]. rewrite epoch1900_seconds in *.
  exists (day_start d - 59926694400), (day_end d - 59926694400).
  assert (Hsod : forall t, 59926694400 <= t < 59926694400 + 86400 ->
                           second_of_day t = t - 59926694400).
  { intros t Ht. unfold second_of_day. Z.to_euclidean_division_equations; lia. }
  unfold datetime in *.
  split; [lia |]. split; [lia |]. split; [lia |]. split; [lia |].
  split; [| split].
  - intros x. unfold shift_day_start, on_date_of.
    pose proof (second_of_day_split (day_start d)) as E.
    rewrite Hsod in E by lia. lia.
  - intros x. unfold shift_day_end, on_date_of.
    pose proof (second_of_day_split (day_end d)) as E.
    rewrite Hsod in E by lia. lia.
  - rewrite td_seconds_small by lia. lia.
Qed.

Lemma minutes_of_seconds_eq (x y : Z) :
  x = y -> (minutes_of_seconds x == minutes_of_seconds y)%Q.
Proof. intros ->. reflexivity. Qed.

Lemma minutes_of_seconds_zero (x : Z) :
  x = 0 -> (0 == minutes_of_seconds x)%Q.
Proof. intros ->. reflexivity. Qed.

Lemma charged_true (skip in_day : datetime -> bool) (b : datetime) :
  charged skip in_day b = true -> skip b = false /\ in_day b = true.
Proof.
  unfold charged. rewrite andb_true_iff, negb_true_iff. tauto.
Qed.

Lemma get_minutes_worked_inv (s : segment) (dm nm : Q) :
  get_minutes_worked s (get_break_timings s) = Ok (dm, nm) ->
  exists before breaks,
    minutes_before_breaks s = Ok before /\ get_break_timings s = Ok breaks
    /\ subtract_breaks (skips s) (in_day s) (break_duration_in_hours (base s))
         breaks (fst before) (snd before) = (dm, nm).
Proof.
  unfold get_minutes_worked. intros H.
  apply bind_Ok in H as [before [Hb H]]. apply bind_Ok in H as [breaks [Hg H]].
  exists before, breaks. inversion H. auto.
Qed.

(** The frame of every case: the minutes held before the break loop are the
    overlap of two bounds, and every charged break starts between them, an
    hour or more before the upper one. *)
Lemma day_minutes_nonneg_between (s : segment) (lo hi : Z) (dm nm : Q) :
  break_duration_in_hours (base s) = 1 ->
  (forall before, minutes_before_breaks s = Ok before ->
     (fst before == minutes_of_seconds (Z.max 0 (hi - lo)))%Q) ->
  (forall breaks, get_break_timings s = Ok breaks ->
     spaced breaks
     /\ forall b, In b breaks -> charged (skips s) (in_day s) b = true ->
                  lo <= b <= hi - 3600) ->
  get_minutes_worked s (get_break_timings s) = Ok (dm, nm) ->
  (0 <= dm)%Q.
Proof.
  intros Hbd Hbefore Hbreaks H.
  apply get_minutes_worked_inv in H as [before [breaks [Hb [Hg Hsub]]]].
  rewrite Hbd in Hsub. destruct (Hbreaks breaks Hg) as [Hsp Hin].
  change dm with (fst (dm, nm)). rewrite <- Hsub.
  apply (subtract_breaks_day_nonneg _ _ _ _ _ (Z.max 0 (hi - lo))).
  - apply Hbefore. exact Hb.
  - apply spaced_charged_fit; assumption.
Qed.

Lemma full_day_breaks (d : RobotWorkDay) (breaks : list datetime) :
  default_policy d -> RobotWorkDay_get_break_timings d = Ok breaks ->
  spaced breaks
  /\ forall b, In b breaks ->
       exists x, 0 <= x < 24
                 /\ b = epoch1900 + (x + 0) * 3600 + mm (time_of_last_break d) * 60.
Proof.
  intros [Hw Hb] H. unfold RobotWorkDay_get_break_timings in H.
  rewrite Hw, Hb in H. destruct (_ <? _); [discriminate |].
  apply Ok_inj in H. subst breaks.
  rewrite (map_ext (fun hour => break_time_dt hour (mm (time_of_last_break d)))
             (fun hour => break_time_dt (hour + 0) (mm (time_of_last_break d))))
    by (intros a; rewrite Z.add_0_r; reflexivity).
  destruct (break_loop_full_day (24 - (hh (time_of_last_break d) + 1))) as [HS HF].
  split.
  - apply break_times_spaced. exact HS.
  - intros b Hin. eapply break_times_in; [exact HF | exact Hin].
Qed.

Lemma full_day_minutes_nonneg (d : RobotWorkDay) (dm nm : Q) :
  well_formed (FULL d) ->
  get_minutes_worked (FULL d) (get_break_timings (FULL d)) = Ok (dm, nm) ->
  (0 <= dm)%Q.
Proof.
  intros [Hp [Hw Hv]]. cbn [base] in *.
  destruct (window_seconds d Hw) as [a [b [Hs [He [Ha [Hb [_ [_ Htd]]]]]]]].
  apply (day_minutes_nonneg_between (FULL d) (day_start d) (day_end d)).
  - apply Hp.
  - intros before H. inversion H; subst.
    unfold RobotWorkDay_minutes_before_breaks. cbn [fst]. rewrite Htd.
    apply minutes_of_seconds_eq. unfold datetime in *. lia.
  - intros breaks H. destruct (full_day_breaks d breaks Hp H) as [Hsp _].
    split; [exact Hsp |]. intros c _ Hc. apply charged_true in Hc as [_ Hc].
    cbn [in_day] in Hc. apply in_day_half_open_iff in Hc.
    destruct Hp as [_ Hbd]. rewrite Hbd in Hc. unfold hours, datetime in *. lia.
Qed.

Lemma end_day_minutes_nonneg (se : datetime) (d : RobotWorkDay) (dm nm : Q) :
  well_formed (SHIFT_END se d) ->
  get_minutes_worked (SHIFT_END se d) (get_break_timings (SHIFT_END se d))
  = Ok (dm, nm) ->
  (0 <= dm)%Q.
Proof.
  intros [Hp [Hw Hv]]. cbn [base] in *.
  destruct (window_seconds d Hw) as [a [b [Hs [He [Ha [Hb [Hsds [Hsde Htd]]]]]]]].
  pose proof (datetime_split se) as Hse.
  pose proof (second_of_day_split se) as Hsod.
  pose proof (second_of_day_range se) as Hr.
  pose proof (minute_range se) as Hm. pose proof (second_range se) as Hsec.
  pose proof (hour_range se) as Hh.
  apply (day_minutes_nonneg_between (SHIFT_END se d) (day_start d)
           (Z.min (day_end d) (epoch1900 + second_of_day se))).
  - apply Hp.
  - intros before H. inversion H; subst.
    unfold RobotShiftEndDay_minutes_before_breaks. cbn [fst].
    rewrite Hsds, Hsde, Htd.
    destruct (Z.ltb_spec se (toordinal se * 86400 + a)) as [H1 | H1];
      [| destruct (Z.ltb_spec se (toordinal se * 86400 + b)) as [H2 | H2]].
    + apply minutes_of_seconds_zero. unfold datetime in *. lia.
    + rewrite td_seconds_small by (unfold datetime, timedelta in *; lia).
      apply minutes_of_seconds_eq. unfold datetime in *. lia.
    + apply minutes_of_seconds_eq. unfold datetime in *. lia.
  - intros breaks H. cbn [get_break_timings] in H.
    destruct (full_day_breaks d breaks Hp H) as [Hsp _].
    split; [exact Hsp |]. intros c _ Hc. apply charged_true in Hc as [Hk Hc].
    cbn [in_day skips] in Hc, Hk. apply in_day_half_open_iff in Hc.
    rewrite Z.gtb_ltb in Hk. apply Z.ltb_ge in Hk.
    destruct Hp as [_ Hbd]. rewrite Hbd in Hc, Hk.
    unfold HHMM_1900, mk_datetime in Hk. fold epoch1900 in Hk.
    change (ymd_to_ordinal 1900 1 1 * 86400) with epoch1900 in Hk.
    unfold hours, datetime in *. lia.
Qed.

Lemma sentinel_breaks (ss : datetime) :
  spaced [strptime_HM (strftime_HM ss)]
  /\ forall b, In b [strptime_HM (strftime_HM ss)] -> (b =? HHMM_1900 ss) = true.
Proof.
  split.
  - repeat constructor.
  - intros b [<- | []]. rewrite HHMM_1900_strptime. apply Z.eqb_refl.
Qed.

Lemma loop_breaks (ss : datetime) (n : Z) :
  let breaks :=
    map (fun h => break_time_dt (h + hour ss) (minute ss))
      (break_loop 8 1 (range n) false 0 0) in
  spaced breaks
  /\ forall b, In b breaks ->
       exists x, 1 <= x < n
                 /\ b = epoch1900 + (x + hour ss) * 3600 + minute ss * 60.
Proof.
  destruct (break_loop_from_rest n) as [HS HF]. split.
  - apply break_times_spaced. exact HS.
  - intros b Hin. eapply break_times_in; [exact HF | exact Hin].
Qed.

Lemma start_day_breaks (ss : datetime) (d : RobotWorkDay) (breaks : list datetime) :
  default_policy d -> get_break_timings (SHIFT_START ss d) = Ok breaks ->
  spaced breaks
  /\ forall b, In b breaks ->
       skips (SHIFT_START ss d) b = true
       \/ exists x, 1 <= x < 24 - hour ss
                    /\ b = epoch1900 + (x + hour ss) * 3600 + minute ss * 60.
Proof.
  intros [Hw Hb] H. cbn [get_break_timings] in H.
  unfold RobotShiftStartDay_get_break_timings in H. rewrite Hw, Hb in H.
  destruct (_ <=? _); apply Ok_inj in H; subst breaks.
  - destruct (loop_breaks ss (24 - hour ss)) as [Hsp Hin]. split; [exact Hsp |].
    intros b Hb'. right. apply Hin. exact Hb'.
  - destruct (sentinel_breaks ss) as [Hsp Hin]. split; [exact Hsp |].
    intros b Hb'. left. cbn [skips]. apply Hin. exact Hb'.
Qed.

Lemma half_day_breaks (ss se : datetime) (d : RobotWorkDay)
    (breaks : list datetime) :
  default_policy d -> get_break_timings (SHIFT_CONFINED ss se d) = Ok breaks ->
  spaced breaks
  /\ forall b, In b breaks ->
       skips (SHIFT_CONFINED ss se d) b = true
       \/ exists x, 1 <= x < td_seconds (se - ss) / 3600
                    /\ b = epoch1900 + (x + hour ss) * 3600 + minute ss * 60.
Proof.
  intros [Hw Hb] H. cbn [get_break_timings] in H.
  unfold RobotWorkHalfDay_get_break_timings in H. rewrite Hw, Hb in H.
  destruct (_ >? _); apply Ok_inj in H; subst breaks.
  - destruct (loop_breaks ss (td_seconds (se - ss) / 3600)) as [Hsp Hin].
    split; [exact Hsp |]. intros b Hb'. right. apply Hin. exact Hb'.
  - destruct (sentinel_breaks ss) as [Hsp Hin]. split; [exact Hsp |].
    intros b Hb'. left. cbn [skips]. apply Hin. exact Hb'.
Qed.

Lemma start_day_minutes_nonneg (ss : datetime) (d : RobotWorkDay) (dm nm : Q) :
  well_formed (SHIFT_START ss d) ->
  get_minutes_worked (SHIFT_START ss d) (get_break_timings (SHIFT_START ss d))
  = Ok (dm, nm) ->
  (0 <= dm)%Q.
Proof.
  intros [Hp [Hw _]]. cbn [base] in *.
  destruct (window_seconds d Hw) as [a [b [Hs [He [Ha [Hb [Hsds [Hsde Htd]]]]]]]].
  pose proof (datetime_split ss) as Hss.
  pose proof (second_of_day_split ss) as Hsod.
  pose proof (second_of_day_range ss) as Hr.
  pose proof (minute_range ss) as Hm. pose proof (second_range ss) as Hsec.
  pose proof (hour_range ss) as Hh.
  apply (day_minutes_nonneg_between (SHIFT_START ss d)
           (Z.max (day_start d) (epoch1900 + second_of_day ss)) (day_end d)).
  - apply Hp.
  - intros before H. apply Ok_inj in H. subst before.
    unfold RobotShiftStartDay_minutes_before_breaks. cbn [fst].
    rewrite Hsds, Hsde, Htd.
    destruct (Z.ltb_spec ss (toordinal ss * 86400 + a)) as [H1 | H1];
      [| destruct (Z.ltb_spec ss (toordinal ss * 86400 + b)) as [H2 | H2]].
    + apply minutes_of_seconds_eq. unfold datetime in *. lia.
    + rewrite td_seconds_small by (unfold datetime, timedelta in *; lia).
      apply minutes_of_seconds_eq. unfold datetime in *. lia.
    + apply minutes_of_seconds_zero. unfold datetime in *. lia.
  - intros breaks H. destruct (start_day_breaks ss d breaks Hp H) as [Hsp Hin].
    split; [exact Hsp |]. intros c Hc Hch. apply charged_true in Hch as [Hk Hch].
    destruct (Hin c Hc) as [Hskip | [x [Hx ->]]]; [congruence |].
    cbn [in_day] in Hch. apply in_day_half_open_iff in Hch.
    destruct Hp as [_ Hbd]. rewrite Hbd in Hch.
    unfold hours, datetime in *. lia.
Qed.

Lemma half_day_minutes_nonneg (ss se : datetime) (d : RobotWorkDay) (dm nm : Q) :
  well_formed (SHIFT_CONFINED ss se d) ->
  get_minutes_worked (SHIFT_CONFINED ss se d)
    (get_break_timings (SHIFT_CONFINED ss se d)) = Ok (dm, nm) ->
  (0 <= dm)%Q.
Proof.
  intros [Hp [Hw [Hord Hle]]]. cbn [base] in *.
  destruct (window_seconds d Hw) as [a [b [Hs [He [Ha [Hb [Hsds [Hsde Htd]]]]]]]].
  pose proof (datetime_split ss) as Hss.
  pose proof (second_of_day_split ss) as Hsod.
  pose proof (second_of_day_range ss) as Hr.
  pose proof (minute_range ss) as Hm. pose proof (second_range ss) as Hsec.
  pose proof (hour_range ss) as Hh.
  pose proof (datetime_split se) as Hse.
  pose proof (second_of_day_range se) as Hre.
  assert (Hlen : td_seconds (se - ss) = second_of_day se - second_of_day ss).
  { rewrite td_seconds_small; unfold datetime, timedelta in *; lia. }
  apply (day_minutes_nonneg_between (SHIFT_CONFINED ss se d)
           (Z.max (day_start d) (epoch1900 + second_of_day ss))
           (Z.min (day_end d) (epoch1900 + second_of_day se))).
  - apply Hp.
  - intros before H. cbn [minutes_before_breaks] in H.
    unfold RobotWorkHalfDay_minutes_before_breaks in H.
    apply bind_Ok in H as [q [Hq H]]. apply Ok_inj in H. subst before. cbn [fst].
    unfold RobotWorkHalfDay_day_minutes in Hq. cbv zeta in Hq.
    rewrite Hsds, Hsde, Htd, Hlen in Hq.
    destruct (Z.geb_spec ss (toordinal ss * 86400 + b)),
      (Z.leb_spec se (toordinal ss * 86400 + a)),
      (Z.ltb_spec ss (toordinal ss * 86400 + a)),
      (Z.gtb_spec se (toordinal ss * 86400 + b)),
      (Z.gtb_spec ss (toordinal ss * 86400 + a)),
      (Z.ltb_spec se (toordinal ss * 86400 + b));
      cbn [orb andb] in Hq; try discriminate; apply Ok_inj in Hq; subst q;
      try (apply minutes_of_seconds_zero; unfold datetime in *; lia);
      try (rewrite td_seconds_small by (unfold datetime, timedelta in *; lia));
      apply minutes_of_seconds_eq; unfold datetime in *; lia.
  - intros breaks H. destruct (half_day_breaks ss se d breaks Hp H) as [Hsp Hin].
    split; [exact Hsp |]. intros c Hc Hch. apply charged_true in Hch as [Hk Hch].
    destruct (Hin c Hc) as [Hskip | [x [Hx ->]]]; [congruence |].
    cbn [in_day] in Hch. apply in_day_closed_iff in Hch.
    destruct Hp as [_ Hbd]. rewrite Hbd in Hch. rewrite Hlen in Hx.
    assert (Hx' : (x + 1) * 3600 <= second_of_day se - second_of_day ss).
    { destruct Hx as [_ Hx]. revert Hx.
      generalize (second_of_day se - second_of_day ss). intros y Hx.
      Z.to_euclidean_division_equations; lia. }
    unfold hours, datetime in *. lia.
Qed.

(** ** At most three breaks a segment *)

Lemma subtract_breaks_night_bound (skip in_day : datetime -> bool)
    (breaks : list datetime) :
  forall dm nm : Q,
    (nm - inject_Z (60 * Z.of_nat (length breaks))
     <= snd (subtract_breaks skip in_day 1 breaks dm nm))%Q.
Proof.
  induction breaks as [| b rest IH]; intros dm nm; cbn [subtract_breaks].
  - cbn [snd length]. change (inject_Z (60 * Z.of_nat 0)) with 0%Q.
    apply Qle_minus_iff. ring_simplify. discriminate.
  - assert (Hlen : (inject_Z (60 * Z.of_nat (length (b :: rest)))
                    == inject_Z (60 * Z.of_nat (length rest)) + inject_Z (1 * 60))%Q).
    { rewrite <- inject_Z_plus. cbn [length]. apply inject_Z_injective. lia. }
    assert (H60 : (0 <= inject_Z (1 * 60))%Q) by discriminate.
    destruct (skip b); [| destruct (in_day b)].
    + eapply Qle_trans; [| apply IH]. rewrite Hlen.
      apply Qle_minus_iff. ring_simplify. exact H60.
    + eapply Qle_trans; [| apply IH]. rewrite Hlen.
      apply Qle_minus_iff. ring_simplify. exact H60.
    + eapply Qle_trans; [| apply IH]. rewrite Hlen.
      apply Qle_minus_iff. ring_simplify. discriminate.
Qed.

Lemma loop_at_most_three (n : Z) :
  0 <= n <= 24 -> (length (break_loop 8 1 (range n) false 0 0) <= 3)%nat.
Proof.
  intros H.
  assert (Hall : forallb (fun n => (length (break_loop 8 1 (range n) false 0 0)
                                    <=? 3)%nat) (range 25) = true)
    by (vm_compute; reflexivity).
  rewrite forallb_forall in Hall. apply Nat.leb_le. apply Hall.
  apply In_range. lia.
Qed.

Lemma full_loop_at_most_three (h : Z) :
  15 <= h < 24 ->
  (length (break_loop 8 1 (range 24) false (24 - (h + 1)) 0) <= 3)%nat.
Proof.
  intros H.
  assert (Hall : forallb (fun k => (length (break_loop 8 1 (range 24) false
                                              (24 - (k + 15 + 1)) 0) <=? 3)%nat)
                   (range 9) = true)
    by (vm_compute; reflexivity).
  rewrite forallb_forall in Hall. apply Nat.leb_le.
  replace h with (h - 15 + 15) by lia. apply Hall. apply In_range. lia.
Qed.

Lemma at_most_three_breaks (s : segment) (breaks : list datetime) :
  well_formed s -> get_break_timings s = Ok breaks -> (length breaks <= 3)%nat.
Proof.
  intros [[Hw Hb] [_ Hv]] H.
  destruct s as [d | ss d | se d | ss se d]; cbn [base get_break_timings] in *.
  - unfold RobotWorkDay_get_break_timings in H. rewrite Hw, Hb in H.
    destruct (_ <? _); [discriminate |]. apply Ok_inj in H. subst breaks.
    rewrite length_map. apply full_loop_at_most_three. apply Hv.
  - unfold RobotShiftStartDay_get_break_timings in H. rewrite Hw, Hb in H.
    pose proof (hour_range ss).
    destruct (_ <=? _); apply Ok_inj in H; subst breaks.
    + rewrite length_map. apply loop_at_most_three. lia.
    + cbn [length]. lia.
  - unfold RobotWorkDay_get_break_timings in H. rewrite Hw, Hb in H.
    destruct (_ <? _); [discriminate |]. apply Ok_inj in H. subst breaks.
    rewrite length_map. apply full_loop_at_most_three. apply Hv.
  - unfold RobotWorkHalfDay_get_break_timings in H. rewrite Hw, Hb in H.
    destruct (_ >? _); apply Ok_inj in H; subst breaks.
    + rewrite length_map. apply loop_at_most_three.
      unfold td_seconds. Z.to_euclidean_division_equations; lia.
    + cbn [length]. lia.
Qed.

Lemma night_minutes_bound (s : segment) (before : Q * Q) (dm nm : Q) :
  well_formed s -> minutes_before_breaks s = Ok before ->
  get_minutes_worked s (get_break_timings s) = Ok (dm, nm) ->
  (snd before - 180 <= nm)%Q.
Proof.
  intros Hwf Hbefore H.
  apply get_minutes_worked_inv in H as [before' [breaks [Hb [Hg Hsub]]]].
  rewrite Hbefore in Hb. apply Ok_inj in Hb. subst before'.
  pose proof (at_most_three_breaks s breaks Hwf Hg) as Hlen.
  destruct Hwf as [[_ Hbd] _]. rewrite Hbd in Hsub.
  change nm with (snd (dm, nm)). rewrite <- Hsub.
  eapply Qle_trans; [| apply subtract_breaks_night_bound].
  apply Qle_minus_iff. ring_simplify.
  setoid_replace (-1 * inject_Z (60 * Z.of_nat (length breaks)) + 180)%Q
    with (inject_Z (180 - 60 * Z.of_nat (length breaks))).
  - change 0%Q with (inject_Z 0). rewrite <- Zle_Qle. lia.
  - rewrite inject_Z_sub. change (inject_Z 180) with 180%Q. ring.
Qed.

(** C9, as the claim has it, fails.  The half day 2038-01-01 14:01:00 to
    23:01:00 with the window 07:00-23:00 and the default policy is well
    formed; its one break, at 22:01, starts less than an hour before the
    window closes and is charged to the single night minute of the shift:
    [night_minutes] comes out as -59. *)
Lemma night_minutes_negative :
  let s := SHIFT_CONFINED (mk_datetime 2038 1 1 14 1 0)
             (mk_datetime 2038 1 1 23 1 0) (day_07_23 None) in
  well_formed s
  /\ get_break_timings s = Ok [break_time_dt 22 1]
  /\ exists dm nm, get_minutes_worked s (get_break_timings s) = Ok (dm, nm)
                   /\ (dm == 539)%Q /\ (nm == -59)%Q /\ ~ (0 <= nm)%Q.
Proof.
  cbv zeta. split; [| split].
  - split; [split; reflexivity |]. split.
    + split; [discriminate |]. split; reflexivity.
    + split; [reflexivity | discriminate].
  - reflexivity.
  - eexists; eexists. split; [vm_compute; reflexivity |].
    split; [reflexivity |]. split; [reflexivity |].
    intros H. apply H. reflexivity.
Qed.

(** C9 (amended).  With the default policy (work 8 h, break 1 h), for every
    well-formed segment the [day_minutes] returned after the break loop are
    non-negative, and the [night_minutes] are at least those held before the
    break loop less 180, a segment having at most three breaks: they are
    non-negative when the segment has 180 night minutes or more.  A full,
    shift-start or shift-end day always returns its minutes. *)
Theorem day_minutes_nonneg (s : segment) :
  well_formed s ->
  (forall dm nm, get_minutes_worked s (get_break_timings s) = Ok (dm, nm) ->
     (0 <= dm)%Q
     /\ forall before, minutes_before_breaks s = Ok before ->
          (snd before - 180 <= nm)%Q /\ ((180 <= snd before)%Q -> (0 <= nm)%Q))
  /\ (is_half_day s = false ->
      exists dm nm, get_minutes_worked s (get_break_timings s) = Ok (dm, nm)).
Proof.
  intros Hwf. split.
  - intros dm nm H. split.
    + destruct s as [d | ss d | se d | ss se d].
      * eapply full_day_minutes_nonneg; eassumption.
      * eapply start_day_minutes_nonneg; eassumption.
      * eapply end_day_minutes_nonneg; eassumption.
      * eapply half_day_minutes_nonneg; eassumption.
    + intros before Hb.
      pose proof (night_minutes_bound s before dm nm Hwf Hb H) as Hn.
      split; [exact Hn |]. intros H180.
      eapply Qle_trans; [| exact Hn].
      apply Qle_minus_iff. apply Qle_minus_iff in H180.
      eapply Qle_trans; [exact H180 |]. ring_simplify. apply Qle_refl.
  - intros Hrole.
    assert (Hgen : exists breaks, get_break_timings s = Ok breaks).
    { destruct Hwf as [Hp [_ Hv]].
      destruct s as [d | ss d | se d | ss se d]; cbn [base] in *;
        try discriminate.
      - destruct (full_day_carry d (mk_hhmm 0 0) Hp Hv) as [b [Hb _]]; eauto.
      - destruct (start_day_carry ss d (mk_hhmm 0 0) Hp) as [b [Hb _]]; eauto.
      - destruct (full_day_carry d (mk_hhmm 0 0) Hp Hv) as [b [Hb _]]; eauto. }
    destruct Hgen as [breaks Hgen].
    destruct (get_minutes_worked_ok s breaks Hrole Hgen) as [[dm nm] Hm]. eauto.
Qed.

Lemma day_minutes_nonneg_witness :
  let s := SHIFT_CONFINED (mk_datetime 2038 1 1 14 1 0)
             (mk_datetime 2038 1 1 23 1 0) (day_07_23 None) in
  well_formed s
  /\ exists dm nm, get_minutes_worked s (get_break_timings s) = Ok (dm, nm)
                   /\ (0 <= dm)%Q.
Proof.
  cbv zeta.
  assert (Hwf : well_formed
            (SHIFT_CONFINED (mk_datetime 2038 1 1 14 1 0)
               (mk_datetime 2038 1 1 23 1 0) (day_07_23 None))).
  { split; [split; reflexivity |]. split.
    - split; [discriminate |]. split; reflexivity.
    - split; [reflexivity | discriminate]. }
  split; [exact Hwf |].
  eexists; eexists. split; [vm_compute; reflexivity |].
  apply (proj1 (day_minutes_nonneg _ Hwf) _ (-212400 # 3600)%Q).
  vm_compute; reflexivity.
Defined.

(** ** Splitting a shift *)


(** * Further properties of the code *)

(** ** The hours at which the loop yields *)

Lemma break_loop_progression (work break : Z) (k : nat) :
  1 <= work -> 1 <= break ->
  forall (a : nat) (isBreak : bool) (hsb bht : Z),
    hsb <= work ->
    (isBreak = true -> 0 <= bht < break) ->
    (isBreak = false -> bht = 0) ->
    forall x,
      In x (break_loop work break (map Z.of_nat (seq a k)) isBreak hsb bht)
      <-> Z.of_nat a <= x < Z.of_nat (a + k)
          /\ exists j, 0 <= j
               /\ x = Z.of_nat a + until_break work break isBreak hsb bht
                      + j * (work + break).
Proof.
  intros Hw Hb. induction k as [| k IH]; intros a isBreak hsb bht Hh Ht Hf x;
    cbn [seq map break_loop].
  - split; [intros [] | intros [Hx _]; lia].
  - destruct isBreak; unfold until_break.
    + specialize (Ht eq_refl).
      destruct (Z.eqb_spec (bht + 1) break) as [E | E].
      * rewrite (IH (S a) false hsb 0 Hh) by (intros; try discriminate; lia).
        unfold until_break. split; intros [Hx [j [Hj ->]]].
        -- split; [lia |]. exists j. split; [lia | lia].
        -- split; [lia |]. exists j. split; [lia | lia].
      * rewrite (IH (S a) true hsb (bht + 1) Hh)
          by (intros; try discriminate; lia).
        unfold until_break. split; intros [Hx [j [Hj ->]]].
        -- split; [lia |]. exists j. split; [lia | lia].
        -- split; [lia |]. exists j. split; [lia | lia].
    + specialize (Hf eq_refl). subst bht.
      destruct (Z.eqb_spec hsb work) as [E | E].
      * cbn [In].
        rewrite (IH (S a) true (0 + 1) 0) by (intros; try discriminate; lia).
        unfold until_break. split.
        -- intros [<- | [Hx [j [Hj ->]]]].
           ++ split; [lia |]. exists 0. lia.
           ++ split; [lia |]. exists (j + 1). split; [lia | lia].
        -- intros [Hx [j [Hj ->]]].
           destruct (Z.eq_dec j 0) as [-> | Hj0]; [left; lia |].
           right. split; [nia |]. exists (j - 1). split; [lia | lia].
      * rewrite (IH (S a) false (hsb + 1) 0) by (intros; try discriminate; lia).
        unfold until_break. split; intros [Hx [j [Hj ->]]].
        -- split; [lia |]. exists j. split; [lia | lia].
        -- split; [nia |]. exists j. split; [lia | lia].
Qed.

Lemma range_break_hours (work break n hsb : Z) :
  1 <= work -> 1 <= break -> hsb <= work ->
  forall x,
    In x (break_loop work break (range n) false hsb 0)
    <-> 0 <= x < n
        /\ exists j, 0 <= j /\ x = work - hsb + j * (work + break).
Proof.
  intros Hw Hb Hh x. unfold range.
  rewrite (break_loop_progression work break (Z.to_nat n) Hw Hb 0 false hsb 0 Hh)
    by (intros; try discriminate; reflexivity).
  unfold until_break. split; intros [Hx [j [Hj ->]]].
  - split; [lia |]. exists j. split; [lia | lia].
  - split; [lia |]. exists j. split; [lia | lia].
Qed.

Lemma break_loop_overdue (work break : Z) (hours : list Z) :
  forall hsb bht, work < hsb -> break_loop work break hours false hsb bht = [].
Proof.
  induction hours as [| h rest IH]; intros hsb bht H; cbn [break_loop].
  - reflexivity.
  - destruct (Z.eqb_spec hsb work); [lia |]. apply IH. lia.
Qed.

Lemma no_element_nil {A : Type} (l : list A) : (forall x, ~ In x l) -> l = [].
Proof.
  destruct l as [| a l]; [reflexivity |]. intros H. exfalso.
  apply (H a). left. reflexivity.
Qed.

(** X1.  From [hours_since_break <= work] and outside a break, the hours at
    which the loop yields over [range(n)] are in increasing order and are
    exactly those of the arithmetic progression that starts at
    [work - hours_since_break] and steps by [work + break]: one break for each
    full work duration, and [break] hours after it without another. *)
Theorem break_hours_arithmetic (work break n hsb : Z) :
  1 <= work -> 1 <= break -> hsb <= work ->
  StronglySorted Z.lt (break_loop work break (range n) false hsb 0)
  /\ forall x,
       In x (break_loop work break (range n) false hsb 0)
       <-> 0 <= x < n
           /\ exists j, 0 <= j /\ x = work - hsb + j * (work + break).
Proof.
  intros Hw Hb Hh. split.
  - unfold range. apply (break_loop_seq work break (Z.to_nat n) 0 false hsb 0).
  - apply range_break_hours; assumption.
Qed.

Lemma break_hours_arithmetic_witness :
  (1 <= 8 /\ 1 <= 1 /\ 8 <= 8)
  /\ In 18 (break_loop 8 1 (range 24) false 8 0)
  /\ ~ In 17 (break_loop 8 1 (range 24) false 8 0).
Proof.
  assert (H8 : 1 <= 8) by lia. assert (H1 : 1 <= 1) by lia.
  assert (Hh : 8 <= 8) by lia.
  destruct (break_hours_arithmetic 8 1 24 8 H8 H1 Hh) as [_ Hin].
  split; [auto |]. split.
  - apply Hin. split; [lia |]. exists 2. lia.
  - intros H. apply Hin in H as [_ [j [Hj E]]]. lia.
Defined.

(** X2.  When [hours_since_break] starts above the work duration the loop
    never yields, however many hours it runs over: the test is an equality,
    so a break that is overdue at the first hour is never granted. *)
Theorem overdue_break_never_granted (work break n hsb : Z) :
  work < hsb -> break_loop work break (range n) false hsb 0 = [].
Proof. intros H. apply break_loop_overdue. exact H. Qed.

Lemma overdue_break_never_granted_witness :
  8 < 23 /\ break_loop 8 1 (range 24) false 23 0 = [].
Proof.
  assert (H : 8 < 23) by lia.
  split; [exact H | exact (overdue_break_never_granted 8 1 24 23 H)].
Defined.

(** ** The break times of each generator *)

Lemma midnight_1900_01_02 : mk_datetime 1900 1 2 0 0 0 = epoch1900 + 86400.
Proof. reflexivity. Qed.

(** X3.  A full day (or shift-end day) whose time of last break passes the
    guard yields exactly the times [x:MM] of that day, [MM] the minute of the
    time of last break, with [x] = hour of last break + break + work - 24,
    then every [work + break] hours: the next break is due one work duration
    after the last one ended. *)
Theorem full_day_break_times (d : RobotWorkDay) (breaks : list datetime) :
  1 <= work_duration_in_hours d -> 1 <= break_duration_in_hours d ->
  mm (time_of_last_break d) < 60 ->
  get_break_timings (FULL d) = Ok breaks ->
  forall b,
    In b breaks
    <-> exists j,
          0 <= j
          /\ let x := hh (time_of_last_break d) + break_duration_in_hours d
                      + work_duration_in_hours d - 24
                      + j * (work_duration_in_hours d + break_duration_in_hours d)
             in 0 <= x < 24 /\ b = break_time_dt x (mm (time_of_last_break d)).
Proof.
  intros Hw Hb Hm H b. cbn [get_break_timings] in H.
  unfold RobotWorkDay_get_break_timings in H.
  destruct (Z.ltb_spec (strptime_HM (time_of_last_break d))
              (mk_datetime 1900 1 2 0 0 0 - hours (break_duration_in_hours d)
               - hours (work_duration_in_hours d))) as [Hlt | Hge];
    [discriminate |].
  apply Ok_inj in H. subst breaks.
  rewrite midnight_1900_01_02 in Hge. unfold strptime_HM, hours in Hge.
  assert (Hh : 24 - (hh (time_of_last_break d) + break_duration_in_hours d)
               <= work_duration_in_hours d)
    by (unfold datetime in *; lia).
  rewrite in_map_iff. split.
  - intros [x [<- Hx]]. apply (range_break_hours _ _ _ _ Hw Hb Hh) in Hx.
    destruct Hx as [Hx [j [Hj E]]]. exists j. split; [exact Hj |]. cbv zeta.
    replace (hh (time_of_last_break d) + break_duration_in_hours d
             + work_duration_in_hours d - 24
             + j * (work_duration_in_hours d + break_duration_in_hours d))
      with x by lia.
    split; [exact Hx | reflexivity].
  - intros [j [Hj [Hx ->]]]. eexists. split; [reflexivity |].
    apply (range_break_hours _ _ _ _ Hw Hb Hh). split; [exact Hx |].
    exists j. split; [exact Hj | lia].
Qed.

Lemma full_day_break_times_witness :
  let d := day_07_23 (Some (mk_hhmm 20 15)) in
  (1 <= work_duration_in_hours d /\ 1 <= break_duration_in_hours d
   /\ mm (time_of_last_break d) < 60)
  /\ get_break_timings (FULL d)
     = Ok [break_time_dt 5 15; break_time_dt 14 15; break_time_dt 23 15]
  /\ In (break_time_dt 14 15)
       [break_time_dt 5 15; break_time_dt 14 15; break_time_dt 23 15].
Proof.
  cbv zeta.
  assert (Hw : 1 <= work_duration_in_hours (day_07_23 (Some (mk_hhmm 20 15))))
    by (cbn; lia).
  assert (Hb : 1 <= break_duration_in_hours (day_07_23 (Some (mk_hhmm 20 15))))
    by (cbn; lia).
  assert (Hm : mm (time_of_last_break (day_07_23 (Some (mk_hhmm 20 15)))) < 60)
    by (cbn; lia).
  assert (Hg : get_break_timings (FULL (day_07_23 (Some (mk_hhmm 20 15))))
               = Ok [break_time_dt 5 15; break_time_dt 14 15; break_time_dt 23 15])
    by reflexivity.
  split; [auto |]. split; [exact Hg |].
  apply (full_day_break_times _ _ Hw Hb Hm Hg). exists 1.
  split; [lia |]. cbv zeta. split; [cbn; lia | reflexivity].
Defined.

Lemma loop_break_times (work break n h m : Z) (b : datetime) :
  1 <= work -> 1 <= break ->
  In b (map (fun x => break_time_dt (x + h) m)
          (break_loop work break (range n) false 0 0))
  <-> exists j, 0 <= j /\ work + j * (work + break) < n
                /\ b = break_time_dt (h + work + j * (work + break)) m.
Proof.
  intros Hw Hb. assert (H0 : 0 <= work) by lia.
  rewrite in_map_iff. split.
  - intros [x [<- Hx]]. apply (range_break_hours _ _ _ _ Hw Hb H0) in Hx.
    destruct Hx as [Hx [j [Hj ->]]]. exists j. split; [exact Hj |].
    split; [lia |]. f_equal. lia.
  - intros [j [Hj [Hn ->]]]. exists (work + j * (work + break)). split.
    + f_equal. lia.
    + apply (range_break_hours _ _ _ _ Hw Hb H0). split; [nia |].
      exists j. split; [exact Hj | lia].
Qed.

(** X4.  A shift-start day that starts no later than its latest possible
    break time yields exactly the times [x:MM], [MM] the minute of the shift
    start, with [x] = start hour + work, then every [work + break] hours up
    to hour 23, and the first of them is always there; a later start yields
    the hour and minute of the shift start alone. *)
Theorem start_day_break_times (ss : datetime) (d : RobotWorkDay)
    (breaks : list datetime) :
  1 <= work_duration_in_hours d -> 1 <= break_duration_in_hours d ->
  get_break_timings (SHIFT_START ss d) = Ok breaks ->
  (ss <= latest_break_time_of ss d ->
     (forall b,
        In b breaks
        <-> exists j,
              0 <= j
              /\ let x := hour ss + work_duration_in_hours d
                          + j * (work_duration_in_hours d
                                 + break_duration_in_hours d)
                 in x < 24 /\ b = break_time_dt x (minute ss))
     /\ In (break_time_dt (hour ss + work_duration_in_hours d) (minute ss))
          breaks)
  /\ (latest_break_time_of ss d < ss -> breaks = [HHMM_1900 ss]).
Proof.
  intros Hw Hb H. cbn [get_break_timings] in H.
  unfold RobotShiftStartDay_get_break_timings in H.
  fold (latest_break_time_of ss d) in H.
  destruct (Z.leb_spec ss (latest_break_time_of ss d)) as [Hle | Hgt];
    apply Ok_inj in H; subst breaks.
  - split; [intros _ | lia].
    assert (Hchar : forall b,
              In b (map (fun x => break_time_dt (x + hour ss) (minute ss))
                      (break_loop (work_duration_in_hours d)
                         (break_duration_in_hours d) (range (24 - hour ss))
                         false 0 0))
              <-> exists j,
                    0 <= j
                    /\ hour ss + work_duration_in_hours d
                       + j * (work_duration_in_hours d
                              + break_duration_in_hours d) < 24
                    /\ b = break_time_dt
                             (hour ss + work_duration_in_hours d
                              + j * (work_duration_in_hours d
                                     + break_duration_in_hours d)) (minute ss)).
    { intros b. rewrite (loop_break_times _ _ _ _ _ b Hw Hb).
      split; intros [j [Hj [Hn E]]]; exists j; (split; [exact Hj |]);
        (split; [lia | exact E]). }
    split; [exact Hchar |]. apply Hchar. exists 0. split; [lia |].
    split; [| f_equal; lia].
    unfold latest_break_time_of, on_date_of, days, hours in Hle.
    pose proof (datetime_split ss). pose proof (second_of_day_split ss).
    pose proof (minute_range ss). pose proof (second_range ss).
    unfold datetime in *. lia.
  - split; [lia | intros _]. rewrite HHMM_1900_strptime. reflexivity.
Qed.

Lemma start_day_break_times_witness :
  let ss := mk_datetime 2038 1 1 6 30 0 in
  let d := day_07_23 None in
  (1 <= work_duration_in_hours d /\ 1 <= break_duration_in_hours d
   /\ ss <= latest_break_time_of ss d)
  /\ get_break_timings (SHIFT_START ss d)
     = Ok [break_time_dt 14 30; break_time_dt 23 30]
  /\ In (break_time_dt (hour ss + work_duration_in_hours d) (minute ss))
       [break_time_dt 14 30; break_time_dt 23 30].
Proof.
  cbv zeta.
  assert (Hw : 1 <= work_duration_in_hours (day_07_23 None)) by (cbn; lia).
  assert (Hb : 1 <= break_duration_in_hours (day_07_23 None)) by (cbn; lia).
  assert (Hle : mk_datetime 2038 1 1 6 30 0
                <= latest_break_time_of (mk_datetime 2038 1 1 6 30 0)
                     (day_07_23 None)) by discriminate.
  assert (Hg : get_break_timings
                 (SHIFT_START (mk_datetime 2038 1 1 6 30 0) (day_07_23 None))
               = Ok [break_time_dt 14 30; break_time_dt 23 30]) by reflexivity.
  split; [auto |]. split; [exact Hg |].
  apply (proj1 (start_day_break_times _ _ _ Hw Hb Hg) Hle).
Defined.

(** X5.  Take a half day whose two timestamps lie on one date, which is
    what [main] builds.  If it is longer than the work duration it yields
    exactly the times [x:MM], [MM] the minute of the shift start, with [x] =
    start hour + work, then every [work + break] hours, as long as the whole
    hours of the shift reach past them, and every such [x] is an hour of the
    day, below 24.  If it is no longer than the work duration it yields the
    hour and minute of the shift start alone. *)
Theorem half_day_break_times (ss se : datetime) (d : RobotWorkDay)
    (breaks : list datetime) :
  1 <= work_duration_in_hours d -> 1 <= break_duration_in_hours d ->
  toordinal ss = toordinal se ->
  get_break_timings (SHIFT_CONFINED ss se d) = Ok breaks ->
  (hours (work_duration_in_hours d) < se - ss ->
     forall b,
       In b breaks
       <-> exists j,
             0 <= j
             /\ let x := work_duration_in_hours d
                         + j * (work_duration_in_hours d
                                + break_duration_in_hours d)
                in x < td_seconds (se - ss) / 3600
                   /\ hour ss + x < 24
                   /\ b = break_time_dt (hour ss + x) (minute ss))
  /\ (se - ss <= hours (work_duration_in_hours d) -> breaks = [HHMM_1900 ss]).
Proof.
  intros Hw Hb Hord H. cbn [get_break_timings] in H.
  unfold RobotWorkHalfDay_get_break_timings in H.
  destruct (Z.gtb_spec (se - ss) (hours (work_duration_in_hours d)))
    as [Hgt | Hle]; apply Ok_inj in H; subst breaks.
  - split; [intros _ | unfold timedelta in *; lia].
    assert (Hday : forall x,
              0 <= x < td_seconds (se - ss) / 3600 -> hour ss + x < 24).
    { intros x Hx.
      pose proof (datetime_split ss) as Hss. pose proof (datetime_split se) as Hse.
      pose proof (second_of_day_range se) as Hre.
      pose proof (second_of_day_split ss) as Hsod.
      pose proof (minute_range ss) as Hm. pose proof (second_range ss) as Hsec.
      unfold hours in Hgt.
      assert (Hlen : td_seconds (se - ss) = second_of_day se - second_of_day ss).
      { pose proof (second_of_day_range ss).
        rewrite td_seconds_small; unfold datetime, timedelta in *; nia. }
      rewrite Hlen in Hx.
      assert (Hx' : (x + 1) * 3600 <= second_of_day se - second_of_day ss).
      { destruct Hx as [_ Hx]. revert Hx.
        generalize (second_of_day se - second_of_day ss). intros y Hx.
        Z.to_euclidean_division_equations; lia. }
      lia. }
    intros b. rewrite (loop_break_times _ _ _ _ _ b Hw Hb).
    split; intros [j [Hj H]]; exists j; (split; [exact Hj |]); cbv zeta in *.
    + destruct H as [Hn E]. split; [lia |]. split; [apply Hday; nia |].
      rewrite E. f_equal. lia.
    + destruct H as [Hn [_ E]]. split; [lia |]. rewrite E. f_equal. lia.
  - split; [unfold timedelta in *; lia | intros _].
    rewrite HHMM_1900_strptime. reflexivity.
Qed.

Lemma half_day_break_times_witness :
  let ss := mk_datetime 2038 1 1 3 10 0 in
  let se := mk_datetime 2038 1 1 23 45 0 in
  let d := day_07_23 None in
  (1 <= work_duration_in_hours d /\ 1 <= break_duration_in_hours d
   /\ toordinal ss = toordinal se
   /\ hours (work_duration_in_hours d) < se - ss)
  /\ get_break_timings (SHIFT_CONFINED ss se d)
     = Ok [break_time_dt 11 10; break_time_dt 20 10]
  /\ exists j,
       0 <= j
       /\ work_duration_in_hours d
          + j * (work_duration_in_hours d + break_duration_in_hours d)
          < td_seconds (se - ss) / 3600
       /\ hour ss
          + (work_duration_in_hours d
             + j * (work_duration_in_hours d + break_duration_in_hours d)) < 24.
Proof.
  cbv zeta.
  assert (Hw : 1 <= work_duration_in_hours (day_07_23 None)) by (cbn; lia).
  assert (Hb : 1 <= break_duration_in_hours (day_07_23 None)) by (cbn; lia).
  assert (Hord : toordinal (mk_datetime 2038 1 1 3 10 0)
                 = toordinal (mk_datetime 2038 1 1 23 45 0)) by reflexivity.
  assert (Hlt : hours (work_duration_in_hours (day_07_23 None))
                < mk_datetime 2038 1 1 23 45 0 - mk_datetime 2038 1 1 3 10 0)
    by reflexivity.
  assert (Hg : get_break_timings
                 (SHIFT_CONFINED (mk_datetime 2038 1 1 3 10 0)
                    (mk_datetime 2038 1 1 23 45 0) (day_07_23 None))
               = Ok [break_time_dt 11 10; break_time_dt 20 10]) by reflexivity.
  split; [auto |]. split; [exact Hg |].
  destruct (proj1 (proj1 (half_day_break_times _ _ _ _ Hw Hb Hord Hg) Hlt
                     (break_time_dt 20 10)) (or_intror (or_introl eq_refl)))
    as [j [Hj [Hx [Hh _]]]].
  exists j. split; [exact Hj |]. split; [exact Hx | exact Hh].
Defined.

(** ** Segments that are charged no break *)

Lemma subtract_breaks_all_skipped (skip in_day : datetime -> bool) (break : Z)
    (breaks : list datetime) (dm nm : Q) :
  (forall b, In b breaks -> skip b = true) ->
  subtract_breaks skip in_day break breaks dm nm = (dm, nm).
Proof.
  induction breaks as [| b rest IH]; intros H; cbn [subtract_breaks].
  - reflexivity.
  - rewrite (H b (or_introl eq_refl)). apply IH.
    intros c Hc. apply H. right. exact Hc.
Qed.

Lemma get_minutes_worked_all_skipped (s : segment) (breaks : list datetime) :
  get_break_timings s = Ok breaks ->
  (forall b, In b breaks -> skips s b = true) ->
  get_minutes_worked s (get_break_timings s) = minutes_before_breaks s.
Proof.
  intros Hg Hskip. rewrite Hg. unfold get_minutes_worked.
  destruct (minutes_before_breaks s) as [[dm nm] | e]; cbn [bind fst snd];
    [| reflexivity].
  rewrite subtract_breaks_all_skipped by exact Hskip. reflexivity.
Qed.

(** X6.  A half day with no more whole hours than the work duration is
    charged no break: [get_minutes_worked] returns the minutes it had before
    its break loop (or ends in the exception of its case split). *)
Theorem short_half_day_no_break (ss se : datetime) (d : RobotWorkDay) :
  1 <= work_duration_in_hours d -> 1 <= break_duration_in_hours d ->
  td_seconds (se - ss) / 3600 <= work_duration_in_hours d ->
  get_minutes_worked (SHIFT_CONFINED ss se d)
    (get_break_timings (SHIFT_CONFINED ss se d))
  = minutes_before_breaks (SHIFT_CONFINED ss se d).
Proof.
  intros Hw Hb Hn.
  destruct (get_break_timings (SHIFT_CONFINED ss se d)) as [breaks | e] eqn:Hg.
  - rewrite <- Hg. apply (get_minutes_worked_all_skipped _ breaks Hg).
    cbn [get_break_timings] in Hg.
    unfold RobotWorkHalfDay_get_break_timings in Hg.
    destruct (_ >? _); apply Ok_inj in Hg; subst breaks.
    + intros b Hin. exfalso.
      apply (loop_break_times _ _ _ _ _ b Hw Hb) in Hin.
      destruct Hin as [j [Hj [Hlt _]]]. nia.
    + intros b [<- | []]. cbn [skips]. rewrite HHMM_1900_strptime.
      apply Z.eqb_refl.
  - cbn [get_break_timings] in Hg.
    unfold RobotWorkHalfDay_get_break_timings in Hg.
    destruct (_ >? _); discriminate.
Qed.

Lemma short_half_day_no_break_witness :
  let ss := mk_datetime 2038 1 1 14 0 0 in
  let se := mk_datetime 2038 1 1 22 59 0 in
  let d := day_07_23 None in
  (1 <= work_duration_in_hours d /\ 1 <= break_duration_in_hours d
   /\ td_seconds (se - ss) / 3600 <= work_duration_in_hours d)
  /\ get_minutes_worked (SHIFT_CONFINED ss se d)
       (get_break_timings (SHIFT_CONFINED ss se d))
     = minutes_before_breaks (SHIFT_CONFINED ss se d).
Proof.
  cbv zeta.
  assert (Hw : 1 <= work_duration_in_hours (day_07_23 None)) by (cbn; lia).
  assert (Hb : 1 <= break_duration_in_hours (day_07_23 None)) by (cbn; lia).
  assert (Hn : td_seconds (mk_datetime 2038 1 1 22 59 0
                           - mk_datetime 2038 1 1 14 0 0) / 3600
               <= work_duration_in_hours (day_07_23 None)) by discriminate.
  split; [auto |]. exact (short_half_day_no_break _ _ _ Hw Hb Hn).
Defined.

(** X7.  A shift-end day whose shift ends in the first [break] hours of the
    day is charged no break: every break time of the day is later than the
    shift end less the break duration, which falls on the day before. *)
Theorem early_shift_end_no_break (se : datetime) (d : RobotWorkDay)
    (breaks : list datetime) :
  hour se < break_duration_in_hours d -> 0 <= mm (time_of_last_break d) ->
  get_break_timings (SHIFT_END se d) = Ok breaks ->
  get_minutes_worked (SHIFT_END se d) (get_break_timings (SHIFT_END se d))
  = Ok (RobotShiftEndDay_minutes_before_breaks se d).
Proof.
  intros Hh Hm Hg.
  rewrite (get_minutes_worked_all_skipped _ breaks Hg); [reflexivity |].
  cbn [get_break_timings] in Hg. unfold RobotWorkDay_get_break_timings in Hg.
  destruct (_ <? _); [discriminate |]. apply Ok_inj in Hg. subst breaks.
  intros b Hin. apply in_map_iff in Hin as [x [<- Hx]].
  destruct (break_loop_seq (work_duration_in_hours d) (break_duration_in_hours d)
              24 0 false
              (24 - (hh (time_of_last_break d) + break_duration_in_hours d)) 0)
    as [_ HF].
  rewrite Forall_forall in HF. apply HF in Hx.
  cbn [skips]. apply Z.gtb_lt.
  unfold HHMM_1900, mk_datetime, break_time_dt, strptime_HM, hours. cbn [hh mm].
  change (ymd_to_ordinal 1900 1 1 * 86400) with epoch1900.
  pose proof (minute_range se). unfold datetime in *. lia.
Qed.

Lemma early_shift_end_no_break_witness :
  let se := mk_datetime 2038 1 2 0 59 0 in
  let d := day_07_23 (Some (mk_hhmm 15 0)) in
  (hour se < break_duration_in_hours d /\ 0 <= mm (time_of_last_break d))
  /\ get_break_timings (SHIFT_END se d)
     = Ok [break_time_dt 0 0; break_time_dt 9 0; break_time_dt 18 0]
  /\ get_minutes_worked (SHIFT_END se d) (get_break_timings (SHIFT_END se d))
     = Ok (RobotShiftEndDay_minutes_before_breaks se d).
Proof.
  cbv zeta.
  assert (Hh : hour (mk_datetime 2038 1 2 0 59 0)
               < break_duration_in_hours (day_07_23 (Some (mk_hhmm 15 0))))
    by reflexivity.
  assert (Hm : 0 <= mm (time_of_last_break (day_07_23 (Some (mk_hhmm 15 0)))))
    by discriminate.
  assert (Hg : get_break_timings
                 (SHIFT_END (mk_datetime 2038 1 2 0 59 0)
                    (day_07_23 (Some (mk_hhmm 15 0))))
               = Ok [break_time_dt 0 0; break_time_dt 9 0; break_time_dt 18 0])
    by reflexivity.
  split; [auto |]. split; [exact Hg |].
  exact (early_shift_end_no_break _ _ _ Hh Hm Hg).
Defined.

(** ** What the break loop takes away *)

Lemma subtract_breaks_total (skip in_day : datetime -> bool) (break : Z)
    (breaks : list datetime) :
  forall dm nm : Q,
    (fst (subtract_breaks skip in_day break breaks dm nm)
     + snd (subtract_breaks skip in_day break breaks dm nm)
     == dm + nm
        - inject_Z (break * 60)
          * inject_Z (Z.of_nat (length (filter (fun b => negb (skip b)) breaks))))%Q.
Proof.
  induction breaks as [| b rest IH]; intros dm nm;
    cbn [subtract_breaks filter].
  - cbn [fst snd length]. change (inject_Z (Z.of_nat 0)) with 0%Q. ring.
  - destruct (skip b); cbn [negb].
    + apply IH.
    + assert (E : (inject_Z
                     (Z.of_nat
                        (length (b :: filter (fun b => negb (skip b)) rest)))
                   == inject_Z
                        (Z.of_nat (length (filter (fun b => negb (skip b)) rest)))
                      + 1)%Q).
      { change 1%Q with (inject_Z 1). rewrite <- inject_Z_plus.
        apply inject_Z_injective. cbn [length]. lia. }
      destruct (in_day b); rewrite IH, E; ring.
Qed.

Lemma minutes_before_breaks_elapsed (s : segment) (before : Q * Q) :
  within_one_day s -> minutes_before_breaks s = Ok before ->
  (fst before + snd before == elapsed_minutes s)%Q.
Proof.
  intros Hday H. destruct s as [d | ss d | se d | ss se d];
    cbn [minutes_before_breaks] in H.
  - apply Ok_inj in H. subst before.
    unfold RobotWorkDay_minutes_before_breaks, elapsed_minutes. cbn [fst snd].
    change (inject_Z (24 * 60)) with 1440%Q. ring.
  - apply Ok_inj in H. subst before. apply start_day_minutes_sum.
  - apply Ok_inj in H. subst before. apply end_day_minutes_sum.
  - unfold RobotWorkHalfDay_minutes_before_breaks in H.
    apply bind_Ok in H as [q [_ H]]. apply Ok_inj in H. subst before.
    cbn [fst snd]. cbn [within_one_day] in Hday. destruct Hday as [Hord Hle].
    unfold elapsed_minutes. rewrite td_seconds_small.
    + ring.
    + pose proof (datetime_split ss). pose proof (datetime_split se).
      pose proof (second_of_day_range ss). pose proof (second_of_day_range se).
      unfold datetime, timedelta in *. lia.
Qed.

(** X8.  Whatever the role and the policy, the minutes [get_minutes_worked]
    returns add up to the minutes the segment spans less one break duration
    for each break its loop does not skip: what the break loop takes from one
    count it takes from nowhere else. *)
Theorem minutes_worked_total (s : segment) (dm nm : Q) :
  within_one_day s ->
  get_minutes_worked s (get_break_timings s) = Ok (dm, nm) ->
  exists breaks,
    get_break_timings s = Ok breaks
    /\ (dm + nm
        == elapsed_minutes s
           - inject_Z (break_duration_in_hours (base s) * 60)
             * inject_Z (Z.of_nat (length (surviving s breaks))))%Q.
Proof.
  intros Hday H.
  apply get_minutes_worked_inv in H as [before [breaks [Hb [Hg Hsub]]]].
  exists breaks. split; [exact Hg |].
  change dm with (fst (dm, nm)). change nm with (snd (dm, nm)) at 2.
  rewrite <- Hsub, subtract_breaks_total.
  rewrite (minutes_before_breaks_elapsed s before Hday Hb). reflexivity.
Qed.

Lemma minutes_worked_total_witness :
  let s := SHIFT_CONFINED (mk_datetime 2038 1 1 3 10 0)
             (mk_datetime 2038 1 1 23 45 0) (day_07_23 None) in
  within_one_day s
  /\ exists dm nm breaks,
       get_minutes_worked s (get_break_timings s) = Ok (dm, nm)
       /\ get_break_timings s = Ok breaks
       /\ (dm + nm
           == elapsed_minutes s
              - inject_Z (break_duration_in_hours (base s) * 60)
                * inject_Z (Z.of_nat (length (surviving s breaks))))%Q.
Proof.
  cbv zeta.
  assert (Hday : within_one_day
            (SHIFT_CONFINED (mk_datetime 2038 1 1 3 10 0)
               (mk_datetime 2038 1 1 23 45 0) (day_07_23 None))).
  { split; [reflexivity | discriminate]. }
  split; [exact Hday |].
  destruct (get_minutes_worked
              (SHIFT_CONFINED (mk_datetime 2038 1 1 3 10 0)
                 (mk_datetime 2038 1 1 23 45 0) (day_07_23 None))
              (get_break_timings
                 (SHIFT_CONFINED (mk_datetime 2038 1 1 3 10 0)
                    (mk_datetime 2038 1 1 23 45 0) (day_07_23 None))))
    as [[dm nm] | e] eqn:H.
  - destruct (minutes_worked_total _ _ _ Hday H) as [breaks [Hg Hsum]].
    exists dm, nm, breaks. split; [reflexivity |]. split; [exact Hg | exact Hsum].
  - exfalso. vm_compute in H. discriminate H.
Defined.

(** ** Pay *)

Lemma round_half_even_whole (q : Q) (z : Z) :
  (q == inject_Z z)%Q -> round_half_even q = z.
Proof.
  intros H. unfold round_half_even. cbv zeta.
  assert (Hf : Qfloor q = z)
    by (rewrite (Qfloor_comp q (inject_Z z) H); apply Qfloor_Z).
  rewrite Hf.
  assert (Hc : (q - inject_Z z ?= 1 # 2)%Q = Lt).
  { rewrite <- Qlt_alt.
    assert (E : (q - inject_Z z == 0)%Q) by (rewrite H; ring).
    rewrite E. reflexivity. }
  rewrite Hc. reflexivity.
Qed.

Lemma round2_whole (q : Q) (z : Z) :
  (q == inject_Z z)%Q -> round2 q = (inject_Z (z * 100) / 100)%Q.
Proof.
  intros H. unfold round2. f_equal. f_equal. apply round_half_even_whole.
  rewrite H, inject_Z_mult. reflexivity.
Qed.

Lemma int_of_hundredths (z : Z) : int_of (inject_Z (z * 100) / 100) = z.
Proof.
  unfold int_of, Qdiv, Qmult, Qinv, inject_Z. cbn [Qnum Qden].
  rewrite Z.mul_1_r. apply Z.quot_mul. discriminate.
Qed.

Lemma whole_minutes_paid_exactly_aux (d : RobotWorkDay) (dm nm : Q) (a b : Z) :
  (dm == inject_Z a)%Q -> (nm == inject_Z b)%Q ->
  (calculate_pay d dm nm == inject_Z (a * day_rate d + b * night_rate d))%Q
  /\ int_of (calculate_pay d dm nm) = a * day_rate d + b * night_rate d.
Proof.
  intros Ha Hb. unfold calculate_pay. cbv zeta.
  assert (E : (dm * inject_Z (day_rate d) + nm * inject_Z (night_rate d)
               == inject_Z (a * day_rate d + b * night_rate d))%Q).
  { rewrite Ha, Hb, inject_Z_plus, !inject_Z_mult. reflexivity. }
  rewrite (round2_whole _ _ E). split.
  - rewrite inject_Z_mult. change (inject_Z 100) with 100%Q. field.
  - apply int_of_hundredths.
Qed.

(** X9.  [calculate_pay] is exact on whole minutes: when both minute counts
    are whole numbers, rounding to two decimals changes nothing and the
    [int] of the result is [day_minutes * day_rate + night_minutes *
    night_rate]. *)
Theorem whole_minutes_paid_exactly (d : RobotWorkDay) (dm nm : Q) (a b : Z) :
  (dm == inject_Z a)%Q -> (nm == inject_Z b)%Q ->
  (calculate_pay d dm nm == inject_Z (a * day_rate d + b * night_rate d))%Q
  /\ int_of (calculate_pay d dm nm) = a * day_rate d + b * night_rate d.
Proof.
  intros Ha Hb. apply whole_minutes_paid_exactly_aux; assumption.
Qed.

Lemma whole_minutes_paid_exactly_witness :
  ((32340 # 60) == inject_Z 539)%Q /\ ((-212400 # 3600) == inject_Z (-59))%Q
  /\ int_of (calculate_pay (day_07_23 None) (32340 # 60) (-212400 # 3600))
     = 539 * 20 + -59 * 25.
Proof.
  assert (Ha : ((32340 # 60) == inject_Z 539)%Q) by reflexivity.
  assert (Hb : ((-212400 # 3600) == inject_Z (-59))%Q) by reflexivity.
  split; [exact Ha |]. split; [exact Hb |].
  exact (proj2 (whole_minutes_paid_exactly (day_07_23 None) _ _ _ _ Ha Hb)).
Defined.

(** ** Edge cases of [main] *)

Lemma half_day_zero_length_minutes (t : datetime) (d : RobotWorkDay) :
  exists q, RobotWorkHalfDay_day_minutes t t d = Ok q /\ (q == 0)%Q.
Proof.
  unfold RobotWorkHalfDay_day_minutes. cbv zeta.
  set (sds := shift_day_start t d). set (sde := shift_day_end t d).
  rewrite Z.sub_diag. change (td_seconds 0) with 0.
  destruct (Z.geb_spec t sde), (Z.leb_spec t sds), (Z.ltb_spec t sds),
    (Z.gtb_spec t sde), (Z.gtb_spec t sds), (Z.ltb_spec t sde);
    cbn [orb andb]; try lia; eexists; (split; [reflexivity | reflexivity]).
Qed.

(** X10.  A shift that ends at the very second it starts is paid 0, whatever
    the rates and the day window: the case split never falls through on it
    and no break is charged. *)
Theorem zero_length_shift_pays_nothing (t : datetime) (r : roboRate) :
  main t t r = Ok 0.
Proof.
  unfold main. rewrite Z.eqb_refl. unfold calculate_half_day_pay.
  destruct (parse_roboRate_values r (weekday t)) as [[[ds de] dr] nr].
  set (d := RobotWorkDay_init ds de dr nr None None None).
  assert (Hg : get_break_timings (SHIFT_CONFINED t t d) = Ok [HHMM_1900 t]).
  { cbn [get_break_timings]. unfold RobotWorkHalfDay_get_break_timings.
    rewrite Z.sub_diag. change (0 >? hours (work_duration_in_hours d)) with false.
    cbv iota. rewrite HHMM_1900_strptime. reflexivity. }
  rewrite (get_minutes_worked_all_skipped _ _ Hg)
    by (intros b [<- | []]; cbn [skips]; apply Z.eqb_refl).
  cbn [minutes_before_breaks]. unfold RobotWorkHalfDay_minutes_before_breaks.
  destruct (half_day_zero_length_minutes t d) as [q [-> Hq]].
  cbn [bind fst snd base]. rewrite Z.sub_diag. change (td_seconds 0) with 0.
  f_equal.
  assert (Hn : (minutes_of_seconds 0 - q == inject_Z 0)%Q)
    by (rewrite Hq; reflexivity).
  assert (Hd : (q == inject_Z 0)%Q) by (rewrite Hq; reflexivity).
  rewrite (proj2 (whole_minutes_paid_exactly_aux d _ _ 0 0 Hd Hn)). reflexivity.
Qed.

Lemma calculate_half_day_pay_object (ss se : datetime) (r : roboRate) :
  calculate_half_day_pay ss se r
  = (minutes_worked <-
       get_minutes_worked (SHIFT_CONFINED ss se (half_day_object r ss))
         (get_break_timings (SHIFT_CONFINED ss se (half_day_object r ss)));;
     Ok (int_of (calculate_pay (half_day_object r ss) (fst minutes_worked)
                   (snd minutes_worked)))).
Proof.
  unfold calculate_half_day_pay, half_day_object.
  destruct (parse_roboRate_values r (weekday ss)) as [[[ds de] dr] nr].
  reflexivity.
Qed.

Lemma half_day_generator_returns (ss se : datetime) (d : RobotWorkDay) :
  exists breaks, get_break_timings (SHIFT_CONFINED ss se d) = Ok breaks.
Proof.
  cbn [get_break_timings]. unfold RobotWorkHalfDay_get_break_timings.
  destruct (_ >? _); eauto.
Qed.

Lemma calculate_total_pay_returns (ss se : datetime) (r : roboRate) :
  exists v, calculate_total_pay ss se r = Ok v.
Proof.
  unfold calculate_total_pay, run_days. cbv zeta.
  set (n := shift_duration_days ss se).
  assert (Hn : 0 <= n).
  { unfold n. rewrite shift_duration_days_max.
    pose proof (day_count_by_seconds_nonneg ss se). lia. }
  destruct (range_succ n Hn) as [rest [-> _]].
  destruct (loop_body_ok r ss se n 0 (initial_state ss) (or_introl eq_refl))
    as [st1 [H1 [Hv1 _]]].
  destruct (for_each_ok r ss se n rest st1 Hv1) as [st2 [H2 _]].
  cbn [for_each]. rewrite H1. cbn [bind]. rewrite H2. cbn [bind]. eauto.
Qed.

(** X11.  The only way [main] can end in an exception is a shift on a single
    date whose case split falls through, and the exception is then
    [UnboundLocalError]; a shift over different dates always gets a pay. *)
Theorem main_exceptions (ss se : datetime) (r : roboRate) :
  (forall e,
     main ss se r = Err e
     <-> toordinal ss = toordinal se /\ e = UnboundLocalError
         /\ falls_through ss se (half_day_object r ss))
  /\ (toordinal ss <> toordinal se -> exists v, main ss se r = Ok v).
Proof.
  unfold main. destruct (Z.eqb_spec (toordinal ss) (toordinal se)) as [E | E].
  - split; [| contradiction]. intros e.
    rewrite calculate_half_day_pay_object. set (d := half_day_object r ss).
    destruct (half_day_generator_returns ss se d) as [breaks Hg].
    unfold get_minutes_worked. rewrite Hg.
    cbn [minutes_before_breaks]. unfold RobotWorkHalfDay_minutes_before_breaks.
    destruct (RobotWorkHalfDay_day_minutes ss se d) as [q | e'] eqn:Hq;
      cbn [bind].
    + split; [discriminate |]. intros [_ [_ Hft]].
      apply half_day_falls_through in Hft. rewrite Hft in Hq. discriminate.
    + pose proof (half_day_day_minutes_exn ss se d e' Hq). subst e'.
      split.
      * intros H. apply Err_inj in H. subst e. split; [exact E |].
        split; [reflexivity |]. apply half_day_falls_through. exact Hq.
      * intros [_ [-> _]]. reflexivity.
  - split; [| intros _; apply calculate_total_pay_returns].
    intros e. destruct (calculate_total_pay_returns ss se r) as [v ->].
    split; [discriminate | intros [H _]; contradiction].
Qed.

(** ** Invariants of the day loop *)

Lemma for_each_invariant (body : loop_state -> Z -> result loop_state)
    (P : loop_state -> Prop) :
  (forall st i st', P st -> body st i = Ok st' -> P st') ->
  forall indices st st', P st -> for_each body indices st = Ok st' -> P st'.
Proof.
  intros Hstep. induction indices as [| i rest IH]; intros st st' HP H;
    cbn [for_each] in H.
  - apply Ok_inj in H. subst st'. exact HP.
  - apply bind_Ok in H as [st1 [H1 H2]].
    apply (IH st1 st'); [| exact H2]. apply (Hstep st i st1 HP H1).
Qed.

Lemma run_days_returns (ss se : datetime) (r : roboRate) :
  exists st, run_days ss se r = Ok st.
Proof.
  unfold run_days. cbv zeta. set (n := shift_duration_days ss se).
  assert (Hn : 0 <= n).
  { unfold n. rewrite shift_duration_days_max.
    pose proof (day_count_by_seconds_nonneg ss se). lia. }
  destruct (range_succ n Hn) as [rest [-> _]].
  destruct (loop_body_ok r ss se n 0 (initial_state ss) (or_introl eq_refl))
    as [st1 [H1 [Hv1 _]]].
  destruct (for_each_ok r ss se n rest st1 Hv1) as [st2 [H2 _]].
  cbn [for_each]. rewrite H1. cbn [bind]. eauto.
Qed.

Lemma loop_body_inv (r : roboRate) (ss se : datetime) (n i : Z)
    (st st' : loop_state) :
  loop_body r ss se n st i = Ok st' ->
  exists m breaks,
    get_break_timings (work_day_of r ss se n i st) = Ok breaks
    /\ st' = {| current_day := current_day st + days 1;
                carried_break := last_break breaks (carried_break st);
                value := (value st
                          + calculate_pay (base (work_day_of r ss se n i st))
                              (fst m) (snd m))%Q;
                processed := processed st ++ [work_day_of r ss se n i st] |}.
Proof.
  unfold loop_body. intros H. apply bind_Ok in H as [m [_ H]].
  apply bind_Ok in H as [breaks [Hg H]]. apply Ok_inj in H.
  exists m, breaks. split; [exact Hg | symmetry; exact H].
Qed.

Lemma break_time_fields (x m : Z) :
  0 <= x < 24 -> 0 <= m < 60 ->
  hour (break_time_dt x m) = x /\ minute (break_time_dt x m) = m
  /\ second (break_time_dt x m) = 0.
Proof.
  intros Hx Hm. unfold break_time_dt, strptime_HM. cbn [hh mm].
  rewrite epoch1900_seconds.
  assert (Hs : second_of_day (59926694400 + x * 3600 + m * 60) = x * 3600 + m * 60).
  { unfold second_of_day. Z.to_euclidean_division_equations; lia. }
  unfold hour, minute, second. rewrite Hs.
  repeat split; Z.to_euclidean_division_equations; lia.
Qed.

Lemma last_break_minute (m : Z) (breaks : list datetime) :
  forall t, mm t = m -> (forall b, In b breaks -> minute b = m) ->
            mm (last_break breaks t) = m.
Proof.
  unfold last_break. induction breaks as [| b rest IH]; intros t Ht H;
    cbn [fold_left].
  - exact Ht.
  - apply IH.
    + cbn [strftime_HM mm]. apply H. left. reflexivity.
    + intros c Hc. apply H. right. exact Hc.
Qed.

Lemma start_day_on_minute (ss : datetime) (d : RobotWorkDay) :
  breaks_on_minute (minute ss) (SHIFT_START ss d).
Proof.
  intros breaks H b Hin. cbn [get_break_timings] in H.
  unfold RobotShiftStartDay_get_break_timings in H.
  pose proof (hour_range ss) as Hh. pose proof (minute_range ss) as Hm.
  destruct (_ <=? _); apply Ok_inj in H; subst breaks.
  - apply in_map_iff in Hin as [x [<- Hx]].
    destruct (break_loop_seq (work_duration_in_hours d)
                (break_duration_in_hours d) (Z.to_nat (24 - hour ss)) 0 false 0 0)
      as [_ HF].
    rewrite Forall_forall in HF. apply HF in Hx.
    apply (break_time_fields (x + hour ss) (minute ss)); lia.
  - destruct Hin as [<- | []].
    apply (break_time_fields (hour ss) (minute ss)); assumption.
Qed.

Lemma full_day_on_minute (d : RobotWorkDay) :
  0 <= mm (time_of_last_break d) < 60 ->
  forall breaks, RobotWorkDay_get_break_timings d = Ok breaks ->
    forall b, In b breaks ->
      minute b = mm (time_of_last_break d) /\ second b = 0.
Proof.
  intros Hm breaks H b Hin. unfold RobotWorkDay_get_break_timings in H.
  destruct (_ <? _); [discriminate |]. apply Ok_inj in H. subst breaks.
  apply in_map_iff in Hin as [x [<- Hx]].
  destruct (break_loop_seq (work_duration_in_hours d) (break_duration_in_hours d)
              24 0 false
              (24 - (hh (time_of_last_break d) + break_duration_in_hours d)) 0)
    as [_ HF].
  rewrite Forall_forall in HF. apply HF in Hx.
  apply (break_time_fields x (mm (time_of_last_break d))); lia.
Qed.

Lemma work_day_on_minute (r : roboRate) (ss se : datetime) (n i : Z)
    (st : loop_state) :
  mm (carried_break st) = minute ss ->
  breaks_on_minute (minute ss) (work_day_of r ss se n i st).
Proof.
  intros Hc. pose proof (minute_range ss) as Hm.
  destruct (work_day_of_cases r ss se n i st)
    as [d [_ [[_ ->] | [_ [Ht [-> | ->]]]]]].
  - apply start_day_on_minute.
  - intros breaks H. cbn [get_break_timings] in H. rewrite <- Hc, <- Ht.
    apply full_day_on_minute; [rewrite Ht, Hc; exact Hm | exact H].
  - intros breaks H. cbn [get_break_timings] in H. rewrite <- Hc, <- Ht.
    apply full_day_on_minute; [rewrite Ht, Hc; exact Hm | exact H].
Qed.

(** X12.  Every break of a multi-day shift starts at the minute of the shift
    start: each day object the day loop builds yields break times at that
    minute and second 0, and the time of last break carried out of the loop
    has that minute. *)
Theorem breaks_keep_start_minute (ss se : datetime) (r : roboRate) :
  exists st,
    run_days ss se r = Ok st
    /\ mm (carried_break st) = minute ss
    /\ Forall (breaks_on_minute (minute ss)) (processed st).
Proof.
  destruct (run_days_returns ss se r) as [st Hrun]. exists st.
  split; [exact Hrun |]. unfold run_days in Hrun. cbv zeta in Hrun.
  apply (for_each_invariant (loop_body r ss se (shift_duration_days ss se))
           (fun st => mm (carried_break st) = minute ss
                      /\ Forall (breaks_on_minute (minute ss)) (processed st)))
    with (indices := range (shift_duration_days ss se + 1))
         (st := initial_state ss); [| | exact Hrun].
  - intros st0 i st1 [Hc HF] H.
    apply loop_body_inv in H as [m [breaks [Hg ->]]].
    pose proof (work_day_on_minute r ss se (shift_duration_days ss se) i st0 Hc)
      as Hday.
    cbn [carried_break processed]. split.
    + apply last_break_minute; [exact Hc |].
      intros b Hb. apply (Hday breaks Hg b Hb).
    + apply Forall_app. split; [exact HF |]. constructor; [exact Hday | constructor].
  - split; [reflexivity | constructor].
Qed.

(** ** The day count against the calendar *)

Lemma day_of_era_spec (t : datetime) :
  day t = day_of_era ((toordinal t + 305) mod 146097).
Proof.
  unfold day, ordinal_to_ymd, day_of_era. cbv zeta. cbn [snd].
  rewrite Z.mod_eq by discriminate.
  replace (toordinal t + 305 - (toordinal t + 305) / 146097 * 146097)
    with (toordinal t + 305 - 146097 * ((toordinal t + 305) / 146097)) by lia.
  reflexivity.
Qed.

Lemma day_steps_checked_spec (n : positive) :
  snd (day_steps_checked n) = Z.pos n
  /\ (fst (day_steps_checked n) = true ->
      forall i, 0 <= i < Z.pos n ->
        day_of_era ((i + 1) mod 146097) <= day_of_era i + 1).
Proof.
  unfold day_steps_checked. induction n as [| n IH] using Pos.peano_ind.
  - cbn. split; [reflexivity |]. intros H i Hi. assert (i = 0) by lia. subst i.
    vm_compute. discriminate.
  - rewrite Pos.iter_succ.
    destruct (Pos.iter _ (true, 0) n) as [ok i] eqn:E. cbn [fst snd] in *.
    destruct IH as [Hi IH]. subst i. split; [lia |].
    intros H j Hj. apply andb_true_iff in H as [Hok Hstep].
    destruct (Z.eq_dec j (Z.pos n)) as [-> | Hne].
    + apply Z.leb_le. exact Hstep.
    + apply IH; [exact Hok | lia].
Qed.

Lemma day_of_era_step (i : Z) :
  0 <= i < 146097 -> day_of_era ((i + 1) mod 146097) <= day_of_era i + 1.
Proof.
  assert (H : fst (day_steps_checked 146097) = true) by (vm_compute; reflexivity).
  apply (proj2 (day_steps_checked_spec 146097) H).
Qed.

Lemma day_next (t : datetime) : day (t + days 1) <= day t + 1.
Proof.
  rewrite !day_of_era_spec.
  assert (E : toordinal (t + days 1) = toordinal t + 1).
  { unfold toordinal, days. Z.to_euclidean_division_equations; lia. }
  rewrite E.
  replace ((toordinal t + 1 + 305) mod 146097)
    with (((toordinal t + 305) mod 146097 + 1) mod 146097).
  - apply day_of_era_step. apply Z.mod_pos_bound. lia.
  - rewrite Z.add_mod_idemp_l by discriminate. f_equal. lia.
Qed.

Lemma day_after (t : datetime) (k : Z) :
  0 <= k -> day (t + days k) <= day t + k.
Proof.
  intros Hk. revert k Hk. apply natlike_ind.
  - unfold days. rewrite Z.add_0_r. lia.
  - intros k Hk IH. pose proof (day_next (t + days k)) as Hn.
    replace (t + days (Z.succ k)) with (t + days k + days 1)
      by (unfold days, datetime; lia).
    lia.
Qed.

Lemma day_difference_le (ss se : datetime) :
  toordinal ss <= toordinal se ->
  day se - day ss <= toordinal se - toordinal ss.
Proof.
  intros H.
  pose proof (day_after ss (toordinal se - toordinal ss) ltac:(lia)) as Hd.
  assert (E : toordinal (ss + days (toordinal se - toordinal ss)) = toordinal se).
  { unfold toordinal at 1. unfold days. rewrite Z.div_add by discriminate.
    fold (toordinal ss). lia. }
  unfold day in *. rewrite E in Hd. lia.
Qed.

(** X13.  For a shift that ends on a later date than it starts, the day count
    of [calculate_total_pay] is the number of dates between the two, or one
    less; it is one less exactly when the dates are two or more apart, the
    shift ends at an earlier time of day than it starts, and the days of the
    month differ by less than the dates do (the shift crosses a month end).
    The day loop then builds one day object too few. *)
Theorem day_count_against_dates (ss se : datetime) :
  toordinal ss < toordinal se ->
  let dates := toordinal se - toordinal ss in
  (shift_duration_days ss se = dates \/ shift_duration_days ss se = dates - 1)
  /\ (shift_duration_days ss se = dates - 1
      <-> 2 <= dates /\ second_of_day se < second_of_day ss
          /\ day se - day ss <> dates).
Proof.
  intros Hlt dates. rewrite shift_duration_days_max.
  pose proof (day_difference_le ss se ltac:(lia)) as Hm1.
  fold dates in Hm1.
  unfold day_count_by_day_of_month, day_count_by_timedelta_days,
    day_count_by_seconds, td_days, td_seconds. cbv zeta.
  pose proof (datetime_split ss) as Hs. pose proof (datetime_split se) as He.
  pose proof (second_of_day_range ss) as Hrs.
  pose proof (second_of_day_range se) as Hre.
  assert (Hd : se - ss = dates * 86400 + (second_of_day se - second_of_day ss))
    by (unfold dates, datetime in *; lia).
  rewrite Hd. clear Hs He Hd.
  assert (Hdates : 1 <= dates) by (unfold dates; lia).
  set (a := second_of_day ss) in *. set (b := second_of_day se) in *.
  set (m1 := day se - day ss) in *.
  destruct (Z.le_gt_cases a b) as [Hab | Hab].
  - assert (Hq : (dates * 86400 + (b - a)) / 86400 = dates)
      by (symmetry; apply (Z.div_unique _ _ _ (b - a)); lia).
    assert (Hr : (dates * 86400 + (b - a)) mod 86400 = b - a)
      by (symmetry; apply (Z.mod_unique _ _ dates); lia).
    rewrite Hq, Hr. rewrite (Z.div_small (b - a)) by lia.
    destruct (_ >? _); lia.
  - assert (Hq : (dates * 86400 + (b - a)) / 86400 = dates - 1)
      by (symmetry; apply (Z.div_unique _ _ _ (86400 + b - a)); lia).
    assert (Hr : (dates * 86400 + (b - a)) mod 86400 = 86400 + b - a)
      by (symmetry; apply (Z.mod_unique _ _ (dates - 1)); lia).
    rewrite Hq, Hr. rewrite (Z.div_small (86400 + b - a)) by lia.
    rewrite (Z.mod_small (86400 + b - a)) by lia.
    destruct (Z.gtb_spec (86400 + b - a) 0); lia.
Qed.

Lemma day_count_against_dates_witness :
  let ss := mk_datetime 2038 1 30 10 0 0 in
  let se := mk_datetime 2038 2 2 9 0 0 in
  toordinal ss < toordinal se
  /\ toordinal se - toordinal ss = 3
  /\ shift_duration_days ss se = toordinal se - toordinal ss - 1.
Proof.
  cbv zeta.
  assert (Hlt : toordinal (mk_datetime 2038 1 30 10 0 0)
                < toordinal (mk_datetime 2038 2 2 9 0 0)) by reflexivity.
  split; [exact Hlt |]. split; [reflexivity |].
  apply (proj2 (day_count_against_dates _ _ Hlt)).
  split; [discriminate |]. split; [reflexivity | discriminate].
Defined.

(** ** The day objects of a run *)

Lemma for_each_day_objects (r : roboRate) (ss se : datetime) (n : Z) (k : nat) :
  forall (a : nat) (st st' : loop_state),
    current_day st = ss + days (Z.of_nat a) ->
    for_each (loop_body r ss se n) (map Z.of_nat (seq a k)) st = Ok st' ->
    exists l,
      processed st' = processed st ++ l
      /\ Forall2 (fun i s => exists t, s = day_object r ss se n i t)
           (map Z.of_nat (seq a k)) l.
Proof.
  induction k as [| k IH]; intros a st st' Hc H; cbn [seq map for_each] in *.
  - apply Ok_inj in H. subst st'. exists []. rewrite app_nil_r.
    split; [reflexivity | constructor].
  - apply bind_Ok in H as [st1 [H1 H2]].
    apply loop_body_inv in H1 as [m [breaks [_ E]]].
    assert (Hc1 : current_day st1 = ss + days (Z.of_nat (S a))).
    { subst st1. cbn [current_day]. rewrite Hc. unfold days, datetime. lia. }
    destruct (IH (S a) st1 st' Hc1 H2) as [l [Hl HF]].
    exists (work_day_of r ss se n (Z.of_nat a) st :: l). split.
    + rewrite Hl. subst st1. cbn [processed]. rewrite <- app_assoc. reflexivity.
    + constructor; [| exact HF]. exists (carried_break st).
      unfold day_object, work_day_of. cbn [current_day carried_break].
      rewrite Hc. reflexivity.
Qed.

(** X14.  The day loop of [calculate_total_pay] always runs to its end, and
    the day objects it has then built are, in order, those of the indices
    [0 .. n] ([n] the day count): a shift-start day at index 0, a shift-end
    day at index [n] when [n > 0], full days between, each on the rates of
    the weekday [i] days after the shift start, whatever the date of the
    shift end. *)
Theorem run_builds_day_objects (ss se : datetime) (r : roboRate) :
  exists st,
    run_days ss se r = Ok st
    /\ Forall2
         (fun i s =>
            exists t, s = day_object r ss se (shift_duration_days ss se) i t)
         (range (shift_duration_days ss se + 1)) (processed st).
Proof.
  destruct (run_days_returns ss se r) as [st Hrun]. exists st.
  split; [exact Hrun |]. unfold run_days in Hrun. cbv zeta in Hrun.
  unfold range in *.
  destruct (for_each_day_objects r ss se (shift_duration_days ss se)
              (Z.to_nat (shift_duration_days ss se + 1)) 0
              (initial_state ss) st) as [l [Hl HF]].
  - cbn [initial_state current_day]. unfold days, datetime. lia.
  - exact Hrun.
  - cbn [initial_state processed app] in Hl. rewrite Hl. exact HF.
Qed.

(** ** The same shift on another date *)

Lemma second_of_day_shift (t k : Z) : second_of_day (t + days k) = second_of_day t.
Proof. unfold second_of_day, days. apply Z.mod_add. discriminate. Qed.

Lemma toordinal_shift (t k : Z) : toordinal (t + days k) = toordinal t + k.
Proof. unfold toordinal, days. apply Z.div_add. discriminate. Qed.

Lemma hour_shift (t k : Z) : hour (t + days k) = hour t.
Proof. unfold hour. rewrite second_of_day_shift. reflexivity. Qed.

Lemma minute_shift (t k : Z) : minute (t + days k) = minute t.
Proof. unfold minute. rewrite second_of_day_shift. reflexivity. Qed.

Lemma shift_day_start_shift (t k : Z) (d : RobotWorkDay) :
  shift_day_start (t + days k) d = shift_day_start t d + days k.
Proof.
  unfold shift_day_start, on_date_of. rewrite toordinal_shift.
  unfold days, datetime. lia.
Qed.

Lemma shift_day_end_shift (t k : Z) (d : RobotWorkDay) :
  shift_day_end (t + days k) d = shift_day_end t d + days k.
Proof.
  unfold shift_day_end, on_date_of. rewrite toordinal_shift.
  unfold days, datetime. lia.
Qed.

Lemma geb_shift (a b c : Z) : (a + c >=? b + c) = (a >=? b).
Proof. destruct (Z.geb_spec (a + c) (b + c)), (Z.geb_spec a b); lia. Qed.

Lemma gtb_shift (a b c : Z) : (a + c >? b + c) = (a >? b).
Proof. destruct (Z.gtb_spec (a + c) (b + c)), (Z.gtb_spec a b); lia. Qed.

Lemma leb_shift (a b c : Z) : (a + c <=? b + c) = (a <=? b).
Proof. destruct (Z.leb_spec (a + c) (b + c)), (Z.leb_spec a b); lia. Qed.

Lemma ltb_shift (a b c : Z) : (a + c <? b + c) = (a <? b).
Proof. destruct (Z.ltb_spec (a + c) (b + c)), (Z.ltb_spec a b); lia. Qed.

Lemma sub_shift (a b c : Z) : a + c - (b + c) = a - b.
Proof. lia. Qed.

Lemma half_day_minutes_shift (ss se k : Z) (d : RobotWorkDay) :
  get_minutes_worked (SHIFT_CONFINED (ss + days k) (se + days k) d)
    (get_break_timings (SHIFT_CONFINED (ss + days k) (se + days k) d))
  = get_minutes_worked (SHIFT_CONFINED ss se d)
      (get_break_timings (SHIFT_CONFINED ss se d)).
Proof.
  unfold get_minutes_worked. cbn [get_break_timings minutes_before_breaks base].
  unfold RobotWorkHalfDay_get_break_timings,
    RobotWorkHalfDay_minutes_before_breaks, RobotWorkHalfDay_day_minutes.
  cbv zeta. unfold skips, in_day, HHMM_1900, strftime_HM.
  rewrite shift_day_start_shift, shift_day_end_shift, !hour_shift, !minute_shift.
  rewrite geb_shift, leb_shift, !ltb_shift, !gtb_shift, !sub_shift.
  reflexivity.
Qed.

Lemma weekday_weeks_later (t j : Z) : weekday (t + days (7 * j)) = weekday t.
Proof.
  unfold weekday. rewrite toordinal_shift.
  replace (toordinal t + 7 * j + 6) with (toordinal t + 6 + j * 7) by lia.
  apply Z.mod_add. discriminate.
Qed.

(** X15.  The pay of a single-date shift depends on its date through the
    rate-table entry of its weekday only: moved by whole days to a date with
    the same entry, it is paid the same, and in particular any number of
    weeks later. *)
Theorem half_day_pay_on_other_date (ss se k : Z) (r : roboRate) :
  parse_roboRate_values r (weekday (ss + days k))
  = parse_roboRate_values r (weekday ss) ->
  calculate_half_day_pay (ss + days k) (se + days k) r
  = calculate_half_day_pay ss se r.
Proof.
  intros H. rewrite !calculate_half_day_pay_object.
  assert (E : half_day_object r (ss + days k) = half_day_object r ss)
    by (unfold half_day_object; rewrite H; reflexivity).
  rewrite E, half_day_minutes_shift. reflexivity.
Qed.

Lemma half_day_pay_on_other_date_witness :
  let ss := mk_datetime 2038 1 4 3 10 0 in
  let se := mk_datetime 2038 1 4 23 45 0 in
  parse_roboRate_values rates_20_25 (weekday (ss + days 1))
  = parse_roboRate_values rates_20_25 (weekday ss)
  /\ calculate_half_day_pay (ss + days 1) (se + days 1) rates_20_25
     = calculate_half_day_pay ss se rates_20_25.
Proof.
  cbv zeta.
  assert (H : parse_roboRate_values rates_20_25
                (weekday (mk_datetime 2038 1 4 3 10 0 + days 1))
              = parse_roboRate_values rates_20_25
                  (weekday (mk_datetime 2038 1 4 3 10 0))) by reflexivity.
  split; [exact H |]. exact (half_day_pay_on_other_date _ _ _ _ H).
Defined.

(** X16.  A shift on a single date is paid by [main] what the same shift is
    paid any whole number of weeks later (or earlier). *)
Theorem same_pay_weeks_later (ss se j : Z) (r : roboRate) :
  toordinal ss = toordinal se ->
  main (ss + days (7 * j)) (se + days (7 * j)) r = main ss se r.
Proof.
  intros H. unfold main. rewrite !toordinal_shift, H, !Z.eqb_refl.
  rewrite !calculate_half_day_pay_object.
  assert (E : half_day_object r (ss + days (7 * j)) = half_day_object r ss)
    by (unfold half_day_object; rewrite weekday_weeks_later; reflexivity).
  rewrite E, half_day_minutes_shift. reflexivity.
Qed.

Lemma same_pay_weeks_later_witness :
  let ss := mk_datetime 2038 1 1 3 10 0 in
  let se := mk_datetime 2038 1 1 23 45 0 in
  toordinal ss = toordinal se
  /\ main (ss + days (7 * 5)) (se + days (7 * 5)) rates_20_25
     = main ss se rates_20_25.
Proof.
  cbv zeta.
  assert (H : toordinal (mk_datetime 2038 1 1 3 10 0)
              = toordinal (mk_datetime 2038 1 1 23 45 0)) by reflexivity.
  split; [exact H |]. exact (same_pay_weeks_later _ _ 5 rates_20_25 H).
Defined.

(** ** The carried time of last break *)

Lemma last_hour_is_spec (e : Z) (emitted : list Z) :
  last_hour_is e emitted = true -> exists l, emitted = l ++ [e].
Proof.
  unfold last_hour_is. destruct (rev emitted) as [| x l] eqn:E; [discriminate |].
  intros H. apply Z.eqb_eq in H. subst x. exists (rev l).
  rewrite <- (rev_involutive emitted), E. reflexivity.
Qed.

Lemma full_loop_carried_hour (h : Z) :
  15 <= h < 24 ->
  last_hour_is (carried_hour h)
    (break_loop 8 1 (range 24) false (24 - (h + 1)) 0) = true.
Proof.
  intros H.
  assert (Hall : forallb (fun k => last_hour_is (carried_hour (k + 15))
                    (break_loop 8 1 (range 24) false (24 - (k + 15 + 1)) 0))
                   (range 9) = true)
    by (vm_compute; reflexivity).
  rewrite forallb_forall in Hall.
  replace h with (h - 15 + 15) by lia. apply Hall. apply In_range. lia.
Qed.

Lemma carry_over_default (d : RobotWorkDay) (t : hhmm) :
  default_policy d -> valid_carry t ->
  carry_over d t = mk_hhmm (carried_hour (hh t)) (mm t)
  /\ valid_carry (carry_over d t).
Proof.
  intros [Hw Hb] [Hh Hm].
  assert (E : carry_over d t = mk_hhmm (carried_hour (hh t)) (mm t)).
  { unfold carry_over. cbn [get_break_timings].
    unfold RobotWorkDay_get_break_timings.
    cbn [with_last_break time_of_last_break work_duration_in_hours
           break_duration_in_hours].
    rewrite Hw, Hb.
    destruct (Z.ltb_spec (strptime_HM t)
                (mk_datetime 1900 1 2 0 0 0 - hours 1 - hours 8)) as [Hlt | _].
    - exfalso. rewrite midnight_1900_01_02 in Hlt.
      unfold strptime_HM, hours, datetime in *. lia.
    - destruct (last_hour_is_spec _ _ (full_loop_carried_hour (hh t) Hh))
        as [l ->].
      rewrite map_app. cbn [map]. rewrite last_break_last.
      apply strftime_break_time; [| exact Hm].
      unfold carried_hour. destruct (Z.leb_spec (hh t) 20); lia. }
  split; [exact E |]. rewrite E. unfold valid_carry, carried_hour. cbn [hh mm].
  destruct (Z.leb_spec (hh t) 20); lia.
Qed.

(** X17.  Under the default policy a full day carries a time of last break
    at hour [h] (15 to 23) to hour [h + 3], or [h - 6] past 20, at the same
    minute, and three full days in a row bring it back: the break timings of
    a long shift repeat every three days, the 72 hours of
    [work_break_period]. *)
Theorem carried_break_repeats (d : RobotWorkDay) (t : hhmm) :
  default_policy d -> valid_carry t ->
  carry_over d t
  = mk_hhmm (if hh t <=? 20 then hh t + 3 else hh t - 6) (mm t)
  /\ carry_over d (carry_over d (carry_over d t)) = t.
Proof.
  intros Hd Ht.
  destruct (carry_over_default d t Hd Ht) as [E1 Hv1].
  destruct (carry_over_default d _ Hd Hv1) as [E2 Hv2].
  destruct (carry_over_default d _ Hd Hv2) as [E3 _].
  split; [exact E1 |].
  rewrite E3, E2, E1. cbn [hh mm]. destruct t as [h m]. cbn [hh mm] in *.
  f_equal. destruct Ht as [Hh _]. cbn [hh] in Hh. unfold carried_hour.
  repeat match goal with
         | |- context [?a <=? ?b] => destruct (Z.leb_spec a b)
         end; lia.
Qed.

Lemma carried_break_repeats_witness :
  let d := day_07_23 None in
  let t := mk_hhmm 22 30 in
  (default_policy d /\ valid_carry t)
  /\ carry_over d t = mk_hhmm 16 30
  /\ carry_over d (carry_over d (carry_over d t)) = t.
Proof.
  cbv zeta.
  assert (Hd : default_policy (day_07_23 None)) by (split; reflexivity).
  assert (Ht : valid_carry (mk_hhmm 22 30)) by (unfold valid_carry; cbn; lia).
  split; [auto |].
  exact (carried_break_repeats (day_07_23 None) (mk_hhmm 22 30) Hd Ht).
Defined.

(** X18.  A day object built without a time of last break gets ["0000"], and
    the generator of a full day rejects it whenever the work and the break
    duration together are less than 24 hours: with the default arguments
    [get_break_timings] always raises. *)
Theorem default_last_break_rejected (ds de : hms) (dr nr : Z)
    (work break : option Z) :
  let d := RobotWorkDay_init ds de dr nr None work break in
  work_duration_in_hours d + break_duration_in_hours d < 24 ->
  get_break_timings (FULL d) = Err (InvalidBreakTimeError (mk_hhmm 0 0)).
Proof.
  intros d H. cbn [get_break_timings]. unfold RobotWorkDay_get_break_timings.
  change (time_of_last_break d) with (mk_hhmm 0 0).
  destruct (Z.ltb_spec (strptime_HM (mk_hhmm 0 0))
              (mk_datetime 1900 1 2 0 0 0
               - hours (break_duration_in_hours d)
               - hours (work_duration_in_hours d))) as [_ | Hge];
    [reflexivity |].
  exfalso. rewrite midnight_1900_01_02 in Hge.
  unfold strptime_HM, hours in Hge. cbn [hh mm] in Hge.
  unfold datetime in *. lia.
Qed.

Lemma default_last_break_rejected_witness :
  let d := RobotWorkDay_init window_07 window_23 20 25 None None None in
  work_duration_in_hours d + break_duration_in_hours d < 24
  /\ get_break_timings (FULL d) = Err (InvalidBreakTimeError (mk_hhmm 0 0)).
Proof.
  cbv zeta.
  assert (H : work_duration_in_hours
                (RobotWorkDay_init window_07 window_23 20 25 None None None)
              + break_duration_in_hours
                  (RobotWorkDay_init window_07 window_23 20 25 None None None)
              < 24) by reflexivity.
  split; [exact H |].
  exact (default_last_break_rejected window_07 window_23 20 25 None None H).
Defined.

(** ** The work cycle of [test.py] *)

Lemma get_GCD_fuel_gcd (fuel : nat) :
  forall a b, 0 <= a -> 0 <= b -> (Z.to_nat a < fuel)%nat ->
              get_GCD_fuel fuel a b = Some (Z.gcd a b).
Proof.
  induction fuel as [| fuel IH]; intros a b Ha Hb Hf; [lia |].
  cbn [get_GCD_fuel]. destruct (Z.eqb_spec a 0) as [-> | Hne].
  - rewrite Z.gcd_0_l, Z.abs_eq by exact Hb. reflexivity.
  - pose proof (Z.mod_pos_bound b a ltac:(lia)) as Hm.
    rewrite IH by lia. f_equal. apply Z.gcd_mod. exact Hne.
Qed.

Lemma get_GCD_gcd (a b : Z) :
  0 <= a -> 0 <= b -> get_GCD a b = Some (Z.gcd a b).
Proof.
  intros Ha Hb. unfold get_GCD. apply get_GCD_fuel_gcd; lia.
Qed.

Lemma get_LCM_lcm (a b : Z) :
  0 <= a -> 0 < b -> get_LCM a b = Some (Z.lcm a b).
Proof.
  intros Ha Hb. unfold get_LCM. rewrite get_GCD_gcd by lia.
  pose proof (Z.gcd_nonneg a b) as Hg.
  destruct (Z.eqb_spec (Z.gcd a b) 0) as [E | E].
  - apply Z.gcd_eq_0_r in E. lia.
  - f_equal. unfold Z.lcm.
    destruct (Z.gcd_divide_l a b) as [a' Ea]. destruct (Z.gcd_divide_r a b) as [b' Eb].
    set (g := Z.gcd a b) in *.
    assert (Hqa : a / g = a') by (rewrite Ea at 1; apply Z.div_mul; exact E).
    assert (Hqb : b / g = b') by (rewrite Eb at 1; apply Z.div_mul; exact E).
    rewrite Hqa, Hqb. rewrite Z.abs_eq by nia. nia.
Qed.

(** X19.  On non-negative integers the recursion of [get_GCD] ends and
    returns the greatest common divisor, and [get_LCM] with a positive second
    argument returns the least common multiple, without a division by
    zero. *)
Theorem get_GCD_get_LCM_correct (a b : Z) :
  0 <= a -> 0 <= b ->
  get_GCD a b = Some (Z.gcd a b)
  /\ (0 < b -> get_LCM a b = Some (Z.lcm a b)).
Proof.
  intros Ha Hb. split; [apply get_GCD_gcd; assumption |].
  intros Hpos. apply get_LCM_lcm; assumption.
Qed.

Lemma get_GCD_get_LCM_correct_witness :
  (0 <= 72 /\ 0 <= 7) /\ get_GCD 72 7 = Some 1 /\ get_LCM 72 7 = Some 504.
Proof.
  assert (Ha : 0 <= 72) by lia. assert (Hb : 0 <= 7) by lia.
  assert (Hp : 0 < 7) by lia.
  destruct (get_GCD_get_LCM_correct 72 7 Ha Hb) as [Hg Hl].
  split; [auto |]. split; [exact Hg | exact (Hl Hp)].
Defined.

(** X20.  For every policy [get_work_cycle] returns a whole number of days
    [c] with [24 * c] the least common multiple of [work + break], 24 and 7:
    a whole number of weeks, and a whole number of work-and-break periods.
    For work 8 and break 1 the period is 72 hours and the cycle 21 days, as
    its docstring says. *)
Theorem work_cycle_whole_weeks (work break : Z) :
  0 <= work + break ->
  exists c,
    get_work_cycle work break = Some c
    /\ 24 * c = Z.lcm (Z.lcm (work + break) 24) 7
    /\ (7 | c) /\ (work + break | 24 * c).
Proof.
  intros H. unfold get_work_cycle, work_break_period.
  rewrite get_LCM_lcm by lia.
  pose proof (Z.lcm_nonneg (work + break) 24) as Hp.
  rewrite get_LCM_lcm by lia.
  set (P := Z.lcm (work + break) 24) in *. set (L := Z.lcm P 7).
  assert (H24 : (24 | L)).
  { apply Z.divide_trans with P; [apply Z.divide_lcm_r | apply Z.divide_lcm_l]. }
  destruct H24 as [c Hc]. exists c.
  assert (Hq : L / 24 = c) by (rewrite Hc; apply Z.div_mul; discriminate).
  rewrite Hq. split; [reflexivity |]. split; [lia |]. split.
  - assert (H7 : (7 | c * 24)) by (rewrite <- Hc; apply Z.divide_lcm_r).
    apply Z.gauss with 24; [rewrite Z.mul_comm; exact H7 | reflexivity].
  - replace (24 * c) with L by lia.
    apply Z.divide_trans with P; [apply Z.divide_lcm_l | apply Z.divide_lcm_l].
Qed.

Lemma work_cycle_whole_weeks_witness :
  0 <= 8 + 1
  /\ work_break_period 8 1 = Some 72
  /\ get_work_cycle 8 1 = Some 21
  /\ exists c, get_work_cycle 8 1 = Some c /\ (7 | c).
Proof.
  assert (H : 0 <= 8 + 1) by lia.
  split; [exact H |]. split; [reflexivity |]. split; [reflexivity |].
  destruct (work_cycle_whole_weeks 8 1 H) as [c [Hc [_ [H7 _]]]].
  exists c. split; [exact Hc | exact H7].
Defined.

(** * Sub-shifts *)

(** ** Splitting the hour loop *)

Lemma StronglySorted_lt_unique (l1 l2 : list Z) :
  StronglySorted Z.lt l1 -> StronglySorted Z.lt l2 ->
  (forall x, In x l1 <-> In x l2) -> l1 = l2.
Proof.
  intros H1. revert l2. induction H1 as [| a l1 Hs1 IH Ha]; intros l2 H2 Hin.
  - destruct l2 as [| b l2]; [reflexivity |]. exfalso.
    apply (proj2 (Hin b)). left. reflexivity.
  - destruct H2 as [| b l2 Hs2 Hb].
    + exfalso. apply (proj1 (Hin a)). left. reflexivity.
    + rewrite Forall_forall in Ha, Hb.
      assert (E : a = b).
      { destruct (proj1 (Hin a) (or_introl eq_refl)) as [E | Hab]; [auto |].
        destruct (proj2 (Hin b) (or_introl eq_refl)) as [E | Hba]; [auto |].
        specialize (Ha _ Hba). specialize (Hb _ Hab). lia. }
      subst b. f_equal. apply IH; [exact Hs2 |].
      intros x. split; intros Hx.
      * destruct (proj1 (Hin x) (or_intror Hx)) as [E | H]; [| exact H].
        subst x. specialize (Ha _ Hx). lia.
      * destruct (proj2 (Hin x) (or_intror Hx)) as [E | H]; [| exact H].
        subst x. specialize (Hb _ Hx). lia.
Qed.

Lemma StronglySorted_lt_app (l1 l2 : list Z) :
  StronglySorted Z.lt l1 -> StronglySorted Z.lt l2 ->
  (forall x y, In x l1 -> In y l2 -> x < y) ->
  StronglySorted Z.lt (l1 ++ l2).
Proof.
  intros H1 H2 H. induction H1 as [| a l1 Hs IH Ha]; cbn [app]; [exact H2 |].
  constructor.
  - apply IH. intros x y Hx Hy. apply H; [right; exact Hx | exact Hy].
  - apply Forall_app. split; [exact Ha |]. apply Forall_forall.
    intros y Hy. apply H; [left; reflexivity | exact Hy].
Qed.

Lemma StronglySorted_lt_shift (c : Z) (l : list Z) :
  StronglySorted Z.lt l -> StronglySorted Z.lt (map (fun x => x + c) l).
Proof.
  induction 1 as [| a l Hs IH Ha]; cbn [map]; constructor; [exact IH |].
  rewrite Forall_map. eapply Forall_impl; [| exact Ha].
  intros y Hy. cbv beta in *. lia.
Qed.

(** The hours the loop yields at over [n] hours are those it yields at over
    the first [9 * k] of them, then those of a loop started anew there. *)
Lemma break_hours_split (k n : Z) :
  0 <= k -> 9 * k <= n ->
  break_loop 8 1 (range n) false 0 0
  = break_loop 8 1 (range (9 * k)) false 0 0
    ++ map (fun x => x + 9 * k)
         (break_loop 8 1 (range (n - 9 * k)) false 0 0).
Proof.
  intros Hk Hn.
  assert (H8 : 1 <= 8) by lia. assert (H1 : 1 <= 1) by lia.
  assert (H0 : 0 <= 8) by lia.
  pose proof (fun m => range_break_hours 8 1 m 0 H8 H1 H0) as Hin.
  assert (Hs : forall m,
            StronglySorted Z.lt (break_loop 8 1 (range m) false 0 0)).
  { intros m. apply (break_loop_from_rest m). }
  apply StronglySorted_lt_unique.
  - apply Hs.
  - apply StronglySorted_lt_app;
      [apply Hs | apply StronglySorted_lt_shift, Hs |].
    intros x y Hx Hy. apply Hin in Hx.
    apply in_map_iff in Hy as [z [<- Hz]]. apply Hin in Hz. lia.
  - intros x. rewrite in_app_iff, in_map_iff, Hin. split.
    + intros [Hx [j [Hj ->]]].
      destruct (Z.lt_ge_cases (8 - 0 + j * (8 + 1)) (9 * k)) as [Hlt | Hge].
      * left. apply Hin. split; [lia |]. exists j. lia.
      * right. exists (8 - 0 + j * (8 + 1) - 9 * k). split; [lia |].
        apply Hin. split; [lia |]. exists (j - k). lia.
    + intros [Hx | [z [<- Hz]]].
      * apply Hin in Hx. destruct Hx as [Hx [j [Hj ->]]].
        split; [lia |]. exists j. lia.
      * apply Hin in Hz. destruct Hz as [Hz [j [Hj ->]]].
        split; [lia |]. exists (j + k). lia.
Qed.

(** A time [x] seconds later on the same date. *)
Lemma later_on_date (a : datetime) (x : Z) :
  toordinal (a + x) = toordinal a ->
  second_of_day (a + x) = second_of_day a + x.
Proof.
  intros E. pose proof (datetime_split a) as Ha.
  pose proof (datetime_split (a + x)) as Hb. unfold datetime in *. lia.
Qed.

Lemma later_fields (a b : datetime) (k : Z) :
  second_of_day b = second_of_day a + hours (9 * k) ->
  hour b = hour a + 9 * k /\ minute b = minute a /\ second b = second a.
Proof.
  unfold hour, minute, second, hours. intros ->.
  generalize (second_of_day a). intros x.
  Z.to_euclidean_division_equations; lia.
Qed.

Lemma half_day_loop_breaks_split (a c : datetime) (k : Z) :
  let b := a + hours (9 * k) in
  toordinal b = toordinal a -> toordinal a = toordinal c ->
  0 <= k -> b <= c ->
  half_day_loop_breaks a c
  = half_day_loop_breaks a b ++ half_day_loop_breaks b c.
Proof.
  intros b Hob Hord Hk Hle.
  pose proof (later_on_date a (hours (9 * k)) Hob) as Hsb. fold b in Hsb.
  destruct (later_fields a b k Hsb) as [Hh [Hm _]].
  pose proof (datetime_split a) as Ha. pose proof (datetime_split c) as Hc.
  pose proof (second_of_day_range a). pose proof (second_of_day_range c).
  pose proof (second_of_day_range b).
  unfold half_day_loop_breaks.
  assert (E1 : td_seconds (b - a) / 3600 = 9 * k).
  { unfold b. replace (a + hours (9 * k) - a) with (hours (9 * k)) by lia.
    rewrite td_seconds_small by (unfold hours in *; lia).
    unfold hours. Z.to_euclidean_division_equations; lia. }
  assert (E2 : td_seconds (c - b) / 3600 = td_seconds (c - a) / 3600 - 9 * k).
  { rewrite !td_seconds_small
      by (unfold b, hours, datetime, timedelta in *; lia).
    unfold b, hours. Z.to_euclidean_division_equations; lia. }
  rewrite E1, E2, Hh, Hm.
  rewrite (break_hours_split k (td_seconds (c - a) / 3600) Hk).
  - rewrite map_app, map_map. f_equal. apply map_ext. intros x.
    f_equal. lia.
  - rewrite td_seconds_small
      by (unfold b, hours, datetime, timedelta in *; lia).
    unfold b, hours in Hle. Z.to_euclidean_division_equations; lia.
Qed.

Lemma start_day_loop_breaks_split (a : datetime) (k : Z) :
  let b := a + hours (9 * k) in
  toordinal b = toordinal a -> 0 <= k ->
  start_day_loop_breaks a
  = half_day_loop_breaks a b ++ start_day_loop_breaks b.
Proof.
  intros b Hob Hk.
  pose proof (later_on_date a (hours (9 * k)) Hob) as Hsb. fold b in Hsb.
  destruct (later_fields a b k Hsb) as [Hh [Hm _]].
  pose proof (second_of_day_range a). pose proof (second_of_day_range b).
  pose proof (hour_range b) as Hhb.
  unfold half_day_loop_breaks, start_day_loop_breaks.
  assert (E1 : td_seconds (b - a) / 3600 = 9 * k).
  { unfold b. replace (a + hours (9 * k) - a) with (hours (9 * k)) by lia.
    rewrite td_seconds_small by (unfold hours in *; lia).
    unfold hours. Z.to_euclidean_division_equations; lia. }
  rewrite E1, Hh, Hm.
  rewrite (break_hours_split k (24 - hour a) Hk) by lia.
  rewrite map_app, map_map. f_equal.
  replace (24 - (hour a + 9 * k)) with (24 - hour a - 9 * k) by lia.
  apply map_ext. intros x. f_equal. lia.
Qed.

(** ** The minutes and the pay of a half day on whole minutes *)

Lemma subtract_breaks_unskipped (skip in_day : datetime -> bool)
    (breaks : list datetime) :
  (forall b, In b breaks -> skip b = false) ->
  forall dm nm : Q,
    (fst (subtract_breaks skip in_day 1 breaks dm nm)
     == dm - inject_Z (60 * Z.of_nat (length (filter in_day breaks))))%Q
    /\ (snd (subtract_breaks skip in_day 1 breaks dm nm)
        == nm - inject_Z (60 * Z.of_nat
                            (length (filter (fun b => negb (in_day b)) breaks))))%Q.
Proof.
  assert (E : forall n : nat,
            (inject_Z (60 * Z.of_nat (S n))
             == inject_Z (60 * Z.of_nat n) + 60)%Q).
  { intros n. change 60%Q with (inject_Z 60). rewrite <- inject_Z_plus.
    apply inject_Z_injective. lia. }
  induction breaks as [| b rest IH]; intros Hs dm nm;
    cbn [subtract_breaks filter].
  - cbn [fst snd length]. change (inject_Z (60 * Z.of_nat 0)) with 0%Q.
    split; ring.
  - rewrite (Hs b (or_introl eq_refl)).
    assert (Hrest : forall c, In c rest -> skip c = false)
      by (intros c Hc; apply Hs; right; exact Hc).
    change (inject_Z (1 * 60)) with 60%Q.
    destruct (in_day b); cbn [negb length].
    + destruct (IH Hrest (dm - 60)%Q nm) as [E1 E2]. split.
      * rewrite E1, E. ring.
      * exact E2.
    + destruct (IH Hrest dm (nm - 60)%Q) as [E1 E2]. split.
      * exact E1.
      * rewrite E2, E. ring.
Qed.

Lemma half_day_loop_breaks_kept (ss se : datetime) (b : datetime) :
  In b (half_day_loop_breaks ss se) -> (b =? HHMM_1900 ss) = false.
Proof.
  intros H. destruct (loop_breaks ss (td_seconds (se - ss) / 3600)) as [_ Hin].
  destruct (Hin b H) as [x [Hx ->]]. apply Z.eqb_neq.
  rewrite HHMM_1900_strptime. unfold strptime_HM, strftime_HM. cbn [hh mm].
  unfold datetime in *. lia.
Qed.

Lemma half_day_object_default (r : roboRate) (ss : datetime) :
  default_policy (half_day_object r ss).
Proof.
  unfold half_day_object.
  destruct (parse_roboRate_values r (weekday ss)) as [[[ds de] dr] nr].
  split; reflexivity.
Qed.

(** What the break loop of a half day on one date takes away: an hour for
    each time its hour loop yields, from the day or from the night. *)
Lemma half_day_minutes_charged (ss se : datetime) (d : RobotWorkDay) (dm nm : Q) :
  default_policy d -> toordinal ss = toordinal se -> ss <= se ->
  get_minutes_worked (SHIFT_CONFINED ss se d)
    (get_break_timings (SHIFT_CONFINED ss se d)) = Ok (dm, nm) ->
  exists before,
    minutes_before_breaks (SHIFT_CONFINED ss se d) = Ok before
    /\ (dm == fst before
              - inject_Z (60 * day_breaks (in_day_closed d) (half_day_loop_breaks ss se)))%Q
    /\ (nm == snd before
              - inject_Z (60 * night_breaks (in_day_closed d) (half_day_loop_breaks ss se)))%Q.
Proof.
  intros [Hw Hb] Hord Hle H.
  apply get_minutes_worked_inv in H as [before [breaks [Hbef [Hg Hsub]]]].
  exists before. split; [exact Hbef |].
  cbn [base] in Hsub. rewrite Hb in Hsub.
  change (skips (SHIFT_CONFINED ss se d))
    with (fun b : datetime => b =? HHMM_1900 ss) in Hsub.
  change (in_day (SHIFT_CONFINED ss se d)) with (in_day_closed d) in Hsub.
  cbn [get_break_timings] in Hg. unfold RobotWorkHalfDay_get_break_timings in Hg.
  rewrite Hw, Hb in Hg. unfold day_breaks, night_breaks.
  destruct (Z.gtb_spec (se - ss) (hours 8)) as [Hgt | Hshort];
    apply Ok_inj in Hg; subst breaks.
  - change (map _ _) with (half_day_loop_breaks ss se) in Hsub.
    destruct (subtract_breaks_unskipped (fun b => b =? HHMM_1900 ss)
                (in_day_closed d) (half_day_loop_breaks ss se)
                (half_day_loop_breaks_kept ss se) (fst before) (snd before))
      as [E1 E2].
    rewrite Hsub in E1, E2. cbn [fst snd] in E1, E2. split; assumption.
  - cbn [subtract_breaks] in Hsub.
    rewrite <- HHMM_1900_strptime, Z.eqb_refl in Hsub.
    assert (Hnil : half_day_loop_breaks ss se = []).
    { unfold half_day_loop_breaks.
      replace (break_loop 8 1 (range (td_seconds (se - ss) / 3600)) false 0 0)
        with (@nil Z); [reflexivity |].
      symmetry. apply no_element_nil. intros x Hx.
      apply range_break_hours in Hx; [| lia | lia | lia].
      destruct Hx as [Hx [j [Hj ->]]].
      rewrite td_seconds_small in Hx by (unfold hours, timedelta in *; lia).
      unfold hours in Hshort. destruct Hx as [_ Hx]. revert Hx Hshort.
      generalize (se - ss). intros y Hx Hy.
      Z.to_euclidean_division_equations; lia. }
    rewrite Hnil. cbn [filter length Z.of_nat].
    change (inject_Z (60 * 0)) with 0%Q.
    injection Hsub as E1 E2. rewrite E1, E2. split; ring.
Qed.

(** The case split of the half day, where it does not fall through, counts
    the seconds the shift shares with the day window. *)
Lemma half_day_before_overlap (ss se : datetime) (d : RobotWorkDay)
    (before : Q * Q) :
  window_ok d -> toordinal ss = toordinal se -> ss <= se ->
  minutes_before_breaks (SHIFT_CONFINED ss se d) = Ok before ->
  (fst before == minutes_of_seconds (overlap_seconds ss se d))%Q
  /\ (snd before == minutes_of_seconds (se - ss) - fst before)%Q.
Proof.
  intros Hw Hord Hle H.
  destruct (window_seconds d Hw) as [a [b [Hs [He [Ha [Hb [Hsds [Hsde Htd]]]]]]]].
  pose proof (datetime_split ss) as Hss.
  pose proof (second_of_day_range ss) as Hr.
  pose proof (datetime_split se) as Hse.
  pose proof (second_of_day_range se) as Hre.
  assert (Hlen : td_seconds (se - ss) = se - ss).
  { rewrite td_seconds_small; unfold datetime, timedelta in *; lia. }
  cbn [minutes_before_breaks] in H.
  unfold RobotWorkHalfDay_minutes_before_breaks in H.
  apply bind_Ok in H as [q [Hq H]]. apply Ok_inj in H. subst before.
  cbn [fst snd]. rewrite Hlen. split; [| reflexivity].
  unfold RobotWorkHalfDay_day_minutes in Hq. cbv zeta in Hq.
  rewrite Hsds, Hsde, Htd, Hlen in Hq. unfold overlap_seconds.
  destruct (Z.geb_spec ss (toordinal ss * 86400 + b)),
    (Z.leb_spec se (toordinal ss * 86400 + a)),
    (Z.ltb_spec ss (toordinal ss * 86400 + a)),
    (Z.gtb_spec se (toordinal ss * 86400 + b)),
    (Z.gtb_spec ss (toordinal ss * 86400 + a)),
    (Z.ltb_spec se (toordinal ss * 86400 + b));
    cbn [orb andb] in Hq; try discriminate; apply Ok_inj in Hq; subst q;
    try (apply minutes_of_seconds_zero; unfold datetime in *; lia);
    try (rewrite td_seconds_small by (unfold datetime, timedelta in *; lia));
    apply minutes_of_seconds_eq; unfold datetime in *; lia.
Qed.

Lemma minutes_of_seconds_whole (m : Z) :
  (minutes_of_seconds (60 * m) == inject_Z m)%Q.
Proof.
  unfold minutes_of_seconds. rewrite inject_Z_mult.
  change (inject_Z 60) with 60%Q. field.
Qed.

(** The pay of a half day on one date whose shift and day window are on
    whole minutes: [M] minutes of the shift lie in the day window, [T - M]
    outside, and each break takes 60 from one of the two. *)
Lemma half_day_pay_whole_minutes (ss se : datetime) (r : roboRate) (p M T : Z) :
  let d := half_day_object r ss in
  window_ok d -> toordinal ss = toordinal se -> ss <= se ->
  overlap_seconds ss se d = 60 * M -> se - ss = 60 * T ->
  calculate_half_day_pay ss se r = Ok p ->
  p = (M - 60 * day_breaks (in_day_closed d) (half_day_loop_breaks ss se)) * day_rate d
      + (T - M - 60 * night_breaks (in_day_closed d) (half_day_loop_breaks ss se))
        * night_rate d.
Proof.
  intros d Hw Hord Hle HM HT H.
  rewrite calculate_half_day_pay_object in H. fold d in H.
  apply bind_Ok in H as [[dm nm] [Hm H]]. apply Ok_inj in H. subst p.
  cbn [fst snd].
  destruct (half_day_minutes_charged ss se d dm nm
              (half_day_object_default r ss) Hord Hle Hm)
    as [before [Hbef [Edm Enm]]].
  destruct (half_day_before_overlap ss se d before Hw Hord Hle Hbef)
    as [Ef Es].
  apply whole_minutes_paid_exactly_aux.
  - rewrite Edm, Ef, HM, minutes_of_seconds_whole, <- inject_Z_sub.
    reflexivity.
  - rewrite Enm, Es, Ef, HM, HT, !minutes_of_seconds_whole, <- !inject_Z_sub.
    reflexivity.
Qed.

(** [calculate_half_day_pay] returns unless the case split falls through. *)
Lemma half_day_pay_returns (ss se : datetime) (r : roboRate) :
  (exists p, calculate_half_day_pay ss se r = Ok p)
  <-> ~ falls_through ss se (half_day_object r ss).
Proof.
  rewrite calculate_half_day_pay_object. set (d := half_day_object r ss).
  destruct (half_day_generator_returns ss se d) as [breaks Hg].
  unfold get_minutes_worked. rewrite Hg.
  cbn [minutes_before_breaks]. unfold RobotWorkHalfDay_minutes_before_breaks.
  rewrite <- half_day_falls_through.
  destruct (RobotWorkHalfDay_day_minutes ss se d) as [q | e] eqn:Hq;
    cbn [bind].
  - split; [discriminate | eauto].
  - pose proof (half_day_day_minutes_exn ss se d e Hq). subst e.
    split; [intros [p Hp]; discriminate | intros Hn; contradiction Hn; reflexivity].
Qed.

(** A time of day on a whole minute, against the midnight before it. *)
Lemma whole_minute (t : datetime) :
  second t = 0 -> exists q, second_of_day t = 60 * q.
Proof.
  unfold second. intros H. exists (second_of_day t / 60).
  revert H. generalize (second_of_day t). intros x H.
  Z.to_euclidean_division_equations; lia.
Qed.

Lemma overlap_whole_minutes (ss se : datetime) (d : RobotWorkDay) :
  window_ok d -> second (day_start d) = 0 -> second (day_end d) = 0 ->
  second ss = 0 -> second se = 0 ->
  exists M, overlap_seconds ss se d = 60 * M.
Proof.
  intros Hw Hds Hde Hss Hse.
  destruct (whole_minute _ Hds) as [qs Hqs].
  destruct (whole_minute _ Hde) as [qe Hqe].
  destruct (whole_minute _ Hss) as [q1 Hq1].
  destruct (whole_minute _ Hse) as [q2 Hq2].
  destruct Hw as [H1 [H2 H3]]. rewrite epoch1900_seconds in *.
  assert (Hsod : forall t, 59926694400 <= t < 59926694400 + 86400 ->
                           second_of_day t = t - 59926694400).
  { intros t Ht. unfold second_of_day. Z.to_euclidean_division_equations; lia. }
  rewrite Hsod in Hqs, Hqe by (unfold datetime in *; lia).
  unfold overlap_seconds. rewrite epoch1900_seconds, Hq1, Hq2.
  exists (Z.max 0 (Z.min qe q2 - Z.max qs q1)).
  unfold datetime in *. lia.
Qed.

(** ** The shift-start day on whole minutes *)

Lemma start_day_loop_breaks_kept (ss b : datetime) :
  In b (start_day_loop_breaks ss) -> (b =? HHMM_1900 ss) = false.
Proof.
  intros H. destruct (loop_breaks ss (24 - hour ss)) as [_ Hin].
  destruct (Hin b H) as [x [Hx ->]]. apply Z.eqb_neq.
  rewrite HHMM_1900_strptime. unfold strptime_HM, strftime_HM. cbn [hh mm].
  unfold datetime in *. lia.
Qed.

(** A shift-start day that starts early enough for a break runs its hour
    loop, and its break loop takes an hour for each time that loop yields. *)
Lemma start_day_minutes_charged (ss : datetime) (d : RobotWorkDay) :
  default_policy d -> ss <= latest_break_time_of ss d ->
  exists dm nm,
    get_minutes_worked (SHIFT_START ss d) (get_break_timings (SHIFT_START ss d))
    = Ok (dm, nm)
    /\ get_break_timings (SHIFT_START ss d) = Ok (start_day_loop_breaks ss)
    /\ (dm == fst (RobotShiftStartDay_minutes_before_breaks ss d)
              - inject_Z (60 * day_breaks (in_day_half_open d)
                                 (start_day_loop_breaks ss)))%Q
    /\ (nm == snd (RobotShiftStartDay_minutes_before_breaks ss d)
              - inject_Z (60 * night_breaks (in_day_half_open d)
                                 (start_day_loop_breaks ss)))%Q.
Proof.
  intros [Hw Hb] Hlate.
  assert (Hg : get_break_timings (SHIFT_START ss d)
               = Ok (start_day_loop_breaks ss)).
  { cbn [get_break_timings]. unfold RobotShiftStartDay_get_break_timings.
    fold (latest_break_time_of ss d).
    rewrite (proj2 (Z.leb_le _ _) Hlate), Hw, Hb. reflexivity. }
  rewrite Hg. unfold get_minutes_worked. cbn [minutes_before_breaks bind base].
  rewrite Hb.
  change (skips (SHIFT_START ss d))
    with (fun b : datetime => b =? HHMM_1900 ss).
  change (in_day (SHIFT_START ss d)) with (in_day_half_open d).
  set (before := RobotShiftStartDay_minutes_before_breaks ss d).
  destruct (subtract_breaks_unskipped (fun b : datetime => b =? HHMM_1900 ss)
              (in_day_half_open d) (start_day_loop_breaks ss)
              (start_day_loop_breaks_kept ss) (fst before) (snd before))
    as [E1 E2].
  destruct (subtract_breaks _ _ _ _ _ _) as [dm nm]. cbn [fst snd] in E1, E2.
  exists dm, nm. split; [reflexivity |]. split; [reflexivity |].
  split; assumption.
Qed.

Lemma start_day_before_overlap (ss : datetime) (d : RobotWorkDay) :
  window_ok d ->
  (fst (RobotShiftStartDay_minutes_before_breaks ss d)
   == minutes_of_seconds (start_overlap_seconds ss d))%Q
  /\ (snd (RobotShiftStartDay_minutes_before_breaks ss d)
      == minutes_of_seconds (86400 - second_of_day ss)
         - fst (RobotShiftStartDay_minutes_before_breaks ss d))%Q.
Proof.
  intros Hw.
  destruct (window_seconds d Hw) as [a [b [Hs [He [Ha [Hb [Hsds [Hsde Htd]]]]]]]].
  pose proof (datetime_split ss) as Hss.
  pose proof (second_of_day_range ss) as Hr.
  split.
  - unfold RobotShiftStartDay_minutes_before_breaks, start_overlap_seconds.
    cbn [fst]. rewrite Hsds, Hsde, Htd.
    destruct (Z.ltb_spec ss (toordinal ss * 86400 + a)) as [H1 | H1];
      [| destruct (Z.ltb_spec ss (toordinal ss * 86400 + b)) as [H2 | H2]].
    + apply minutes_of_seconds_eq. unfold datetime in *. lia.
    + rewrite td_seconds_small by (unfold datetime, timedelta in *; lia).
      apply minutes_of_seconds_eq. unfold datetime in *. lia.
    + apply minutes_of_seconds_zero. unfold datetime in *. lia.
  - unfold RobotShiftStartDay_minutes_before_breaks. cbv zeta. cbn [fst snd].
    match goal with |- (_ - ?x == _ - ?x)%Q => generalize x end.
    intros dm.
    assert (E : 86400 - second_of_day ss
                = (24 - hour ss) * 60 * 60 - minute ss * 60 - second ss).
    { pose proof (second_of_day_split ss). lia. }
    rewrite E. unfold minutes_of_seconds.
    rewrite !inject_Z_sub, !inject_Z_mult. field.
Qed.

Lemma start_day_whole_minutes (ss : datetime) (d : RobotWorkDay) (M T : Z) :
  default_policy d -> window_ok d -> ss <= latest_break_time_of ss d ->
  start_overlap_seconds ss d = 60 * M -> 86400 - second_of_day ss = 60 * T ->
  exists dm nm,
    get_minutes_worked (SHIFT_START ss d) (get_break_timings (SHIFT_START ss d))
    = Ok (dm, nm)
    /\ get_break_timings (SHIFT_START ss d) = Ok (start_day_loop_breaks ss)
    /\ (dm == inject_Z (M - 60 * day_breaks (in_day_half_open d)
                                   (start_day_loop_breaks ss)))%Q
    /\ (nm == inject_Z (T - M - 60 * night_breaks (in_day_half_open d)
                                       (start_day_loop_breaks ss)))%Q.
Proof.
  intros Hp Hw Hlate HM HT.
  destruct (start_day_minutes_charged ss d Hp Hlate)
    as [dm [nm [Hm [Hg [Edm Enm]]]]].
  destruct (start_day_before_overlap ss d Hw) as [Ef Es].
  exists dm, nm. split; [exact Hm |]. split; [exact Hg |]. split.
  - rewrite Edm, Ef, HM, minutes_of_seconds_whole, <- inject_Z_sub.
    reflexivity.
  - rewrite Enm, Es, Ef, HM, HT, !minutes_of_seconds_whole, <- !inject_Z_sub.
    reflexivity.
Qed.

Lemma start_overlap_whole_minutes (ss : datetime) (d : RobotWorkDay) :
  whole_minute_window d -> second ss = 0 ->
  exists M, start_overlap_seconds ss d = 60 * M.
Proof.
  intros [Hw [Hds Hde]] Hss.
  destruct (whole_minute _ Hds) as [qs Hqs].
  destruct (whole_minute _ Hde) as [qe Hqe].
  destruct (whole_minute _ Hss) as [q1 Hq1].
  destruct Hw as [H1 [H2 H3]]. rewrite epoch1900_seconds in *.
  assert (Hsod : forall t, 59926694400 <= t < 59926694400 + 86400 ->
                           second_of_day t = t - 59926694400).
  { intros t Ht. unfold second_of_day. Z.to_euclidean_division_equations; lia. }
  rewrite Hsod in Hqs, Hqe by (unfold datetime in *; lia).
  unfold start_overlap_seconds. rewrite epoch1900_seconds, Hq1.
  exists (Z.max 0 (qe - Z.max qs q1)).
  unfold datetime in *. lia.
Qed.

(** The time of last break a shift-start day hands on is its last break,
    wherever the list it is the end of started. *)
Lemma start_day_hands_on (ss : datetime) (d : RobotWorkDay)
    (front : list datetime) (t t' : hhmm) :
  default_policy d -> ss <= latest_break_time_of ss d ->
  last_break (front ++ start_day_loop_breaks ss) t
  = last_break (start_day_loop_breaks ss) t'.
Proof.
  intros [Hw Hb] Hlate.
  assert (Hne : start_day_loop_breaks ss <> []).
  { intros E.
    assert (Hin : In (break_time_dt (hour ss + 8 + 0 * (8 + 1)) (minute ss))
                    (start_day_loop_breaks ss)).
    { apply loop_break_times; [lia | lia |]. exists 0.
      split; [lia |]. split; [| reflexivity].
      unfold latest_break_time_of, on_date_of, days, hours in Hlate.
      rewrite Hw, Hb in Hlate.
      pose proof (datetime_split ss). pose proof (second_of_day_split ss).
      pose proof (minute_range ss). pose proof (second_range ss).
      unfold datetime in *. lia. }
    rewrite E in Hin. destruct Hin. }
  destruct (exists_last Hne) as [l [x E]]. rewrite E.
  rewrite app_assoc, !last_break_last. reflexivity.
Qed.

(** ** The later days of a run on whole minutes *)

Lemma subtract_breaks_whole (skip in_day : datetime -> bool)
    (breaks : list datetime) :
  forall (dm nm : Q) (x y : Z),
    (dm == inject_Z x)%Q -> (nm == inject_Z y)%Q ->
    exists x' y',
      (fst (subtract_breaks skip in_day 1 breaks dm nm) == inject_Z x')%Q
      /\ (snd (subtract_breaks skip in_day 1 breaks dm nm) == inject_Z y')%Q.
Proof.
  induction breaks as [| b rest IH]; intros dm nm x y Hx Hy;
    cbn [subtract_breaks].
  - exists x, y. cbn [fst snd]. split; assumption.
  - change (inject_Z (1 * 60)) with (inject_Z 60).
    destruct (skip b); [apply (IH dm nm x y Hx Hy) |].
    destruct (in_day b).
    + apply (IH _ _ (x - 60) y); [| exact Hy].
      rewrite Hx, inject_Z_sub. reflexivity.
    + apply (IH _ _ x (y - 60)); [exact Hx |].
      rewrite Hy, inject_Z_sub. reflexivity.
Qed.

Lemma window_whole_minutes (d : RobotWorkDay) :
  whole_minute_window d ->
  exists a b,
    0 <= 60 * a < 60 * b /\ 60 * b < 86400
    /\ (forall x, shift_day_start x d = toordinal x * 86400 + 60 * a)
    /\ (forall x, shift_day_end x d = toordinal x * 86400 + 60 * b)
    /\ td_seconds (day_end d - day_start d) = 60 * (b - a).
Proof.
  intros [Hw [Hds Hde]].
  destruct (window_seconds d Hw) as [a [b [Hs [He [Ha [Hb [Hsds [Hsde Htd]]]]]]]].
  destruct (whole_minute _ Hds) as [qs Hqs].
  destruct (whole_minute _ Hde) as [qe Hqe].
  rewrite epoch1900_seconds in *.
  assert (Hsod : forall t, 59926694400 <= t < 59926694400 + 86400 ->
                           second_of_day t = t - 59926694400).
  { intros t Ht. unfold second_of_day. Z.to_euclidean_division_equations; lia. }
  rewrite Hsod in Hqs, Hqe by (unfold datetime in *; lia).
  assert (Ea : a = 60 * qs) by (unfold datetime in *; lia).
  assert (Eb : b = 60 * qe) by (unfold datetime in *; lia).
  subst a b. exists qs, qe.
  split; [lia |]. split; [lia |]. split; [exact Hsds |].
  split; [exact Hsde |]. lia.
Qed.

Lemma full_day_before_whole (d : RobotWorkDay) :
  whole_minute_window d ->
  exists x y,
    (fst (RobotWorkDay_minutes_before_breaks d) == inject_Z x)%Q
    /\ (snd (RobotWorkDay_minutes_before_breaks d) == inject_Z y)%Q.
Proof.
  intros Hw.
  destruct (window_whole_minutes d Hw) as [a [b [_ [_ [_ [_ Htd]]]]]].
  unfold RobotWorkDay_minutes_before_breaks. cbv zeta. cbn [fst snd].
  rewrite Htd. exists (b - a), (24 * 60 - (b - a)). split.
  - apply minutes_of_seconds_whole.
  - rewrite minutes_of_seconds_whole, <- inject_Z_sub. reflexivity.
Qed.

Lemma end_day_before_whole (se : datetime) (d : RobotWorkDay) :
  whole_minute_window d -> second se = 0 ->
  exists x y,
    (fst (RobotShiftEndDay_minutes_before_breaks se d) == inject_Z x)%Q
    /\ (snd (RobotShiftEndDay_minutes_before_breaks se d) == inject_Z y)%Q.
Proof.
  intros Hw Hsec.
  destruct (window_whole_minutes d Hw) as [a [b [Ha [Hb [Hsds [Hsde Htd]]]]]].
  destruct (whole_minute se Hsec) as [q Hq].
  pose proof (datetime_split se) as Hse.
  pose proof (second_of_day_range se) as Hr.
  pose proof (second_of_day_split se) as Hsplit.
  assert (Hdm : exists x,
            (fst (RobotShiftEndDay_minutes_before_breaks se d)
             == inject_Z x)%Q).
  { unfold RobotShiftEndDay_minutes_before_breaks. cbn [fst].
    rewrite Hsds, Hsde, Htd.
    destruct (Z.ltb_spec se (toordinal se * 86400 + 60 * a)) as [H1 | H1];
      [| destruct (Z.ltb_spec se (toordinal se * 86400 + 60 * b))
           as [H2 | H2]].
    - exists 0. reflexivity.
    - exists (q - a).
      rewrite td_seconds_small by (unfold datetime, timedelta in *; lia).
      replace (se - (toordinal se * 86400 + 60 * a)) with (60 * (q - a))
        by (unfold datetime in *; lia).
      apply minutes_of_seconds_whole.
    - exists (b - a). apply minutes_of_seconds_whole. }
  destruct Hdm as [x Hx]. exists x, (hour se * 60 + minute se - x).
  split; [exact Hx |].
  unfold RobotShiftEndDay_minutes_before_breaks in *. cbv zeta in *.
  cbn [fst snd] in *. rewrite Hx, Hsec, inject_Z_sub, inject_Z_plus.
  change (inject_Z 0) with 0%Q. field.
Qed.

(** The day objects the day loop builds after the first day. *)
Lemma work_day_of_later (r : roboRate) (ss se : datetime) (n i : Z)
    (st : loop_state) :
  i <> 0 -> whole_minute_window (half_day_object r (current_day st)) ->
  exists d,
    default_policy d /\ whole_minute_window d
    /\ (work_day_of r ss se n i st = SHIFT_END se d
        \/ work_day_of r ss se n i st = FULL d).
Proof.
  intros Hi Hw. unfold work_day_of, half_day_object in *.
  destruct (parse_roboRate_values r (weekday (current_day st)))
    as [[[ds de] dr] nr].
  exists (RobotWorkDay_init ds de dr nr (Some (carried_break st)) None None).
  split; [split; reflexivity |]. split; [exact Hw |].
  destruct (Z.eqb_spec i 0) as [H0 | H0]; [contradiction |].
  destruct (i =? n); auto.
Qed.

Lemma later_day_pay_whole (se : datetime) (d : RobotWorkDay) (s : segment)
    (dm nm : Q) :
  default_policy d -> whole_minute_window d -> second se = 0 ->
  s = SHIFT_END se d \/ s = FULL d ->
  get_minutes_worked s (get_break_timings s) = Ok (dm, nm) ->
  exists z, (calculate_pay (base s) dm nm == inject_Z z)%Q.
Proof.
  intros [Hwd Hbd] Hw Hsec Hs H.
  apply get_minutes_worked_inv in H as [before [breaks [Hbef [_ Hsub]]]].
  assert (Hbase : base s = d) by (destruct Hs as [-> | ->]; reflexivity).
  rewrite Hbase in *. rewrite Hbd in Hsub.
  assert (Hb : exists x y, (fst before == inject_Z x)%Q
                           /\ (snd before == inject_Z y)%Q).
  { destruct Hs as [-> | ->]; cbn [minutes_before_breaks] in Hbef;
      apply Ok_inj in Hbef; subst before.
    - apply end_day_before_whole; assumption.
    - apply full_day_before_whole; assumption. }
  destruct Hb as [x [y [Hx Hy]]].
  destruct (subtract_breaks_whole (skips s) (in_day s) breaks _ _ x y Hx Hy)
    as [x' [y' [Hx' Hy']]].
  rewrite Hsub in Hx', Hy'. cbn [fst snd] in Hx', Hy'.
  exists (x' * day_rate d + y' * night_rate d).
  apply whole_minutes_paid_exactly_aux; assumption.
Qed.

(** After the first day an iteration reads the date and the time of last
    break it is handed, and the shift end; the shift start no longer. *)
Lemma loop_body_later (r : roboRate) (a b c : datetime) (n i : Z)
    (st stx st' : loop_state) :
  i <> 0 -> (forall t, whole_minute_window (half_day_object r t)) ->
  second c = 0 ->
  toordinal (current_day stx) = toordinal (current_day st) ->
  carried_break stx = carried_break st ->
  loop_body r b c n stx i = Ok st' ->
  exists st'' z,
    loop_body r a c n st i = Ok st''
    /\ toordinal (current_day st') = toordinal (current_day st'')
    /\ carried_break st' = carried_break st''
    /\ (value st' == value stx + inject_Z z)%Q
    /\ (value st'' == value st + inject_Z z)%Q.
Proof.
  intros Hi Hw Hsec Hd Hc H. unfold loop_body in *.
  assert (E : work_day_of r b c n i stx = work_day_of r a c n i st).
  { unfold work_day_of, weekday. rewrite Hd, Hc.
    destruct (parse_roboRate_values _ _) as [[[ds de] dr] nr].
    destruct (Z.eqb_spec i 0) as [H0 | H0]; [contradiction | reflexivity]. }
  rewrite E in H.
  destruct (work_day_of_later r a c n i st Hi (Hw _)) as [d [Hp [Hwd Hcase]]].
  set (w := work_day_of r a c n i st) in *.
  apply bind_Ok in H as [[dm nm] [Hm H]].
  apply bind_Ok in H as [breaks [Hg H]]. apply Ok_inj in H. subst st'.
  destruct (later_day_pay_whole c d w dm nm Hp Hwd Hsec Hcase Hm) as [z Hz].
  rewrite Hm, Hg. cbn [bind fst snd].
  eexists. exists z. split; [reflexivity |].
  cbn [current_day carried_break value].
  split; [rewrite !toordinal_shift, Hd; reflexivity |].
  split; [rewrite Hc; reflexivity |].
  split; rewrite Hz; reflexivity.
Qed.

Lemma for_each_later (r : roboRate) (a b c : datetime) (n : Z)
    (indices : list Z) :
  (forall i, In i indices -> i <> 0) ->
  (forall t, whole_minute_window (half_day_object r t)) -> second c = 0 ->
  forall st stx st',
    toordinal (current_day stx) = toordinal (current_day st) ->
    carried_break stx = carried_break st ->
    for_each (loop_body r b c n) indices stx = Ok st' ->
    exists st'' z,
      for_each (loop_body r a c n) indices st = Ok st''
      /\ (value st' == value stx + inject_Z z)%Q
      /\ (value st'' == value st + inject_Z z)%Q.
Proof.
  intros Hnz Hw Hsec.
  induction indices as [| i rest IH]; intros st stx st' Hd Hc H;
    cbn [for_each] in *.
  - apply Ok_inj in H. subst st'. exists st, 0.
    split; [reflexivity |]. change (inject_Z 0) with 0%Q. split; ring.
  - apply bind_Ok in H as [stx1 [H1 H]].
    destruct (loop_body_later r a b c n i st stx stx1
                (Hnz i (or_introl eq_refl)) Hw Hsec Hd Hc H1)
      as [st1 [z1 [Ha [Hd1 [Hc1 [Hv1 Hv1']]]]]].
    destruct (IH (fun j Hj => Hnz j (or_intror Hj)) st1 stx1 st' Hd1 Hc1 H)
      as [st'' [z [Hrun [Hv Hv']]]].
    exists st'', (z1 + z). rewrite Ha. cbn [bind]. split; [exact Hrun |].
    rewrite inject_Z_plus. split.
    + rewrite Hv, Hv1. ring.
    + rewrite Hv', Hv1'. ring.
Qed.

Lemma int_of_whole (q : Q) (z : Z) : (q == inject_Z z)%Q -> int_of q = z.
Proof.
  unfold Qeq, inject_Z, int_of. cbn [Qnum Qden]. intros H.
  rewrite Z.mul_1_r in H. rewrite H. apply Z.quot_mul. discriminate.
Qed.

Lemma range_later (n : Z) :
  0 <= n ->
  range (n + 1) = 0 :: tl (range (n + 1))
  /\ forall i, In i (tl (range (n + 1))) -> i <> 0.
Proof.
  intros H. unfold range.
  replace (Z.to_nat (n + 1)) with (S (Z.to_nat n)) by lia.
  cbn [seq map tl]. split; [reflexivity |].
  intros i Hi. apply in_map_iff in Hi as [j [<- Hj]].
  apply in_seq in Hj. lia.
Qed.

Lemma shift_duration_days_nonneg (ss se : datetime) :
  0 <= shift_duration_days ss se.
Proof.
  rewrite shift_duration_days_max.
  pose proof (day_count_by_seconds_nonneg ss se). lia.
Qed.

(** A run of the day loop, from its second day on. *)
Lemma run_days_from_first_day (ss se : datetime) (r : roboRate) (mw : Q * Q)
    (breaks : list datetime) :
  let d := half_day_object r ss in
  get_minutes_worked (SHIFT_START ss d) (get_break_timings (SHIFT_START ss d))
  = Ok mw ->
  get_break_timings (SHIFT_START ss d) = Ok breaks ->
  run_days ss se r
  = for_each (loop_body r ss se (shift_duration_days ss se))
      (tl (range (shift_duration_days ss se + 1)))
      {| current_day := ss + days 1;
         carried_break := last_break breaks (strftime_HM ss);
         value := (0 + calculate_pay d (fst mw) (snd mw))%Q;
         processed := [SHIFT_START ss d] |}.
Proof.
  intros d Hm Hg. unfold run_days. cbv zeta.
  destruct (range_later _ (shift_duration_days_nonneg ss se)) as [E _].
  rewrite E at 1. cbn [for_each]. unfold loop_body at 1.
  assert (Hw : work_day_of r ss se (shift_duration_days ss se) 0
                 (initial_state ss) = SHIFT_START ss d).
  { unfold work_day_of, d, half_day_object. cbn [initial_state current_day].
    destruct (parse_roboRate_values r (weekday ss)) as [[[ds de] dr] nr].
    reflexivity. }
  rewrite Hw, Hm, Hg. cbn [bind base]. reflexivity.
Qed.

(** ** Two sub-shifts against the whole shift *)

Lemma overlap_seconds_split (a b c : datetime) (d : RobotWorkDay) :
  window_ok d ->
  second_of_day a <= second_of_day b -> second_of_day b <= second_of_day c ->
  overlap_seconds a c d = overlap_seconds a b d + overlap_seconds b c d.
Proof.
  intros [H1 [H2 H3]] Hab Hbc. unfold overlap_seconds, datetime in *. lia.
Qed.

Lemma start_overlap_seconds_split (a b : datetime) (d : RobotWorkDay) :
  window_ok d -> second_of_day a <= second_of_day b ->
  start_overlap_seconds a d
  = overlap_seconds a b d + start_overlap_seconds b d.
Proof.
  intros [H1 [H2 H3]] Hab.
  unfold start_overlap_seconds, overlap_seconds, datetime in *. lia.
Qed.

Lemma day_breaks_app (in_day : datetime -> bool) (l1 l2 : list datetime) :
  day_breaks in_day (l1 ++ l2) = day_breaks in_day l1 + day_breaks in_day l2
  /\ night_breaks in_day (l1 ++ l2)
     = night_breaks in_day l1 + night_breaks in_day l2.
Proof.
  unfold day_breaks, night_breaks.
  rewrite !filter_app, !length_app, !Nat2Z.inj_add. split; reflexivity.
Qed.

(** The two tests that select the bucket differ on one break time only. *)
Lemma half_open_closed_breaks (d : RobotWorkDay) (l : list datetime) :
  ~ In (day_end d - hours (break_duration_in_hours d)) l ->
  day_breaks (in_day_half_open d) l = day_breaks (in_day_closed d) l
  /\ night_breaks (in_day_half_open d) l = night_breaks (in_day_closed d) l.
Proof.
  intros Hn.
  assert (E : forall x, In x l -> in_day_half_open d x = in_day_closed d x).
  { intros x Hx. unfold in_day_half_open, in_day_closed. f_equal.
    assert (Hne : x <> day_end d - hours (break_duration_in_hours d))
      by (intros ->; contradiction).
    destruct (Z.ltb_spec x (day_end d - hours (break_duration_in_hours d))),
      (Z.leb_spec x (day_end d - hours (break_duration_in_hours d)));
      unfold datetime in *; reflexivity || lia. }
  unfold day_breaks, night_breaks. split; f_equal; f_equal;
    apply filter_ext_in; intros x Hx; rewrite (E x Hx); reflexivity.
Qed.

(** The three shifts on one date: three half days. *)
Lemma split_on_one_date (a c : datetime) (k : Z) (r : roboRate) (p1 p2 : Z) :
  let d := half_day_object r a in
  let b := a + hours (9 * k) in
  0 <= k -> toordinal b = toordinal a -> b <= c ->
  toordinal a = toordinal c ->
  whole_minute_window d -> second a = 0 -> second c = 0 ->
  calculate_half_day_pay a b r = Ok p1 ->
  calculate_half_day_pay b c r = Ok p2 ->
  calculate_half_day_pay a c r = Ok (p1 + p2).
Proof.
  intros d b Hk Hob Hle Hord [Hw [Hds Hde]] Hsa Hsc H1 H2.
  pose proof (later_on_date a (hours (9 * k)) Hob) as Hsb. fold b in Hsb.
  destruct (later_fields a b k Hsb) as [_ [_ Hsecb]].
  assert (Hd : half_day_object r b = d)
    by (unfold d, half_day_object, weekday; rewrite Hob; reflexivity).
  assert (Hbc : toordinal b = toordinal c) by lia.
  assert (Hab : a <= b) by (unfold b, hours; lia).
  pose proof (second_of_day_range a) as Hra.
  pose proof (second_of_day_range b) as Hrb.
  pose proof (second_of_day_range c) as Hrc.
  pose proof (datetime_split a) as Hda. pose proof (datetime_split b) as Hdb.
  pose proof (datetime_split c) as Hdc.
  (* the whole shift does not fall through either *)
  assert (Hret : exists p, calculate_half_day_pay a c r = Ok p).
  { apply half_day_pay_returns. fold d.
    assert (F1 : ~ falls_through a b d)
      by (apply (half_day_pay_returns a b r); eauto).
    assert (F2 : ~ falls_through b c d)
      by (rewrite <- Hd; apply (half_day_pay_returns b c r); eauto).
    destruct (window_seconds d Hw) as [x [y [_ [_ [_ [_ [Hsds [Hsde _]]]]]]]].
    unfold falls_through in *. rewrite !Hsds, !Hsde in *.
    rewrite Hob in F2. unfold datetime in *. lia. }
  destruct Hret as [p Hp]. rewrite Hp. f_equal.
  (* the three pays *)
  destruct (overlap_whole_minutes a b d Hw Hds Hde Hsa) as [M1 HM1];
    [congruence |].
  destruct (overlap_whole_minutes b c d Hw Hds Hde) as [M2 HM2];
    [congruence | exact Hsc |].
  destruct (whole_minute a Hsa) as [qa Hqa].
  destruct (whole_minute c Hsc) as [qc Hqc].
  assert (HT1 : b - a = 60 * (540 * k)) by (unfold b, hours; lia).
  assert (HT2 : c - b = 60 * (qc - qa - 540 * k))
    by (unfold hours, datetime in *; lia).
  assert (HT : c - a = 60 * (540 * k + (qc - qa - 540 * k)))
    by (unfold datetime in *; lia).
  assert (HM : overlap_seconds a c d = 60 * (M1 + M2)).
  { rewrite (overlap_seconds_split a b c d Hw);
      unfold hours, datetime in *; lia. }
  pose proof (half_day_pay_whole_minutes a b r p1 M1 _ Hw (eq_sym Hob) Hab
                HM1 HT1 H1) as E1.
  pose proof (half_day_pay_whole_minutes b c r p2 M2 (qc - qa - 540 * k))
    as E2.
  cbv zeta in E2. rewrite Hd in E2. specialize (E2 Hw Hbc Hle HM2 HT2 H2).
  pose proof (half_day_pay_whole_minutes a c r p (M1 + M2) _ Hw Hord
                (Z.le_trans _ _ _ Hab Hle) HM HT Hp) as E.
  cbv zeta in E1, E. fold d in E1, E.
  rewrite (half_day_loop_breaks_split a c k Hob Hord Hk Hle) in E. fold b in E.
  destruct (day_breaks_app (in_day_closed d) (half_day_loop_breaks a b)
              (half_day_loop_breaks b c)) as [Ed En].
  rewrite Ed, En in E. rewrite E, E1, E2. ring.
Qed.

(** A shift over several dates split on its first date: a half day and a
    run of the day loop against a run of the day loop. *)
Lemma split_on_first_date (a c : datetime) (k : Z) (r : roboRate) (p1 p2 : Z) :
  let d := half_day_object r a in
  let b := a + hours (9 * k) in
  0 <= k -> toordinal b = toordinal a ->
  whole_minute_rates r -> second a = 0 -> second c = 0 ->
  b <= latest_break_time_of b d ->
  shift_duration_days b c = shift_duration_days a c ->
  ~ In (day_end d - hours (break_duration_in_hours d))
       (half_day_loop_breaks a b) ->
  calculate_half_day_pay a b r = Ok p1 ->
  calculate_total_pay b c r = Ok p2 ->
  calculate_total_pay a c r = Ok (p1 + p2).
Proof.
  intros d b Hk Hob Hwin Hsa Hsc Hlate Hn Hedge H1 H2.
  pose proof (Hwin a) as Hwm. fold d in Hwm.
  pose proof Hwm as [Hw [Hds Hde]].
  pose proof (half_day_object_default r a) as Hp. fold d in Hp.
  pose proof (later_on_date a (hours (9 * k)) Hob) as Hsb. fold b in Hsb.
  destruct (later_fields a b k Hsb) as [_ [_ Hsecb]].
  assert (Hd : half_day_object r b = d)
    by (unfold d, half_day_object, weekday; rewrite Hob; reflexivity).
  assert (Hab : a <= b) by (unfold b, hours; lia).
  assert (Hlate_a : a <= latest_break_time_of a d).
  { unfold latest_break_time_of, on_date_of in *. rewrite Hob in Hlate.
    unfold datetime in *. lia. }
  pose proof (second_of_day_range a) as Hra.
  pose proof (second_of_day_range b) as Hrb.
  (* whole minutes *)
  destruct (overlap_whole_minutes a b d Hw Hds Hde Hsa) as [M1 HM1];
    [congruence |].
  destruct (start_overlap_whole_minutes b d Hwm) as [Mb HMb]; [congruence |].
  destruct (whole_minute a Hsa) as [qa Hqa].
  assert (HT1 : b - a = 60 * (540 * k)) by (unfold b, hours; lia).
  assert (HTb : 86400 - second_of_day b = 60 * (1440 - qa - 540 * k))
    by (unfold hours in *; lia).
  assert (HTa : 86400 - second_of_day a
                = 60 * (540 * k + (1440 - qa - 540 * k))) by lia.
  assert (HMa : start_overlap_seconds a d = 60 * (M1 + Mb)).
  { rewrite (start_overlap_seconds_split a b d Hw); unfold hours in *; lia. }
  (* the three first days *)
  pose proof (half_day_pay_whole_minutes a b r p1 M1 _ Hw (eq_sym Hob) Hab
                HM1 HT1 H1) as E1.
  cbv zeta in E1. fold d in E1.
  destruct (start_day_whole_minutes a d _ _ Hp Hw Hlate_a HMa HTa)
    as [dma [nma [Hma [Hga [Edma Enma]]]]].
  destruct (start_day_whole_minutes b d _ _ Hp Hw Hlate HMb HTb)
    as [dmb [nmb [Hmb [Hgb [Edmb Enmb]]]]].
  destruct (whole_minutes_paid_exactly_aux d dma nma _ _ Edma Enma)
    as [Hpa _].
  destruct (whole_minutes_paid_exactly_aux d dmb nmb _ _ Edmb Enmb)
    as [Hpb _].
  rewrite (start_day_loop_breaks_split a k Hob Hk) in Hpa. fold b in Hpa.
  destruct (day_breaks_app (in_day_half_open d) (half_day_loop_breaks a b)
              (start_day_loop_breaks b)) as [Ed En].
  destruct (half_open_closed_breaks d _ Hedge) as [Ec Ecn].
  rewrite Ed, En, Ec, Ecn in Hpa.
  (* the run of the second sub-shift, and the run of the whole shift *)
  unfold calculate_total_pay in *.
  apply bind_Ok in H2 as [st2 [Hrun2 H2]]. apply Ok_inj in H2. subst p2.
  rewrite (run_days_from_first_day b c r (dmb, nmb) (start_day_loop_breaks b))
    in Hrun2 by (rewrite Hd; assumption).
  rewrite (run_days_from_first_day a c r (dma, nma) (start_day_loop_breaks a)
             Hma Hga).
  rewrite Hd, Hn in Hrun2. fold d. cbn [fst snd] in *.
  destruct (range_later _ (shift_duration_days_nonneg a c)) as [_ Hnz].
  match type of Hrun2 with
  | for_each _ _ ?stb = _ =>
      match goal with
      | |- bind (for_each _ _ ?sta) _ = _ =>
          destruct (for_each_later r a b c (shift_duration_days a c) _ Hnz
                      Hwin Hsc sta stb st2) as [st [z [Hrun [Hv2 Hv]]]];
            [| | exact Hrun2 |]
      end
  end.
  - cbn [current_day]. rewrite !toordinal_shift, Hob. reflexivity.
  - cbn [carried_break]. rewrite (start_day_loop_breaks_split a k Hob Hk).
    fold b. symmetry. apply (start_day_hands_on b d); assumption.
  - rewrite Hrun. cbn [bind]. f_equal. cbn [value] in Hv2, Hv.
    rewrite Hpb in Hv2. rewrite Hpa in Hv.
    rewrite Qplus_0_l, <- inject_Z_plus in Hv2, Hv.
    rewrite (int_of_whole _ _ Hv2), (int_of_whole _ _ Hv), E1. ring.
Qed.


